(** * The math pipeline of the chatbot: evaluator, classifier, gateway, orchestrator

    A shallow embedding of [PALInterpreter], [OllamaService] and the
    handlers of the [Chatbot] component (src/unnamed/part_000) together
    with the properties the specification states about them and further
    properties read off the code.

    Conventions.
    - A JavaScript string is a [string] whose characters are the code units
      U+0000..U+00FF; regular expressions run over [list ascii].
    - A JavaScript Number is a binary64 [float].
    - A BigInt is a [Z].
    - A regular-expression literal of the source is a [regex] term run by a
      backtracking matcher that follows the ECMAScript matching order
      (leftmost start, greedy quantifiers, no empty iteration of a star). *)

From stdpp Require Import strings gmap.
From Stdlib Require Import ZArith List Ascii String Floats Lia Bool DecimalString DecimalPos.
Import ListNotations.

Local Open Scope string_scope.
Local Open Scope Z_scope.
Local Open Scope list_scope.

(** ** Characters and character classes *)

Definition code (c : ascii) : N := N_of_ascii c.

(** [\d] *)
Definition is_digit (c : ascii) : bool :=
  ((48 <=? code c) && (code c <=? 57))%N.

(** [\s] : WhiteSpace and LineTerminator code units below U+0100. *)
Definition is_space (c : ascii) : bool :=
  ((9 <=? code c) && (code c <=? 13) || (code c =? 32) || (code c =? 160))%N.

Definition one_of (cs : string) (c : ascii) : bool :=
  existsb (Ascii.eqb c) (list_ascii_of_string cs).

(** [[+\-*/]] *)
Definition is_binop (c : ascii) : bool := one_of "+-*/" c.

(** [[+\-*/^%]] *)
Definition is_query_op (c : ascii) : bool := one_of "+-*/^%" c.

(** [[0-9+\-*/().]] *)
Definition is_expr_char (c : ascii) : bool := is_digit c || one_of "+-*/()." c.

(** ** Regular expressions *)

Inductive regex : Type :=
| Empty
| Class (p : ascii -> bool)
| Seq (r1 r2 : regex)
| Star (r : regex)
| Group (i : nat) (r : regex).

(** [r+] *)
Definition Plus (r : regex) : regex := Seq r (Star r).

Fixpoint Repeat (n : nat) (r : regex) : regex :=
  match n with
  | O => Empty
  | S n' => Seq r (Repeat n' r)
  end.

(** [r{n,}] *)
Definition AtLeast (n : nat) (r : regex) : regex := Seq (Repeat n r) (Star r).

Definition Captures := list (nat * list ascii).

Definition Cont (A : Type) := list ascii -> Captures -> option A.

(** The greedy star: one more iteration first, the continuation second; an
    iteration that consumes nothing is rejected. *)
Fixpoint star_loop {A : Type}
    (step : list ascii -> Captures -> Cont A -> option A)
    (fuel : nat) (s : list ascii) (c : Captures) (k : Cont A) : option A :=
  match fuel with
  | O => k s c
  | S fuel' =>
      match step s c (fun s' c' =>
                        if (List.length s' <? List.length s)%nat
                        then star_loop step fuel' s' c' k
                        else None) with
      | Some x => Some x
      | None => k s c
      end
  end.

Fixpoint rmatch {A : Type} (r : regex) (s : list ascii) (c : Captures)
    (k : Cont A) : option A :=
  match r with
  | Empty => k s c
  | Class p =>
      match s with
      | a :: s' => if p a then k s' c else None
      | [] => None
      end
  | Seq r1 r2 => rmatch r1 s c (fun s' c' => rmatch r2 s' c' k)
  | Star r' => star_loop (fun s0 c0 k0 => rmatch r' s0 c0 k0) (List.length s) s c k
  | Group i r' =>
      rmatch r' s c
        (fun s' c' => k s' ((i, firstn (List.length s - List.length s') s) :: c'))
  end.

Record MatchResult : Type := mkMatch {
  m_index : nat;
  m_text : list ascii;
  m_groups : Captures;
  m_rest : list ascii
}.

Definition shift_match (m : MatchResult) : MatchResult :=
  mkMatch (S (m_index m)) (m_text m) (m_groups m) (m_rest m).

(** [RegExp.prototype.exec] without flags: the leftmost start that matches. *)
Fixpoint exec (r : regex) (s : list ascii) : option MatchResult :=
  match rmatch r s [] (fun s' c => Some (s', c)) with
  | Some (s', c) => Some (mkMatch 0 (firstn (List.length s - List.length s') s) c s')
  | None =>
      match s with
      | [] => None
      | _ :: t => option_map shift_match (exec r t)
      end
  end.

(** [RegExp.prototype.test] *)
Definition test (r : regex) (s : string) : bool :=
  match exec r (list_ascii_of_string s) with
  | Some _ => true
  | None => false
  end.

Fixpoint group (i : nat) (c : Captures) : list ascii :=
  match c with
  | [] => []
  | (j, w) :: c' => if Nat.eqb i j then w else group i c'
  end.

(** [String.prototype.replace] with a global pattern and a fixed replacement. *)
Fixpoint replace_loop (fuel : nat) (r : regex) (repl s : list ascii) : list ascii :=
  match fuel with
  | O => s
  | S fuel' =>
      match exec r s with
      | None => s
      | Some m =>
          let before := firstn (m_index m) s in
          match m_text m, m_rest m with
          | [], [] => before ++ repl
          | [], a :: t => before ++ repl ++ a :: replace_loop fuel' r repl t
          | _ :: _, rest => before ++ repl ++ replace_loop fuel' r repl rest
          end
      end
  end.

Definition replace_all (r : regex) (repl : string) (s : string) : string :=
  let l := list_ascii_of_string s in
  string_of_list_ascii
    (replace_loop (S (List.length l)) r (list_ascii_of_string repl) l).

(** [String.prototype.trim] *)
Fixpoint drop_spaces (s : list ascii) : list ascii :=
  match s with
  | a :: s' => if is_space a then drop_spaces s' else s
  | [] => []
  end.

Definition trim (s : string) : string :=
  string_of_list_ascii
    (rev (drop_spaces (rev (drop_spaces (list_ascii_of_string s))))).

(** [String.prototype.toLowerCase] on code units below U+0100. *)
Definition lower_char (c : ascii) : ascii :=
  let n := code c in
  if ((65 <=? n) && (n <=? 90) || (192 <=? n) && (n <=? 222) && negb (n =? 215))%N
  then ascii_of_N (n + 32)
  else c.

Definition toLowerCase (s : string) : string :=
  string_of_list_ascii (map lower_char (list_ascii_of_string s)).

(** [String.prototype.includes] *)
Fixpoint starts_with (p s : list ascii) : bool :=
  match p, s with
  | [], _ => true
  | a :: p', b :: s' => Ascii.eqb a b && starts_with p' s'
  | _ :: _, [] => false
  end.

Fixpoint includes_list (s p : list ascii) : bool :=
  starts_with p s ||
  match s with
  | [] => false
  | _ :: s' => includes_list s' p
  end.

Definition includes (s p : string) : bool :=
  includes_list (list_ascii_of_string s) (list_ascii_of_string p).

(** The patterns of the source. *)

(** [/\s+/g] *)
Definition re_spaces : regex := Plus (Class is_space).

(** [/\d{10,}/] *)
Definition re_large : regex := AtLeast 10 (Class is_digit).

(** [/(\d+)\s*([+\-*/])\s*(\d+)/] *)
Definition re_binary : regex :=
  Seq (Group 1 (Plus (Class is_digit)))
    (Seq (Star (Class is_space))
       (Seq (Group 2 (Class is_binop))
          (Seq (Star (Class is_space))
             (Group 3 (Plus (Class is_digit)))))).

(** [/[^0-9+\-*/().]/g] *)
Definition re_not_expr : regex := Class (fun c => negb (is_expr_char c)).

(** [/\d+[\s]*[+\-*/^%][\s]*\d+/] *)
Definition re_arith : regex :=
  Seq (Plus (Class is_digit))
    (Seq (Star (Class is_space))
       (Seq (Class is_query_op)
          (Seq (Star (Class is_space))
             (Plus (Class is_digit))))).

(** ** Values, completions and evaluation results *)

(** Causes of the errors the engine itself raises; [Native e] below stands
    for the implementation-defined message of such an error. *)
Inductive EngineError : Type :=
| SyntaxError_invalid_source
| TypeError_not_callable
| TypeError_not_iterable
| RangeError_division_by_zero.

(** [error.message] *)
Inductive Message : Type :=
| Text (s : string)
| Native (e : EngineError).

(** The values of the language the evaluator can meet; an object is kept
    as the text [String] gives for it. *)
Inductive JSValue : Type :=
| VUndefined
| VNull
| VBoolean (b : bool)
| VNumber (x : float)
| VBigInt (z : Z)
| VString (s : string)
| VObject (shown : string).

Inductive Completion (A : Type) : Type :=
| Normal (a : A)
| Throw (m : Message).

Arguments Normal {A} a.
Arguments Throw {A} m.

(** [{success: true, result, formatted}] or [{success: false, error}] *)
Inductive EvaluationResult : Type :=
| Ok (result : JSValue) (formatted : JSValue)
| Err (error : Message).

Definition success (r : EvaluationResult) : bool :=
  match r with
  | Ok _ _ => true
  | Err _ => false
  end.

(** ** BigInt *)

Definition digit_value (c : ascii) : Z := Z.of_N (code c) - 48.

(** The value of a string of decimal digits. *)
Definition digits_value (s : list ascii) : Z :=
  fold_left (fun acc c => 10 * acc + digit_value c) s 0.

(** [BigInt(s)] for a string of decimal digits, the only strings the
    captures of [re_binary] hold. *)
Definition BigInt (s : string) : Z := digits_value (list_ascii_of_string s).

(** [BigInt.prototype.toString] *)
Definition BigInt_toString (z : Z) : string :=
  NilZero.string_of_int (Z.to_int z).

Definition evaluateBigInt (expr : string) : EvaluationResult :=
  match exec re_binary (list_ascii_of_string expr) with
  | None => Err (Text "Complex expression not supported")
  | Some m =>
      let num1 := string_of_list_ascii (group 1 (m_groups m)) in
      let op := string_of_list_ascii (group 2 (m_groups m)) in
      let num2 := string_of_list_ascii (group 3 (m_groups m)) in
      let a := BigInt num1 in
      let b := BigInt num2 in
      let answer (result : Z) :=
        Ok (VString (BigInt_toString result)) (VString (BigInt_toString result)) in
      if String.eqb op "+" then answer (a + b)
      else if String.eqb op "-" then answer (a - b)
      else if String.eqb op "*" then answer (a * b)
      else if String.eqb op "/" then
        if b =? 0 then Err (Native RangeError_division_by_zero)
        else answer (Z.quot a b)
      else Err (Text ("Unsupported operator: " ++ op)%string)
  end.

(** ** Numbers *)

Definition prec : Z := 53.
Definition emax : Z := 1024.

(** The Number value of the rational [p/q] ([0 <= p], [0 < q]): round to
    nearest, ties to even.  The quotient is taken with at least 64 bits and
    a sticky bit, then rounded once to binary64. *)
Definition Number_of_ratio (p q : Z) : float :=
  if p <=? 0 then 0%float
  else
    let k := Z.max 0 (Z.log2 q - Z.log2 p + 64) in
    let n := p * 2 ^ k in
    let sticky := if n mod q =? 0 then 0 else 1 in
    SF2Prim (binary_normalize prec emax (2 * (n / q) + sticky) (- k - 1) false).

Definition Number_of_Z (n : Z) : float :=
  SF2Prim (binary_normalize prec emax n 0 false).

(** The constants of [formatNumber]. *)
Definition c_0_0001 : float := 0x1.a36e2eb1c432dp-14%float.
Definition c_1e10 : float := 0x1.2a05f2p+33%float.
Definition c_1e6 : float := 0x1.e848p+19%float.

(** [Math.round]: the nearest integer, ties towards +Infinity; [-0] for
    arguments in [[-0.5, -0]]. *)
Definition Math_round (x : float) : float :=
  match Prim2SF x with
  | S754_finite s m e =>
      if 0 <=? e then x
      else
        let half := 2 ^ (- e) in
        let n := if s then (half - 2 * Z.pos m) / (2 * half)
                 else (2 * Z.pos m + half) / (2 * half) in
        if n =? 0 then (if s then (-0)%float else 0%float) else Number_of_Z n
  | _ => x
  end.

Definition digit_char (d : Z) : ascii := ascii_of_N (Z.to_N (48 + d mod 10)).

(** The [k] low decimal digits of [v], most significant first. *)
Fixpoint fixed_digits (k : nat) (v : Z) : list ascii :=
  match k with
  | O => []
  | S k' => fixed_digits k' (v / 10) ++ [digit_char v]
  end.

(** [q] times ten until [p < q * bound]. *)
Fixpoint scale_down (fuel : nat) (bound p q e : Z) : Z * Z * Z :=
  match fuel with
  | O => (p, q, e)
  | S fuel' =>
      if q * bound <=? p then scale_down fuel' bound p (10 * q) (e + 1)
      else (p, q, e)
  end.

(** [p] times ten until [q * bound <= p]. *)
Fixpoint scale_up (fuel : nat) (bound p q e : Z) : Z * Z * Z :=
  match fuel with
  | O => (p, q, e)
  | S fuel' =>
      if p <? q * bound then scale_up fuel' bound (10 * p) q (e - 1)
      else (p, q, e)
  end.

(** For [x = p/q > 0] and [f] fraction digits: the integers [n] and [e] with
    [10^f <= n < 10^(f+1)] for which [n * 10^(e-f)] is closest to [x], the
    larger [n * 10^(e-f)] when two are equally close. *)
Definition exponential_digits (f : nat) (p q : Z) : Z * Z :=
  let lo := 10 ^ Z.of_nat f in
  let hi := 10 * lo in
  let '(p', q', e) :=
    if q * hi <=? p
    then scale_down (S (Z.to_nat (Z.log2 p))) hi p q (Z.of_nat f)
    else scale_up (S (Z.to_nat (Z.log2 q)) + f) lo p q (Z.of_nat f) in
  let n := (2 * p' + q') / (2 * q') in
  if hi <=? n then (lo, e + 1) else (n, e).

Definition exponent_text (e : Z) : string :=
  if 0 <=? e then ("+" ++ BigInt_toString e)%string
  else ("-" ++ BigInt_toString (- e))%string.

Definition mantissa_text (f : nat) (n : Z) : string :=
  let lead := String (digit_char (n / 10 ^ Z.of_nat f)) "" in
  match f with
  | O => lead
  | S _ => (lead ++ "." ++ string_of_list_ascii (fixed_digits f n))%string
  end.

(** [Number.prototype.toExponential(f)] *)
Definition toExponential (x : float) (f : nat) : string :=
  match Prim2SF x with
  | S754_nan => "NaN"
  | S754_infinity s => if s then "-Infinity" else "Infinity"
  | S754_zero _ => (mantissa_text f 0 ++ "e+0")%string
  | S754_finite s m e =>
      let '(n, e10) :=
        if 0 <=? e then exponential_digits f (Z.pos m * 2 ^ e) 1
        else exponential_digits f (Z.pos m) (2 ^ (- e)) in
      ((if s then "-" else "") ++ mantissa_text f n ++ "e" ++ exponent_text e10)%string
  end.

(** The first test returns a string as it is, the second returns
    [String(num)] for a value that is not a Number. *)
Definition formatNumber (num : JSValue) : JSValue :=
  match num with
  | VString _ => num
  | VUndefined => VString "undefined"
  | VNull => VString "null"
  | VBoolean b => VString (if b then "true" else "false")
  | VBigInt z => VString (BigInt_toString z)
  | VObject shown => VString shown
  | VNumber x =>
      if (abs x <? c_0_0001)%float || (c_1e10 <? abs x)%float
      then VString (toExponential x 4)
      else VNumber (Math_round (x * c_1e6) / c_1e6)%float
  end.

(** ** The interpreter primitive

    [Function('"use strict"; return (' + text + ')')()] runs the whole
    language.  The part that is modelled concretely is the sub-language
    written with the characters [[0-9+\-*/().]] and neither [**], nor an
    update operator [++] or [--], nor a regular-expression literal:
    numeric literals, parentheses, unary and binary [+ - * /], calls and
    comments.  On any other text the result is whatever the engine does, a
    parameter of the model. *)

Inductive token : Type :=
| TNum (v : float)
| TPlus | TMinus | TStar | TSlash
| TLParen | TRParen
| TDot | TEllipsis.

(** How a scan ends: at the end of the source, on malformed input, or on a
    construct outside the sub-language. *)
Inductive LexEnd : Type := EndOfSource | Malformed | Beyond.

Fixpoint take_digits (s : list ascii) : list ascii :=
  match s with
  | a :: s' => if is_digit a then a :: take_digits s' else []
  | [] => []
  end.

Fixpoint drop_digits (s : list ascii) : list ascii :=
  match s with
  | a :: s' => if is_digit a then drop_digits s' else s
  | [] => []
  end.

(** Number of characters up to and including the closing [*/]. *)
Fixpoint comment_length (s : list ascii) : option nat :=
  match s with
  | a :: s' =>
      if Ascii.eqb a "*" && starts_with ["/"%char] s' then Some 2%nat
      else option_map S (comment_length s')
  | [] => None
  end.

(** A decimal literal with integer digits [i] and fraction digits [f]. *)
Definition literal_value (i f : list ascii) : float :=
  Number_of_ratio (digits_value (i ++ f)) (10 ^ Z.of_nat (List.length f)).

(** Strict mode: no integer part with a leading zero and further digits. *)
Definition legal_integer_part (i : list ascii) : bool :=
  match i with
  | a :: _ :: _ => negb (Ascii.eqb a "0")
  | _ => true
  end.

(** The scanner reads one character per step; [skip] counts the characters
    already consumed by the last token or comment, [after_operand] tells
    whether [/] divides. *)
Fixpoint lex (skip : nat) (after_operand : bool) (s : list ascii)
    : list token * LexEnd :=
  match s with
  | [] => ([], EndOfSource)
  | a :: s' =>
      match skip with
      | S skip' => lex skip' after_operand s'
      | O =>
          let emit (t : token) (n : nat) (operand : bool) :=
            let '(ts, e) := lex n operand s' in (t :: ts, e) in
          if is_digit a then
            let i := take_digits s in
            let rest := drop_digits s in
            if negb (legal_integer_part i) then ([], Malformed)
            else if starts_with ["."%char] rest then
              let f := take_digits (tl rest) in
              emit (TNum (literal_value i f)) (List.length i + List.length f)%nat true
            else emit (TNum (literal_value i [])) (List.length i - 1)%nat true
          else if Ascii.eqb a "." then
            match take_digits s' with
            | (_ :: _) as f => emit (TNum (literal_value [] f)) (List.length f) true
            | [] =>
                if starts_with (list_ascii_of_string "..") s'
                then emit TEllipsis 2%nat false
                else emit TDot 0%nat false
            end
          else if Ascii.eqb a "+" then
            if starts_with ["+"%char] s' then ([], Beyond)
            else emit TPlus 0%nat false
          else if Ascii.eqb a "-" then
            if starts_with ["-"%char] s' then ([], Beyond)
            else emit TMinus 0%nat false
          else if Ascii.eqb a "*" then
            if starts_with ["*"%char] s' then ([], Beyond)
            else emit TStar 0%nat false
          else if Ascii.eqb a "/" then
            if starts_with ["*"%char] s' then
              match comment_length (tl s') with
              | Some n => lex (S n) after_operand s'
              | None => ([], Malformed)
              end
            else if starts_with ["/"%char] s' then ([], EndOfSource)
            else if after_operand then emit TSlash 0%nat false
            else ([], Beyond)
          else if Ascii.eqb a "(" then emit TLParen 0%nat false
          else if Ascii.eqb a ")" then emit TRParen 0%nat true
          else ([], Beyond)
      end
  end.

Inductive binop : Type := Add | Sub | Mul | Div.

Inductive Expr : Type :=
| ENum (v : float)
| EPlus (e : Expr)
| ENeg (e : Expr)
| EBin (op : binop) (l r : Expr)
| ECall (callee : Expr)
| ECallWith (callee : Expr) (spread : bool) (argument : Expr).

(** Pending operators: a unary sign, a binary operator, a grouping
    parenthesis, the parenthesis of a call (with a spread argument or not). *)
Inductive StackItem : Type :=
| SUnary (negate : bool)
| SBinary (op : binop)
| SParen
| SCall (spread : bool).

Definition precedence (op : binop) : nat :=
  match op with
  | Add | Sub => 1
  | Mul | Div => 2
  end.

(** Apply the pending signs and the pending binary operators of precedence
    at least [p]. *)
Fixpoint reduce (p : nat) (ops : list StackItem) (out : list Expr)
    : option (list StackItem * list Expr) :=
  match ops with
  | SUnary negate :: ops' =>
      match out with
      | e :: out' => reduce p ops' ((if negate then ENeg e else EPlus e) :: out')
      | [] => None
      end
  | SBinary op :: ops' =>
      if (p <=? precedence op)%nat then
        match out with
        | r :: l :: out' => reduce p ops' (EBin op l r :: out')
        | _ => None
        end
      else Some (ops, out)
  | _ => Some (ops, out)
  end.

Inductive Parsed : Type :=
| Tree (e : Expr)
| Invalid
| Unmodelled.

Fixpoint parse (ending : LexEnd) (ts : list token) (operand_expected : bool)
    (ops : list StackItem) (out : list Expr) : Parsed :=
  match ts with
  | [] =>
      match ending with
      | Beyond => Unmodelled
      | Malformed => Invalid
      | EndOfSource =>
          if operand_expected then Invalid
          else match reduce 0 ops out with
               | Some ([], [e]) => Tree e
               | _ => Invalid
               end
      end
  | t :: ts' =>
      if operand_expected then
        match t with
        | TNum v => parse ending ts' false ops (ENum v :: out)
        | TPlus => parse ending ts' true (SUnary false :: ops) out
        | TMinus => parse ending ts' true (SUnary true :: ops) out
        | TLParen => parse ending ts' true (SParen :: ops) out
        | TRParen =>
            match ops, out with
            | SCall false :: ops', f :: out' =>
                parse ending ts' false ops' (ECall f :: out')
            | _, _ => Invalid
            end
        | TEllipsis =>
            match ops with
            | SCall false :: ops' => parse ending ts' true (SCall true :: ops') out
            | _ => Invalid
            end
        | _ => Invalid
        end
      else
        let binary (op : binop) :=
          match reduce (precedence op) ops out with
          | Some (ops', out') => parse ending ts' true (SBinary op :: ops') out'
          | None => Invalid
          end in
        match t with
        | TPlus => binary Add
        | TMinus => binary Sub
        | TStar => binary Mul
        | TSlash => binary Div
        | TLParen => parse ending ts' true (SCall false :: ops) out
        | TRParen =>
            match reduce 0 ops out with
            | Some (SParen :: ops', out') => parse ending ts' false ops' out'
            | Some (SCall spread :: ops', a :: f :: out') =>
                parse ending ts' false ops' (ECallWith f spread a :: out')
            | _ => Invalid
            end
        | _ => Invalid
        end
  end.

Definition apply_binop (op : binop) (x y : float) : float :=
  match op with
  | Add => x + y
  | Sub => x - y
  | Mul => x * y
  | Div => x / y
  end%float.

(** Evaluation: operands left to right; a call evaluates its callee, then
    its argument, then finds that a Number is not callable. *)
Fixpoint eval (e : Expr) : Completion float :=
  match e with
  | ENum v => Normal v
  | EPlus e1 => eval e1
  | ENeg e1 =>
      match eval e1 with
      | Normal x => Normal (- x)%float
      | Throw m => Throw m
      end
  | EBin op l r =>
      match eval l with
      | Normal x =>
          match eval r with
          | Normal y => Normal (apply_binop op x y)
          | Throw m => Throw m
          end
      | Throw m => Throw m
      end
  | ECall f =>
      match eval f with
      | Normal _ => Throw (Native TypeError_not_callable)
      | Throw m => Throw m
      end
  | ECallWith f spread a =>
      match eval f with
      | Normal _ =>
          match eval a with
          | Normal _ =>
              Throw (Native (if spread then TypeError_not_iterable
                             else TypeError_not_callable))
          | Throw m => Throw m
          end
      | Throw m => Throw m
      end
  end.

(** The program text [return (text)]. *)
Definition parse_source (text : string) : Parsed :=
  let '(ts, ending) :=
    lex 0 false (list_ascii_of_string ("(" ++ text ++ ")")%string) in
  parse ending ts true [] [].

(** The result of the interpreter on a text of the sub-language; [None]
    outside it. *)
Definition arithmetic (text : string) : option (Completion JSValue) :=
  if forallb is_expr_char (list_ascii_of_string text) then
    match parse_source text with
    | Tree e =>
        Some match eval e with
             | Normal x => Normal (VNumber x)
             | Throw m => Throw m
             end
    | Invalid => Some (Throw (Native SyntaxError_invalid_source))
    | Unmodelled => None
    end
  else None.

(** What the interpreter of the platform does with a program text. *)
Definition Engine : Type := string -> Completion JSValue.

Section Evaluator.

(** The engine on the texts outside the sub-language. *)
Variable engine : Engine.

Definition Function_return (text : string) : Completion JSValue :=
  match arithmetic text with
  | Some c => c
  | None => engine text
  end.

Definition executeMathExpression (expression : string) : EvaluationResult :=
  let cleaned := replace_all re_spaces "" (trim expression) in
  let hasLargeNumbers := test re_large cleaned in
  if hasLargeNumbers then evaluateBigInt cleaned
  else
    match Function_return cleaned with
    | Normal result => Ok result (formatNumber result)
    | Throw m => Err m
    end.

End Evaluator.

(** ** Math query classifier *)

Definition mathKeywords : list string :=
  [ "calculate"; "compute"; "solve"; "what is"; "how much";
    "sum"; "difference"; "product"; "quotient"; "average";
    "percentage"; "percent"; "add"; "subtract"; "multiply"; "divide";
    "plus"; "minus"; "times" ].

Definition isMathQuery (query : string) : bool :=
  let lowerQuery := toLowerCase query in
  let hasKeyword := existsb (fun keyword => includes lowerQuery keyword) mathKeywords in
  let hasArithmetic := test re_arith query in
  hasKeyword || hasArithmetic.

(** ** Language model gateway *)

(** A prompt is one of the two templates of [solveWithPipeline] with the
    values spliced into it, or a text given directly. *)
Inductive Prompt : Type :=
| ExtractPrompt (userQuery : string)
| FormatPrompt (userQuery cleanedExpression : string) (formatted : JSValue)
| PlainPrompt (text : string).

Module Options.

Record t : Type := mk {
  model : option string;
  temperature : option float;
  modelOptions : option (gmap string JSValue)
}.
Definition empty : t := mk None None None.

End Options.

Module RequestBody.

Record t : Type := mk {
  model : string;
  prompt : Prompt;
  stream : bool;
  options : gmap string JSValue
}.

End RequestBody.

Record Request : Type := mkRequest {
  url : string;
  method : string;
  body : RequestBody.t
}.

(** What [fetch] and [response.json()] give: a rejection, or a status with
    the [response] text of the body.  The [body] of a request is the
    object the code hands to [JSON.stringify]; the text that
    [JSON.stringify] makes of it is not modelled. *)
Inductive FetchResult : Type :=
| Rejected (m : Message)
| Response (status : N) (response : string).

(** [response.ok] *)
Definition ok (status : N) : bool := ((200 <=? status) && (status <=? 299))%N.

(** The backend answers a request knowing the requests made before it. *)
Definition Backend : Type := list Request -> Request -> FetchResult.

Definition baseUrl : string := "http://localhost:11434".
Definition default_model : string := "llama3".

Definition c_0_7 : float := 0x1.6666666666666p-1%float.
Definition c_0_1 : float := 0x1.999999999999ap-4%float.
Definition c_0_5 : float := 0x1p-1%float.

(** [x || d] on an optional string and on an optional Number. *)
Definition or_string (x : option string) (d : string) : string :=
  match x with
  | Some (String _ _ as s) => s
  | _ => d
  end.

Definition or_number (x : option float) (d : float) : float :=
  match x with
  | Some v => if is_zero v || is_nan v then d else v
  | None => d
  end.

Definition requestBody (prompt : Prompt) (options : Options.t) : RequestBody.t :=
  RequestBody.mk
    (or_string (Options.model options) default_model)
    prompt
    false
    (default ∅ (Options.modelOptions options)
       ∪ {[ "temperature" := VNumber (or_number (Options.temperature options) c_0_7) ]}).

(** ** Pipeline orchestrator *)

(** ['running'], ['complete'] and ['error'] *)
Inductive Status : Type := Running | Complete | Failed.

Inductive StageInput : Type :=
| ExpressionInput (expression : string)
| FormatInput (question expression : string) (result : JSValue).

Module Stage.

Record t : Type := mk {
  stage : nat;
  name : string;
  status : Status;
  input : option StageInput;
  output : option JSValue;
  error : option Message
}.
Definition set_status (v : Status) (s : t) : t :=
  mk (stage s) (name s) v (input s) (output s) (error s).
Definition set_output (v : JSValue) (s : t) : t :=
  mk (stage s) (name s) (status s) (input s) (Some v) (error s).
Definition set_error (v : Message) (s : t) : t :=
  mk (stage s) (name s) (status s) (input s) (output s) (Some v).

End Stage.

(** [{stages, success, finalAnswer}] *)
Record PipelineRun : Type := mkRun {
  run_stages : list Stage.t;
  run_success : bool;
  finalAnswer : option string
}.

(** The state a call works on: the requests sent so far and the [stages]
    array of the running call. *)
Record State : Type := mkState {
  sent : list Request;
  stages : list Stage.t
}.

Definition Async (A : Type) : Type := State -> Completion A * State.

#[global] Instance Async_ret : MRet Async :=
  fun A a st => (Normal a, st).

#[global] Instance Async_bind : MBind Async :=
  fun A B f m st =>
    match m st with
    | (Normal a, st') => f a st'
    | (Throw e, st') => (Throw e, st')
    end.

Definition new_stages : Async unit :=
  fun st => (Normal tt, mkState (sent st) []).

Definition push (s : Stage.t) : Async unit :=
  fun st => (Normal tt, mkState (sent st) (stages st ++ [s])).

Definition update (i : nat) (f : Stage.t -> Stage.t) : Async unit :=
  fun st => (Normal tt, mkState (sent st) (alter f i (stages st))).

Definition read_stages : Async (list Stage.t) :=
  fun st => (Normal (stages st), st).

Section Service.

Variable engine : Engine.
Variable backend : Backend.

Definition generate (prompt : Prompt) (options : Options.t) : Async string :=
  fun st =>
    let request :=
      mkRequest (baseUrl ++ "/api/generate")%string "POST" (requestBody prompt options) in
    let st' := mkState (sent st ++ [request]) (stages st) in
    match backend (sent st) request with
    | Rejected m => (Throw m, st')
    | Response status response =>
        if ok status then (Normal response, st')
        else (Throw (Text ("HTTP error! status: " ++ BigInt_toString (Z.of_N status))%string), st')
    end.

Definition solveWithPipeline (userQuery : string) : Async PipelineRun :=
  new_stages;;
  push (Stage.mk 1 "LLM: Extract Math Expression" Running None None None);;
  mathExpression ← generate (ExtractPrompt userQuery)
                     (Options.mk None (Some c_0_1) None);
  let cleanedExpression := replace_all re_not_expr "" (trim mathExpression) in
  update 0 (Stage.set_status Complete);;
  update 0 (Stage.set_output (VString cleanedExpression));;
  push (Stage.mk 2 "PAL: Execute Math" Running
          (Some (ExpressionInput cleanedExpression)) None None);;
  match executeMathExpression engine cleanedExpression with
  | Err error =>
      update 1 (Stage.set_status Failed);;
      update 1 (Stage.set_error error);;
      stages ← read_stages;
      mret (mkRun stages false None)
  | Ok _ formatted =>
      update 1 (Stage.set_status Complete);;
      update 1 (Stage.set_output formatted);;
      push (Stage.mk 3 "LLM: Format Response" Running
              (Some (FormatInput userQuery cleanedExpression formatted)) None None);;
      finalResponse ← generate (FormatPrompt userQuery cleanedExpression formatted)
                        (Options.mk None (Some c_0_5) None);
      update 2 (Stage.set_status Complete);;
      update 2 (Stage.set_output (VString (trim finalResponse)));;
      stages ← read_stages;
      mret (mkRun stages true (Some (trim finalResponse)))
  end.

End Service.

(** ** The chat component

    [Chatbot] (src/unnamed/part_000, lines 226-373) keeps six state
    variables.  A handler runs on the values it reads when it is called and
    its updates are applied in the order in which it makes them; one
    handler runs at a time.  [Date.now()] and [new Date()] read a clock,
    one reading after the other.  [console.error] leaves no trace in the
    state and is left out. *)

Inductive Role : Type := User | Assistant.

(** U+2705, U+274C and U+23F3 *)
Inductive Glyph : Type := CheckMark | CrossMark | Hourglass.

(** The text of a message, piece by piece in the order of the template
    literals that build it: literal text and spliced strings, a glyph
    outside U+0000..U+00FF, a value, an object or an error message
    spliced in. *)
Inductive Piece : Type :=
| Chars (s : string)
| Mark (g : Glyph)
| Shown (v : JSValue)
| Json (i : StageInput)
| Said (m : Message).

Module ChatMessage.

(** [timestamp] holds the instant whose ISO text the field has; [isError]
    and [isPipeline] are false when the field is absent. *)
Record t : Type := mk {
  id : Z;
  role : Role;
  content : list Piece;
  timestamp : Z;
  isError : bool;
  isPipeline : bool
}.

End ChatMessage.

Record Chat : Type := mkChat {
  messages : list ChatMessage.t;
  inputMessage : string;
  isLoading : bool;
  ollamaAvailable : bool;
  isConnecting : bool;
  showPipeline : bool
}.

(** The component, the service it calls and the number of clock readings
    made so far. *)
Record World : Type := mkWorld {
  chat : Chat;
  service : State;
  clock_reads : nat
}.

Definition UI (A : Type) : Type := World -> Completion A * World.

#[global] Instance UI_ret : MRet UI :=
  fun A a w => (Normal a, w).

#[global] Instance UI_bind : MBind UI :=
  fun A B f m w =>
    match m w with
    | (Normal a, w') => f a w'
    | (Throw e, w') => (Throw e, w')
    end.

Definition throw {A : Type} (m : Message) : UI A :=
  fun w => (Throw m, w).

(** [try { body } catch (error) { handler }] *)
Definition catch {A : Type} (body : UI A) (handler : Message -> UI A) : UI A :=
  fun w =>
    match body w with
    | (Throw e, w') => handler e w'
    | done => done
    end.

(** [try { body } finally { cleanup }] *)
Definition finally {A : Type} (body : UI A) (cleanup : UI unit) : UI A :=
  fun w =>
    match body w with
    | (c, w') =>
        match cleanup w' with
        | (Normal _, w'') => (c, w'')
        | (Throw e, w'') => (Throw e, w'')
        end
    end.

(** [await] of a call of the service. *)
Definition await {A : Type} (m : Async A) : UI A :=
  fun w =>
    match m (service w) with
    | (c, st) => (c, mkWorld (chat w) st (clock_reads w))
    end.

Definition read_chat : UI Chat :=
  fun w => (Normal (chat w), w).

Definition set_chat (f : Chat -> Chat) : UI unit :=
  fun w => (Normal tt, mkWorld (f (chat w)) (service w) (clock_reads w)).

Definition setMessages (f : list ChatMessage.t -> list ChatMessage.t) : UI unit :=
  set_chat (fun c => mkChat (f (messages c)) (inputMessage c) (isLoading c)
                       (ollamaAvailable c) (isConnecting c) (showPipeline c)).

Definition setInputMessage (v : string) : UI unit :=
  set_chat (fun c => mkChat (messages c) v (isLoading c)
                       (ollamaAvailable c) (isConnecting c) (showPipeline c)).

Definition setIsLoading (v : bool) : UI unit :=
  set_chat (fun c => mkChat (messages c) (inputMessage c) v
                       (ollamaAvailable c) (isConnecting c) (showPipeline c)).

Definition setOllamaAvailable (v : bool) : UI unit :=
  set_chat (fun c => mkChat (messages c) (inputMessage c) (isLoading c)
                       v (isConnecting c) (showPipeline c)).

Definition setIsConnecting (v : bool) : UI unit :=
  set_chat (fun c => mkChat (messages c) (inputMessage c) (isLoading c)
                       (ollamaAvailable c) v (showPipeline c)).

(** The request of [isAvailable]: it has no body. *)
Record Probe : Type := mkProbe {
  probe_url : string;
  probe_method : string
}.

Definition LF : string := String "010" "".

(** The truth value of a value, of an input and of an error message in a
    condition.  The messages of the engine are not empty. *)
Definition truthy (v : JSValue) : bool :=
  match v with
  | VUndefined | VNull => false
  | VBoolean b => b
  | VNumber x => negb (is_zero x || is_nan x)
  | VBigInt z => negb (z =? 0)
  | VString s => negb (String.eqb s "")
  | VObject _ => true
  end.

Definition truthy_input (i : StageInput) : bool :=
  match i with
  | ExpressionInput expression => negb (String.eqb expression "")
  | FormatInput _ _ _ => true
  end.

Definition truthy_message (m : Message) : bool :=
  match m with
  | Text s => negb (String.eqb s "")
  | Native _ => true
  end.

Definition statusEmoji (status : Status) : Glyph :=
  match status with
  | Complete => CheckMark
  | Failed => CrossMark
  | Running => Hourglass
  end.

(** What the callback of [stages.forEach] appends for one stage. *)
Definition stage_report (stage : Stage.t) : list Piece :=
  [Chars "**"; Mark (statusEmoji (Stage.status stage)); Chars " Stage ";
   Chars (BigInt_toString (Z.of_nat (Stage.stage stage))); Chars ": ";
   Chars (Stage.name stage); Chars ("**" ++ LF)%string]
  ++ match Stage.input stage with
     | Some i =>
         if truthy_input i then
           [Chars "Input: `";
            match i with
            | ExpressionInput expression => Chars expression
            | FormatInput _ _ _ => Json i
            end;
            Chars ("`" ++ LF)%string]
         else []
     | None => []
     end
  ++ match Stage.output stage with
     | Some v =>
         if truthy v then [Chars "Output: `"; Shown v; Chars ("`" ++ LF)%string] else []
     | None => []
     end
  ++ match Stage.error stage with
     | Some m => if truthy_message m then [Chars "Error: "; Said m; Chars LF] else []
     | None => []
     end
  ++ [Chars LF].

(** [pipelineResult.finalAnswer] spliced into a text. *)
Definition answer_piece (run : PipelineRun) : Piece :=
  match finalAnswer run with
  | Some answer => Chars answer
  | None => Shown VUndefined
  end.

(** The content of the answer to a math query. *)
Definition responseContent (showPipeline : bool) (run : PipelineRun) : list Piece :=
  if showPipeline then
    [Chars ("**AI Response**" ++ LF ++ LF)%string]
    ++ flat_map stage_report (run_stages run)
    ++ [Chars ("---" ++ LF ++ LF ++ "**Final Answer:**" ++ LF)%string; answer_piece run]
  else [answer_piece run].

Section Chatbot.

Variable engine : Engine.
Variable backend : Backend.

(** What [fetch] gives for the request of [isAvailable]. *)
Variable fetch_probe : Probe -> FetchResult.

(** The successive readings of the clock. *)
Variable clock : nat -> Z.

Definition Date_now : UI Z :=
  fun w => (Normal (clock (clock_reads w)),
            mkWorld (chat w) (service w) (S (clock_reads w))).

Definition isAvailable : bool :=
  match fetch_probe (mkProbe (baseUrl ++ "/api/tags")%string "GET") with
  | Rejected _ => false
  | Response status _ => ok status
  end.

Definition initializeChatbot : UI unit :=
  setIsConnecting true;;
  finally
    (catch
       (let available := isAvailable in
        setOllamaAvailable available;;
        if available then
          now ← Date_now;
          timestamp ← Date_now;
          setMessages (fun _ =>
            [ChatMessage.mk now Assistant [Chars "Hello! I am your AI assistant."]
               timestamp false false])
        else
          now ← Date_now;
          timestamp ← Date_now;
          setMessages (fun _ =>
            [ChatMessage.mk now Assistant
               [Mark CrossMark;
                Chars (" **Ollama Connection Failed**" ++ LF ++ LF
                       ++ "Please start Ollama: `ollama serve`")%string]
               timestamp true false]))
       (fun error => mret tt))
    (setIsConnecting false).

Definition sendMessage : UI unit :=
  c ← read_chat;
  if String.eqb (trim (inputMessage c)) "" || isLoading c || negb (ollamaAvailable c)
  then mret tt
  else
    now ← Date_now;
    timestamp ← Date_now;
    let userMessage :=
      ChatMessage.mk now User [Chars (trim (inputMessage c))] timestamp false false in
    setMessages (fun prev => prev ++ [userMessage]);;
    let currentInput := trim (inputMessage c) in
    setInputMessage "";;
    setIsLoading true;;
    finally
      (catch
         (if isMathQuery currentInput then
            pipelineResult ← await (solveWithPipeline engine backend currentInput);
            if run_success pipelineResult then
              let content := responseContent (showPipeline c) pipelineResult in
              now ← Date_now;
              timestamp ← Date_now;
              let assistantMessage :=
                ChatMessage.mk (now + 1) Assistant content timestamp false true in
              setMessages (fun prev => prev ++ [assistantMessage])
            else throw (Text "Pipeline execution failed")
          else
            response ← await (generate backend (PlainPrompt currentInput) Options.empty);
            now ← Date_now;
            timestamp ← Date_now;
            let assistantMessage :=
              ChatMessage.mk (now + 1) Assistant [Chars response] timestamp false false in
            setMessages (fun prev => prev ++ [assistantMessage]))
         (fun error =>
            now ← Date_now;
            timestamp ← Date_now;
            let errorMessage :=
              ChatMessage.mk (now + 1) Assistant
                [Mark CrossMark; Chars " **Error:** "; Said error] timestamp true false in
            setMessages (fun prev => prev ++ [errorMessage])))
      (setIsLoading false).

End Chatbot.

(** ** The markup of a message

    The text of a message is turned into markup by four global
    replacements (src/unnamed/part_000, lines 452-458) and inserted into
    the page as it comes out of them.  The first pattern has a lazy
    quantifier and the first two replacements refer to a capture. *)

(** [.] : any code unit but a line terminator. *)
Definition is_line_terminator (c : ascii) : bool :=
  ((code c =? 10) || (code c =? 13))%N.

Definition any_char (c : ascii) : bool := negb (is_line_terminator c).

(** The characters of [s], one after the other. *)
Definition literal (s : string) : regex :=
  fold_right (fun a r => Seq (Class (Ascii.eqb a)) r) Empty (list_ascii_of_string s).

(** A pattern with lazy stars: [r*?] tries the continuation first and one
    more iteration second. *)
Inductive pattern : Type :=
| Eager (r : regex)
| LazyStar (r : regex)
| Then (p1 p2 : pattern)
| Capture (i : nat) (p : pattern).

Fixpoint lazy_loop {A : Type}
    (step : list ascii -> Captures -> Cont A -> option A)
    (fuel : nat) (s : list ascii) (c : Captures) (k : Cont A) : option A :=
  match fuel with
  | O => k s c
  | S fuel' =>
      match k s c with
      | Some x => Some x
      | None =>
          step s c (fun s' c' =>
                      if (List.length s' <? List.length s)%nat
                      then lazy_loop step fuel' s' c' k
                      else None)
      end
  end.

Fixpoint pmatch {A : Type} (p : pattern) (s : list ascii) (c : Captures)
    (k : Cont A) : option A :=
  match p with
  | Eager r => rmatch r s c k
  | LazyStar r => lazy_loop (fun s0 c0 k0 => rmatch r s0 c0 k0) (List.length s) s c k
  | Then p1 p2 => pmatch p1 s c (fun s' c' => pmatch p2 s' c' k)
  | Capture i p' =>
      pmatch p' s c
        (fun s' c' => k s' ((i, firstn (List.length s - List.length s') s) :: c'))
  end.

(** The leftmost start that matches. *)
Fixpoint pexec (p : pattern) (s : list ascii) : option MatchResult :=
  match pmatch p s [] (fun s' c => Some (s', c)) with
  | Some (s', c) => Some (mkMatch 0 (firstn (List.length s - List.length s') s) c s')
  | None =>
      match s with
      | [] => None
      | _ :: t => option_map shift_match (pexec p t)
      end
  end.

(** A replacement text: literal text and references [$i] to captures. *)
Inductive ReplacementPiece : Type :=
| Literal (s : string)
| Reference (i : nat).

Definition expand (replacement : list ReplacementPiece) (c : Captures) : list ascii :=
  flat_map (fun piece =>
              match piece with
              | Literal s => list_ascii_of_string s
              | Reference i => group i c
              end) replacement.

(** [String.prototype.replace] with a global pattern and a replacement
    that refers to captures. *)
Fixpoint substitute_loop (fuel : nat) (p : pattern) (replacement : list ReplacementPiece)
    (s : list ascii) : list ascii :=
  match fuel with
  | O => s
  | S fuel' =>
      match pexec p s with
      | None => s
      | Some m =>
          let before := firstn (m_index m) s in
          let repl := expand replacement (m_groups m) in
          match m_text m, m_rest m with
          | [], [] => before ++ repl
          | [], a :: t => before ++ repl ++ a :: substitute_loop fuel' p replacement t
          | _ :: _, rest => before ++ repl ++ substitute_loop fuel' p replacement rest
          end
      end
  end.

Definition substitute_all (p : pattern) (replacement : list ReplacementPiece)
    (s : string) : string :=
  let l := list_ascii_of_string s in
  string_of_list_ascii (substitute_loop (S (List.length l)) p replacement l).

(** The double quote, written by its code. *)
Definition DQ : string := String "034" "".

(** [/\*\*(.*?)\*\*/g] *)
Definition re_bold : pattern :=
  Then (Eager (literal "**"))
    (Then (Capture 1 (LazyStar (Class any_char))) (Eager (literal "**"))).

(** [/`([^`]+)`/g] *)
Definition re_code : pattern :=
  Eager (Seq (Class (Ascii.eqb "`"))
           (Seq (Group 1 (Plus (Class (fun c => negb (Ascii.eqb "`" c)))))
              (Class (Ascii.eqb "`")))).

(** [/---/g] *)
Definition re_rule : regex := literal "---".

(** [/\n/g] *)
Definition re_newline : regex := Class (Ascii.eqb "010").

Definition strong_open : string := ("<strong class=" ++ DQ ++ "font-semibold" ++ DQ ++ ">")%string.

Definition code_open : string :=
  ("<code class=" ++ DQ ++ "bg-gray-100 px-1.5 py-0.5 rounded text-xs font-mono" ++ DQ
   ++ ">")%string.

Definition rule : string := ("<hr class=" ++ DQ ++ "my-3 border-gray-200" ++ DQ ++ ">")%string.

(** The value of [__html] for the text [content] of a message. *)
Definition markup (content : string) : string :=
  replace_all re_newline "<br>"
    (replace_all re_rule rule
       (substitute_all re_code [Literal code_open; Reference 1; Literal "</code>"]
          (substitute_all re_bold [Literal strong_open; Reference 1; Literal "</strong>"]
             content))).

(** * Notions used in the statements *)

(** ** The words of a pattern *)

(** The iteration of [L] over non-empty words. *)
Inductive star_lang (L : list ascii -> Prop) : list ascii -> Prop :=
| star_lang_nil : star_lang L []
| star_lang_cons (w1 w2 : list ascii) :
    w1 <> [] -> L w1 -> star_lang L w2 -> star_lang L (w1 ++ w2).

(** The words a pattern matches, priorities and captures left aside. *)
Fixpoint lang (r : regex) (w : list ascii) : Prop :=
  match r with
  | Empty => w = []
  | Class p => exists a, w = [a] /\ p a = true
  | Seq r1 r2 => exists w1 w2 : list ascii, w = w1 ++ w2 /\ lang r1 w1 /\ lang r2 w2
  | Star r' => star_lang (lang r') w
  | Group _ r' => lang r' w
  end.

(** A matching step finds only words of [L]: whenever it succeeds, it has
    consumed a word of [L] and the continuation has succeeded on the rest. *)
Definition sound_step (A : Type) (L : list ascii -> Prop)
    (step : list ascii -> Captures -> Cont A -> option A) : Prop :=
  forall s c k x, step s c k = Some x ->
    exists (w s' : list ascii) c', s = w ++ s' /\ L w /\ k s' c' = Some x.

(** A matching step finds every word of [L]: it succeeds on a word of [L]
    followed by a rest the continuation accepts. *)
Definition complete_step (A : Type) (L : list ascii -> Prop)
    (step : list ascii -> Captures -> Cont A -> option A) : Prop :=
  forall w, L w -> forall s' c k,
    (forall c', is_Some (k s' c')) -> is_Some (step (w ++ s') c k).

(** The final continuation of [exec]. *)
Definition k0 : Cont (list ascii * Captures) := fun s' c => Some (s', c).

(** Every character of [w] is in the class [p]. *)
Definition all_in (p : ascii -> bool) (w : list ascii) : Prop := forallb p w = true.

(** [s] does not start with a character of [p]. *)
Definition no_head (p : ascii -> bool) (s : list ascii) : Prop :=
  match s with
  | a :: _ => p a = false
  | [] => True
  end.

(** [s] without its longest prefix in [p]. *)
Fixpoint drop_while (p : ascii -> bool) (s : list ascii) : list ascii :=
  match s with
  | a :: s' => if p a then drop_while p s' else s
  | [] => []
  end.

(** The greedy star of a class, by structural recursion. *)
Fixpoint greedy {A : Type} (p : ascii -> bool) (s : list ascii) (c : Captures)
    (k : Cont A) : option A :=
  match s with
  | a :: s' =>
      if p a then
        match greedy p s' c k with
        | Some x => Some x
        | None => k s c
        end
      else k s c
  | [] => k s c
  end.

(** ** Texts *)

(** [[^\s]] *)
Definition not_space (a : ascii) : bool := negb (is_space a).

(** The characters of [s] that satisfy [p], in order. *)
Definition keep (p : ascii -> bool) (s : string) : string :=
  string_of_list_ascii (List.filter p (list_ascii_of_string s)).

(** [k] occurs in [s]. *)
Definition occurs_in (k s : string) : Prop :=
  exists pre post : string, s = (pre ++ k ++ post)%string.

(** A run of at least [n] consecutive digits occurs in [s]. *)
Definition has_digit_run (n : nat) (s : string) : Prop :=
  exists pre d post : list ascii,
    list_ascii_of_string s = pre ++ d ++ post /\
    (n <= List.length d)%nat /\ all_in is_digit d.

(** Two digit runs separated by one operator of [[+\-*/^%]], with optional
    white space around the operator, occur in [s]. *)
Definition has_arithmetic (s : string) : Prop :=
  exists (pre d1 w1 : list ascii) (op : ascii) (w2 d2 post : list ascii),
    list_ascii_of_string s = pre ++ (d1 ++ w1 ++ [op] ++ w2 ++ d2) ++ post /\
    d1 <> [] /\ all_in is_digit d1 /\ all_in is_space w1 /\
    is_query_op op = true /\
    all_in is_space w2 /\ d2 <> [] /\ all_in is_digit d2.

(** [s] reads [pre d1 w1 op w2 d2 post]: two digit runs [d1] and [d2]
    around one operator of [[+\-*/]], with optional white space on both
    sides of the operator. *)
Definition operation_at (s pre d1 w1 : list ascii) (op : ascii)
    (w2 d2 post : list ascii) : Prop :=
  s = pre ++ (d1 ++ w1 ++ [op] ++ w2 ++ d2) ++ post /\
  d1 <> [] /\ all_in is_digit d1 /\ all_in is_space w1 /\
  is_binop op = true /\
  all_in is_space w2 /\ d2 <> [] /\ all_in is_digit d2.

(** A binary operation on two digit runs occurs in [s]. *)
Definition has_operation (s : string) : Prop :=
  exists (pre d1 w1 : list ascii) (op : ascii) (w2 d2 post : list ascii),
    operation_at (list_ascii_of_string s) pre d1 w1 op w2 d2 post.

(** The Expression of the specification: every character belongs to
    [[0-9+\-*/().]]. *)
Definition is_expression (s : string) : bool :=
  forallb is_expr_char (list_ascii_of_string s).

(** A non-empty string of decimal digits. *)
Definition is_integer_literal (s : string) : bool :=
  match s with
  | EmptyString => false
  | _ => forallb is_digit (list_ascii_of_string s)
  end.

(** An optional minus sign and decimal digits. *)
Definition is_integer_string (s : string) : bool :=
  match s with
  | String a t => if Ascii.eqb a "-" then is_integer_literal t else is_integer_literal s
  | EmptyString => false
  end.

(** ** Results of the evaluator *)

(** What the exact path is to return for [x op y]: the exact sum,
    difference or product, the quotient truncated towards zero, the
    division error for a zero divisor. *)
Definition exact_result (op : ascii) (x y : Z) : EvaluationResult :=
  let answer (z : Z) := Ok (VString (BigInt_toString z)) (VString (BigInt_toString z)) in
  if Ascii.eqb op "+" then answer (x + y)
  else if Ascii.eqb op "-" then answer (x - y)
  else if Ascii.eqb op "*" then answer (x * y)
  else if y =? 0 then Err (Native RangeError_division_by_zero)
  else answer (Z.quot x y).

(** The floating-point branch of [executeMathExpression]. *)
Definition floating_result (c : Completion JSValue) : EvaluationResult :=
  match c with
  | Normal result => Ok result (formatNumber result)
  | Throw m => Err m
  end.

(** [Number.isFinite] *)
Definition is_finite (x : float) : bool :=
  match Prim2SF x with
  | S754_zero _ | S754_finite _ _ _ => true
  | _ => false
  end.

(** The test of [formatNumber]: [Math.abs(x) < 0.0001 || Math.abs(x) > 1e10]. *)
Definition out_of_plain_range (x : float) : bool :=
  ((abs x <? c_0_0001) || (c_1e10 <? abs x))%float.

(** One digit, a point, [f] digits, [e], a sign and at least one digit. *)
Definition scientific_unsigned (f : nat) (l : list ascii) : bool :=
  match l with
  | d :: point :: t =>
      is_digit d && Ascii.eqb point "."
      && (List.length (firstn f t) =? f)%nat && forallb is_digit (firstn f t)
      && match skipn f t with
         | e :: sign :: x :: exponent =>
             Ascii.eqb e "e" && (Ascii.eqb sign "+" || Ascii.eqb sign "-")
             && forallb is_digit (x :: exponent)
         | _ => false
         end
  | _ => false
  end.

(** Scientific notation with [f] fraction digits, after an optional minus
    sign. *)
Definition is_scientific (f : nat) (s : string) : bool :=
  match list_ascii_of_string s with
  | a :: t => if Ascii.eqb a "-" then scientific_unsigned f t
              else scientific_unsigned f (a :: t)
  | [] => false
  end.

(** [n * 10^t] is [p/q] rounded to a multiple of [10^t], within half a unit
    and upwards when halfway. *)
Definition rounds_to (p q n t : Z) : Prop :=
  if 0 <=? t
  then (2 * n - 1) * (q * 10 ^ t) <= 2 * p < (2 * n + 1) * (q * 10 ^ t)
  else (2 * n - 1) * q <= 2 * (p * 10 ^ (- t)) < (2 * n + 1) * q.

(** The value the specification allows in an [Ok] result. *)
Definition finite_or_integer_string (v : JSValue) : bool :=
  match v with
  | VNumber x => is_finite x
  | VString s => is_integer_string s
  | _ => false
  end.

(** [typeof v === 'string'] *)
Definition is_string_value (v : JSValue) : bool :=
  match v with
  | VString _ => true
  | _ => false
  end.

(** ** Requests and stages of a run *)

(** The request of stage 1. *)
Definition extract_request (userQuery : string) : Request :=
  mkRequest "http://localhost:11434/api/generate" "POST"
    (requestBody (ExtractPrompt userQuery) (Options.mk None (Some c_0_1) None)).

(** The request of stage 3. *)
Definition format_request (userQuery raw : string) (formatted : JSValue) : Request :=
  mkRequest "http://localhost:11434/api/generate" "POST"
    (requestBody (FormatPrompt userQuery (keep is_expr_char raw) formatted)
       (Options.mk None (Some c_0_5) None)).

(** Stage 1 as it is pushed. *)
Definition running_extraction_stage : Stage.t :=
  Stage.mk 1 "LLM: Extract Math Expression" Running None None None.

(** Stage 1 once complete, for the raw model output [raw]. *)
Definition extraction_stage (raw : string) : Stage.t :=
  Stage.mk 1 "LLM: Extract Math Expression" Complete None
    (Some (VString (keep is_expr_char raw))) None.

(** Stage 2 after a failed evaluation. *)
Definition failed_evaluation_stage (raw : string) (error : Message) : Stage.t :=
  Stage.mk 2 "PAL: Execute Math" Failed
    (Some (ExpressionInput (keep is_expr_char raw))) None (Some error).

(** Stage 2 after a successful evaluation. *)
Definition evaluation_stage (raw : string) (formatted : JSValue) : Stage.t :=
  Stage.mk 2 "PAL: Execute Math" Complete
    (Some (ExpressionInput (keep is_expr_char raw))) (Some formatted) None.

(** Stage 3 once complete, for the answer [final] of the model. *)
Definition formatting_stage (userQuery raw : string) (formatted : JSValue)
    (final : string) : Stage.t :=
  Stage.mk 3 "LLM: Format Response" Complete
    (Some (FormatInput userQuery (keep is_expr_char raw) formatted))
    (Some (VString (trim final))) None.

(** Stage 3 as it is pushed. *)
Definition running_formatting_stage (userQuery raw : string) (formatted : JSValue)
    : Stage.t :=
  Stage.mk 3 "LLM: Format Response" Running
    (Some (FormatInput userQuery (keep is_expr_char raw) formatted)) None None.

(** What [generate] makes of the answer to its request: the [response]
    text of a status 200..299, the rejection, or the HTTP error. *)
Definition outcome (answer : FetchResult) : Completion string :=
  match answer with
  | Rejected m => Throw m
  | Response status response =>
      if ok status then Normal response
      else Throw (Text ("HTTP error! status: " ++ BigInt_toString (Z.of_N status))%string)
  end.

(** ** Messages of the chat *)

(** The guard of [sendMessage]: some text to send, no answer pending, the
    server found available. *)
Definition can_send (c : Chat) : bool :=
  negb (String.eqb (trim (inputMessage c)) "") && negb (isLoading c) && ollamaAvailable c.

(** The message of the user, made at the clock readings [n] and [n + 1]. *)
Definition user_message (clock : nat -> Z) (n : nat) (input : string) : ChatMessage.t :=
  ChatMessage.mk (clock n) User [Chars (trim input)] (clock (S n)) false false.

(** The content of an error message. *)
Definition error_content (m : Message) : list Piece :=
  [Mark CrossMark; Chars " **Error:** "; Said m].

(** What the body of [sendMessage] comes to for the text [input]: the
    content of the answer and whether it comes from the pipeline, or the
    error that is caught. *)
Definition attempt (engine : Engine) (backend : Backend) (show : bool)
    (input : string) (st : State) : Completion (list Piece * bool) * State :=
  if isMathQuery input then
    match solveWithPipeline engine backend input st with
    | (Normal run, st') =>
        if run_success run then (Normal (responseContent show run, true), st')
        else (Throw (Text "Pipeline execution failed"), st')
    | (Throw m, st') => (Throw m, st')
    end
  else
    match generate backend (PlainPrompt input) Options.empty st with
    | (Normal response, st') => (Normal ([Chars response], false), st')
    | (Throw m, st') => (Throw m, st')
    end.

(** The message of the assistant, made at the clock readings [n] and
    [n + 1]. *)
Definition reply (clock : nat -> Z) (n : nat) (a : Completion (list Piece * bool))
    : ChatMessage.t :=
  match a with
  | Normal (content, pipeline) =>
      ChatMessage.mk (clock n + 1) Assistant content (clock (S n)) false pipeline
  | Throw m =>
      ChatMessage.mk (clock n + 1) Assistant (error_content m) (clock (S n)) true false
  end.

(** The heading of a complete stage in the report of a run. *)
Definition complete_heading (number name : string) : list Piece :=
  [Chars "**"; Mark CheckMark; Chars " Stage "; Chars number; Chars ": "; Chars name;
   Chars ("**" ++ LF)%string].

(** The line of the report that shows the output of a stage. *)
Definition output_line (v : JSValue) : list Piece :=
  [Chars "Output: `"; Shown v; Chars ("`" ++ LF)%string].

(** The request of a plain chat message. *)
Definition chat_request (input : string) : Request :=
  mkRequest "http://localhost:11434/api/generate" "POST"
    (requestBody (PlainPrompt input) Options.empty).

(** A probe that finds no server. *)
Definition probe_refused : Probe -> FetchResult :=
  fun _ => Rejected (Text "Failed to fetch").

(** ** Markup *)

(** The characters the four patterns of [markup] start with. *)
Definition is_markup_char (c : ascii) : bool :=
  one_of "*`-" c || Ascii.eqb c "010".

(** A backend that answers its requests in order from a script and refuses
    any further one. *)
Definition backend_scripted (script : list FetchResult) : Backend :=
  fun history _ =>
    nth (List.length history) script (Rejected (Text "connection refused")).

(** * Properties *)

(** ** The matcher finds exactly the words of its pattern *)

Section Matcher.
Context {A : Type}.

Lemma star_loop_sound L step :
  sound_step A L step -> forall fuel, sound_step A (star_lang L) (star_loop step fuel).
Proof.
  intros Hstep fuel. induction fuel as [|fuel IH]; intros s c k x H; simpl in H.
  - exists [], s, c. split; [reflexivity|]. split; [constructor|assumption].
  - destruct (step s c _) as [y|] eqn:E.
    + injection H as ->.
      apply Hstep in E as (w1 & s1 & c1 & -> & Hw1 & Hk).
      destruct (Nat.ltb_spec (List.length s1) (List.length (w1 ++ s1))) as [Hlt|Hge];
        [|discriminate].
      apply IH in Hk as (w2 & s2 & c2 & -> & Hw2 & Hk).
      exists (w1 ++ w2), s2, c2. split; [by rewrite <- List.app_assoc|].
      split; [|assumption].
      constructor; try assumption.
      intros ->. simpl in Hlt. lia.
    + exists [], s, c. split; [reflexivity|]. split; [constructor|assumption].
Qed.

Lemma star_loop_complete L step :
  complete_step A L step ->
  forall w, star_lang L w -> forall fuel s' c k,
    (List.length (w ++ s') <= fuel)%nat ->
    (forall c', is_Some (k s' c')) ->
    is_Some (star_loop step fuel (w ++ s') c k).
Proof.
  intros Hstep w Hw. induction Hw as [|w1 w2 Hne Hw1 Hw2 IH]; intros fuel s' c k Hfuel Hk.
  - destruct fuel; simpl; [apply Hk|].
    destruct (step _ _ _); [eauto|apply Hk].
  - destruct fuel as [|fuel].
    { destruct w1; [congruence|simpl in Hfuel; lia]. }
    simpl. rewrite <- List.app_assoc.
    destruct (Hstep w1 Hw1 (w2 ++ s') c
      (fun s0 c' => if (List.length s0 <? List.length (w1 ++ w2 ++ s'))%nat
                    then star_loop step fuel s0 c' k else None)) as [y Hy].
    + intros c'.
      destruct (Nat.ltb_spec (List.length (w2 ++ s')) (List.length (w1 ++ w2 ++ s'))) as [Hlt|Hge].
      * apply IH; [|assumption].
        rewrite <- List.app_assoc in Hfuel. rewrite List.length_app in Hfuel.
        destruct w1; [congruence|simpl in Hfuel; lia].
      * rewrite (List.length_app w1) in Hge. destruct w1; [congruence|simpl in Hge; lia].
    + rewrite Hy. eauto.
Qed.

Lemma rmatch_sound r : sound_step A (lang r) (rmatch r).
Proof.
  induction r as [|p|r1 IH1 r2 IH2|r IH|i r IH]; intros s c k x H; simpl in H.
  - exists [], s, c. repeat split; auto.
  - destruct s as [|a s]; [discriminate|].
    destruct (p a) eqn:Ep; [|discriminate].
    exists [a], s, c. repeat split; simpl; eauto.
  - apply IH1 in H as (w1 & s1 & c1 & -> & Hw1 & H).
    apply IH2 in H as (w2 & s2 & c2 & -> & Hw2 & H).
    exists (w1 ++ w2), s2, c2. rewrite <- List.app_assoc. repeat split; simpl; eauto.
  - eapply (star_loop_sound (lang r)) in H; [exact H|exact IH].
  - apply IH in H as (w & s' & c' & -> & Hw & H). exists w, s'. eauto.
Qed.

Lemma rmatch_complete r : complete_step A (lang r) (rmatch r).
Proof.
  induction r as [|p|r1 IH1 r2 IH2|r IH|i r IH]; intros w Hw s' c k Hk; simpl in *.
  - subst. apply Hk.
  - destruct Hw as (a & -> & Ha). simpl. rewrite Ha. apply Hk.
  - destruct Hw as (w1 & w2 & -> & Hw1 & Hw2). rewrite <- List.app_assoc.
    apply IH1; [assumption|]. intros c'. apply IH2; assumption.
  - eapply star_loop_complete; eauto.
  - apply IH; [assumption|]. intros c'. apply Hk.
Qed.

End Matcher.

(** [exec] succeeds exactly when a word of the pattern occurs in the text. *)
Lemma exec_spec r s :
  is_Some (exec r s) <-> exists pre w post : list ascii, s = (pre ++ w ++ post) /\ lang r w.
Proof.
  induction s as [|a s IH]; simpl.
  - destruct (rmatch r [] [] _) as [[s' c]|] eqn:E.
    + split; [intros _|eauto].
      apply rmatch_sound in E as (w & s1 & c1 & Hs & Hw & _).
      exists [], w, s1. auto.
    + split; [intros [? ?]; discriminate|].
      intros (pre & w & post & Hs & Hw). exfalso.
      symmetry in Hs. apply List.app_eq_nil in Hs as [-> Hs].
      apply List.app_eq_nil in Hs as [-> ->].
      destruct (rmatch_complete (A := list ascii * Captures) r [] Hw [] []
                  (fun s' c => Some (s', c))) as [y Hy]; [eauto|].
      simpl in Hy. congruence.
  - destruct (rmatch r (a :: s) [] _) as [[s' c]|] eqn:E.
    + split; [intros _|eauto].
      apply rmatch_sound in E as (w & s1 & c1 & Hs & Hw & _).
      exists [], w, s1. auto.
    + split.
      * intros H. destruct (exec r s) as [m|] eqn:Em; [|destruct H; discriminate].
        destruct IH as [IH _]. destruct IH as (pre & w & post & -> & Hw); [eauto|].
        exists (a :: pre), w, post. auto.
      * intros (pre & w & post & Hs & Hw).
        destruct pre as [|b pre].
        -- exfalso. simpl in Hs.
           destruct (rmatch_complete (A := list ascii * Captures) r w Hw post []
                  (fun s' c => Some (s', c))) as [y Hy]; [eauto|].
           rewrite <- Hs in Hy. congruence.
        -- simpl in Hs. injection Hs as -> ->.
           destruct IH as [_ IH]. destruct IH as [m Hm]; [eauto|].
           rewrite Hm. simpl. eauto.
Qed.

Lemma test_spec r s :
  test r s = true <->
  exists pre w post : list ascii, list_ascii_of_string s = (pre ++ w ++ post) /\ lang r w.
Proof.
  unfold test. rewrite <- exec_spec.
  destruct (exec r _); split; intros H; try reflexivity; try discriminate; eauto.
  destruct H; discriminate.
Qed.

(** ** The star of a character class *)

Section ClassStar.
Context {A : Type} (p : ascii -> bool).

Lemma star_class_greedy fuel : forall s c (k : Cont A),
  (List.length s <= fuel)%nat ->
  star_loop (fun s0 c0 k0 => rmatch (Class p) s0 c0 k0) fuel s c k = greedy p s c k.
Proof.
  induction fuel as [|fuel IH]; intros s c k Hlen.
  - destruct s; [reflexivity|simpl in Hlen; lia].
  - destruct s as [|a s]; simpl; [reflexivity|].
    destruct (p a); [|reflexivity].
    destruct (Nat.ltb_spec (List.length s) (S (List.length s))); [|lia].
    rewrite IH by (simpl in Hlen; lia). reflexivity.
Qed.

Lemma rmatch_star_class s c (k : Cont A) :
  rmatch (Star (Class p)) s c k = greedy p s c k.
Proof. simpl. apply star_class_greedy. lia. Qed.

Lemma greedy_first s c (k : Cont A) x :
  k (drop_while p s) c = Some x -> greedy p s c k = Some x.
Proof.
  induction s as [|a s IH]; simpl; [auto|].
  destruct (p a); [|auto]. intros H. rewrite (IH H). reflexivity.
Qed.

End ClassStar.

Lemma drop_while_length p s : (List.length (drop_while p s) <= List.length s)%nat.
Proof.
  induction s as [|a s IH]; simpl; [lia|]. destruct (p a); simpl; lia.
Qed.

Lemma filter_drop_while (p q : ascii -> bool) s :
  (forall a, p a = true -> q a = false) ->
  List.filter q (drop_while p s) = List.filter q s.
Proof.
  intros H. induction s as [|a s IH]; simpl; [reflexivity|].
  destruct (p a) eqn:E; [|reflexivity]. rewrite (H a E). exact IH.
Qed.

(** ** Global replacement *)

Lemma exec_here r s s' c :
  rmatch r s [] k0 = Some (s', c) ->
  exec r s = Some (mkMatch 0 (firstn (List.length s - List.length s') s) c s').
Proof. intros H. destruct s; simpl; unfold k0 in H; rewrite H; reflexivity. Qed.

Lemma exec_later r a s :
  rmatch r (a :: s) [] k0 = None ->
  exec r (a :: s) = option_map shift_match (exec r s).
Proof. intros H. simpl. unfold k0 in H. rewrite H. reflexivity. Qed.

Lemma replace_loop_later r repl f a s :
  rmatch r (a :: s) [] k0 = None ->
  replace_loop (S f) r repl (a :: s) = a :: replace_loop (S f) r repl s.
Proof.
  intros H. cbn [replace_loop]. rewrite (exec_later _ _ _ H).
  destruct (exec r s) as [m|]; [|reflexivity].
  destruct m as [i t g rest]. cbn.
  destruct t, rest; reflexivity.
Qed.

Lemma replace_loop_here r repl f a s s' c :
  rmatch r (a :: s) [] k0 = Some (s', c) ->
  (List.length s' <= List.length s)%nat ->
  replace_loop (S f) r repl (a :: s) = repl ++ replace_loop f r repl s'.
Proof.
  intros H Hlen. cbn [replace_loop]. rewrite (exec_here _ _ _ _ H). cbn -[Nat.sub].
  replace (S (List.length s) - List.length s')%nat
    with (S (List.length s - List.length s')) by lia.
  reflexivity.
Qed.

(** A global replacement of [p+] or of [p] by nothing keeps exactly the
    characters outside [p]. *)
Lemma replace_plus_class p : forall n s f,
  (List.length s <= n)%nat -> (List.length s < f)%nat ->
  replace_loop f (Plus (Class p)) [] s = List.filter (fun a => negb (p a)) s.
Proof.
  induction n as [|n IH]; intros s f Hn Hf.
  - destruct s; [|simpl in Hn; lia]. destruct f; reflexivity.
  - destruct s as [|a s]; [destruct f; reflexivity|].
    destruct f as [|f]; [lia|]. simpl in Hn, Hf.
    destruct (p a) eqn:Ea.
    + rewrite (replace_loop_here _ _ _ a s (drop_while p s) []).
      * cbn [List.filter app]. rewrite Ea. cbn [negb].
        rewrite IH; [|pose proof (drop_while_length p s); lia..].
        apply filter_drop_while. intros b ->. reflexivity.
      * cbn [Plus rmatch]. rewrite Ea.
        change (rmatch (Star (Class p)) s [] k0 = Some (drop_while p s, [])).
        rewrite rmatch_star_class. apply greedy_first. reflexivity.
      * apply drop_while_length.
    + rewrite replace_loop_later.
      * cbn [List.filter]. rewrite Ea. cbn [negb]. f_equal. apply IH; lia.
      * cbn [Plus rmatch]. rewrite Ea. reflexivity.
Qed.

Lemma replace_class p : forall s f,
  (List.length s < f)%nat ->
  replace_loop f (Class p) [] s = List.filter (fun a => negb (p a)) s.
Proof.
  induction s as [|a s IH]; intros f Hf.
  - destruct f; reflexivity.
  - destruct f as [|f]; [lia|]. simpl in Hf.
    destruct (p a) eqn:Ea.
    + rewrite (replace_loop_here _ _ _ a s s []).
      * cbn [List.filter app]. rewrite Ea. cbn [negb]. apply IH. lia.
      * simpl. rewrite Ea. reflexivity.
      * lia.
    + rewrite replace_loop_later.
      * cbn [List.filter]. rewrite Ea. cbn [negb]. f_equal. apply IH. lia.
      * simpl. rewrite Ea. reflexivity.
Qed.

Lemma filter_trim (q : ascii -> bool) s :
  (forall a, is_space a = true -> q a = false) ->
  List.filter q (list_ascii_of_string (trim s)) = List.filter q (list_ascii_of_string s).
Proof.
  intros H. unfold trim. rewrite list_ascii_of_string_of_list_ascii.
  assert (Hd : forall l, List.filter q (drop_spaces l) = List.filter q l).
  { induction l as [|a l IH]; simpl; [reflexivity|].
    destruct (is_space a) eqn:E; [|reflexivity]. rewrite (H a E). exact IH. }
  rewrite List.filter_rev, Hd, List.filter_rev, List.rev_involutive, Hd. reflexivity.
Qed.

Lemma space_not_expr_char a : is_space a = true -> is_expr_char a = false.
Proof.
  destruct a as [[] [] [] [] [] [] [] []]; vm_compute; congruence.
Qed.

(** [expression.trim().replace(/\s+/g, '')] removes the white space. *)
Lemma cleaned_spec expression :
  replace_all re_spaces "" (trim expression) = keep not_space expression.
Proof.
  unfold replace_all, keep, re_spaces. f_equal.
  rewrite (replace_plus_class is_space (List.length (list_ascii_of_string (trim expression))));
    [|lia..].
  apply filter_trim. intros a ->. reflexivity.
Qed.

(** [raw.trim().replace(/[^0-9+\-*/().]/g, '')] keeps the characters of an
    expression. *)
Lemma sanitized_spec raw :
  replace_all re_not_expr "" (trim raw) = keep is_expr_char raw.
Proof.
  unfold replace_all, keep, re_not_expr. f_equal.
  rewrite replace_class by lia.
  rewrite <- (filter_trim is_expr_char raw space_not_expr_char).
  apply List.filter_ext. intros a. apply negb_involutive.
Qed.

(** ** The words of the patterns of the source *)

Lemma lang_star_class p w : lang (Star (Class p)) w <-> all_in p w.
Proof.
  unfold all_in. simpl. split.
  - induction 1 as [|w1 w2 Hne (a & -> & Ha) _ IH]; [reflexivity|].
    simpl. rewrite Ha. exact IH.
  - induction w as [|a w IH]; simpl; intros H; [constructor|].
    apply andb_true_iff in H as [Ha Hw].
    change (a :: w) with ([a] ++ w). constructor; [discriminate|exists a; auto|auto].
Qed.

Lemma lang_plus_class p w : lang (Plus (Class p)) w <-> w <> [] /\ all_in p w.
Proof.
  unfold Plus. cbn [lang]. split.
  - intros (w1 & w2 & -> & (a & -> & Ha) & Hw2).
    apply (lang_star_class p) in Hw2. split; [discriminate|].
    unfold all_in in *. simpl. rewrite Ha. exact Hw2.
  - intros [Hne Hw]. destruct w as [|a w]; [congruence|].
    unfold all_in in Hw. simpl in Hw. apply andb_true_iff in Hw as [Ha Hw].
    exists [a], w. split; [reflexivity|]. split; [exists a; auto|].
    apply (lang_star_class p). exact Hw.
Qed.

Lemma lang_repeat_class p n : forall w,
  lang (Repeat n (Class p)) w <-> List.length w = n /\ all_in p w.
Proof.
  unfold all_in. induction n as [|n IH]; intros w; cbn [Repeat lang].
  - split; [intros ->; auto|]. intros [H _]. destruct w; [reflexivity|discriminate].
  - split.
    + intros (w1 & w2 & -> & (a & -> & Ha) & Hw2). apply IH in Hw2 as [Hl Hw2].
      simpl. rewrite Ha, Hl. auto.
    + intros [Hl Hw]. destruct w as [|a w]; [discriminate|].
      simpl in Hl, Hw. apply andb_true_iff in Hw as [Ha Hw].
      exists [a], w. split; [reflexivity|]. split; [exists a; auto|].
      apply IH. split; [lia|assumption].
Qed.

Lemma lang_at_least_class p n w :
  lang (AtLeast n (Class p)) w <-> (n <= List.length w)%nat /\ all_in p w.
Proof.
  unfold AtLeast. cbn [lang]. fold (lang (Star (Class p))). split.
  - intros (w1 & w2 & -> & H1 & H2).
    apply lang_repeat_class in H1 as [Hl H1]. apply lang_star_class in H2.
    unfold all_in in *. rewrite List.length_app, forallb_app, H1, H2. split; [lia|reflexivity].
  - intros [Hl Hw]. exists (firstn n w), (skipn n w).
    rewrite List.firstn_skipn. split; [reflexivity|].
    unfold all_in in Hw. rewrite <- (List.firstn_skipn n w), forallb_app in Hw.
    apply andb_true_iff in Hw as [H1 H2]. split.
    + apply lang_repeat_class. split; [apply List.firstn_length_le; lia|exact H1].
    + apply lang_star_class. exact H2.
Qed.

(** [/\d{10,}/.test(s)] holds exactly when [s] has a run of ten digits. *)
Lemma test_large_spec s : test re_large s = true <-> has_digit_run 10 s.
Proof.
  rewrite test_spec. unfold has_digit_run, re_large. split.
  - intros (pre & w & post & Hs & Hw). apply lang_at_least_class in Hw.
    exists pre, w, post. tauto.
  - intros (pre & w & post & Hs & Hw). exists pre, w, post.
    split; [assumption|]. apply lang_at_least_class. assumption.
Qed.

Lemma lang_arith w :
  lang re_arith w <->
  exists (d1 w1 : list ascii) (op : ascii) (w2 d2 : list ascii),
    w = d1 ++ w1 ++ [op] ++ w2 ++ d2 /\
    d1 <> [] /\ all_in is_digit d1 /\ all_in is_space w1 /\
    is_query_op op = true /\
    all_in is_space w2 /\ d2 <> [] /\ all_in is_digit d2.
Proof.
  unfold re_arith. split.
  - intros (d1 & r1 & -> & Hd1 & w1 & r2 & -> & Hw1 & o & r3 & -> & (op & -> & Hop)
            & w2 & d2 & -> & Hw2 & Hd2).
    apply lang_plus_class in Hd1 as [? ?]. apply lang_plus_class in Hd2 as [? ?].
    apply lang_star_class in Hw1. apply lang_star_class in Hw2.
    exists d1, w1, op, w2, d2. tauto.
  - intros (d1 & w1 & op & w2 & d2 & -> & Hn1 & Hd1 & Hw1 & Hop & Hw2 & Hn2 & Hd2).
    exists d1, (w1 ++ [op] ++ w2 ++ d2). split; [reflexivity|].
    split; [apply lang_plus_class; auto|].
    exists w1, ([op] ++ w2 ++ d2). split; [reflexivity|].
    split; [apply lang_star_class; auto|].
    exists [op], (w2 ++ d2). split; [reflexivity|].
    split; [exists op; auto|].
    exists w2, d2. split; [reflexivity|].
    split; [apply lang_star_class; auto|apply lang_plus_class; auto].
Qed.

Lemma test_arith_spec s : test re_arith s = true <-> has_arithmetic s.
Proof.
  rewrite test_spec. unfold has_arithmetic. split.
  - intros (pre & w & post & Hs & Hw). apply lang_arith in Hw.
    destruct Hw as (d1 & w1 & op & w2 & d2 & -> & H).
    exists pre, d1, w1, op, w2, d2, post. tauto.
  - intros (pre & d1 & w1 & op & w2 & d2 & post & Hs & H).
    exists pre, (d1 ++ w1 ++ [op] ++ w2 ++ d2), post. split; [assumption|].
    apply lang_arith. exists d1, w1, op, w2, d2. tauto.
Qed.

(** ** The classifier *)

Lemma starts_with_spec p s :
  starts_with p s = true <-> exists post, s = p ++ post.
Proof.
  revert s. induction p as [|a p IH]; intros s; simpl.
  - split; eauto.
  - destruct s as [|b s]; [split; [discriminate|intros [? ?]; discriminate]|].
    rewrite andb_true_iff, Ascii.eqb_eq, IH. split.
    + intros [-> [post ->]]. eauto.
    + intros [post H]. injection H as -> ->. eauto.
Qed.

Lemma includes_list_spec s p :
  includes_list s p = true <-> exists pre post, s = pre ++ p ++ post.
Proof.
  induction s as [|a s IH]; simpl; rewrite orb_true_iff, starts_with_spec.
  - split.
    + intros [[post ->]|?]; [|discriminate]. exists [], post. reflexivity.
    + intros (pre & post & H). left.
      destruct pre; [eauto|discriminate].
  - rewrite IH. split.
    + intros [[post ->]|(pre & post & ->)]; [exists [], post|exists (a :: pre), post]; reflexivity.
    + intros (pre & post & H). destruct pre as [|b pre]; [left; eauto|].
      right. injection H as -> ->. eauto.
Qed.

Lemma list_ascii_of_string_app (a b : string) :
  list_ascii_of_string (a ++ b)%string = list_ascii_of_string a ++ list_ascii_of_string b.
Proof. induction a as [|c a IH]; simpl; [reflexivity|]. rewrite IH. reflexivity. Qed.

Lemma string_of_list_ascii_app (a b : list ascii) :
  string_of_list_ascii (a ++ b) = (string_of_list_ascii a ++ string_of_list_ascii b)%string.
Proof. induction a as [|c a IH]; simpl; [reflexivity|]. rewrite IH. reflexivity. Qed.

Lemma includes_spec s k : includes s k = true <-> occurs_in k s.
Proof.
  unfold includes, occurs_in. rewrite includes_list_spec. split.
  - intros (pre & post & H).
    exists (string_of_list_ascii pre), (string_of_list_ascii post).
    rewrite <- (string_of_list_ascii_of_string s), H.
    rewrite !string_of_list_ascii_app, string_of_list_ascii_of_string. reflexivity.
  - intros (pre & post & ->).
    exists (list_ascii_of_string pre), (list_ascii_of_string post).
    rewrite !list_ascii_of_string_app. reflexivity.
Qed.

(** C8.  [isMathQuery] answers true exactly when the lowercased text
    contains one of the nineteen keywords or the text itself contains two
    digit runs separated by one of [+ - * / ^ %] with optional white space
    around the operator; "what is 7+5" is a math query and "hello there"
    is not. *)
Theorem isMathQuery_spec :
  (forall query : string,
     isMathQuery query = true <->
     (exists keyword, In keyword mathKeywords /\ occurs_in keyword (toLowerCase query))
     \/ has_arithmetic query)
  /\ mathKeywords
     = [ "calculate"; "compute"; "solve"; "what is"; "how much"; "sum";
         "difference"; "product"; "quotient"; "average"; "percentage";
         "percent"; "add"; "subtract"; "multiply"; "divide"; "plus"; "minus";
         "times" ]
  /\ isMathQuery "what is 7+5" = true
  /\ isMathQuery "hello there" = false.
Proof.
  split; [|repeat split; reflexivity].
  intros query. unfold isMathQuery.
  rewrite orb_true_iff, existsb_exists, test_arith_spec.
  split; intros [H|H]; auto; left; destruct H as (k & Hk & H); exists k;
    (split; [assumption|]); apply includes_spec; assumption.
Qed.

(** ** The exact path *)

Lemma drop_while_app p d rest :
  all_in p d -> no_head p rest -> drop_while p (d ++ rest) = rest.
Proof.
  unfold all_in. induction d as [|a d IH]; simpl; intros Hd Hr.
  - destruct rest as [|b rest]; [reflexivity|]. simpl in *. rewrite Hr. reflexivity.
  - apply andb_true_iff in Hd as [-> Hd]. auto.
Qed.

Lemma firstn_consumed (d rest : list ascii) :
  firstn (List.length (d ++ rest) - List.length rest) (d ++ rest) = d.
Proof.
  rewrite List.length_app.
  replace (List.length d + List.length rest - List.length rest)%nat
    with (List.length d + 0)%nat by lia.
  rewrite List.firstn_app_2. simpl. apply List.app_nil_r.
Qed.

Section Steps.
Context {A : Type}.

Lemma rmatch_group_plus p i s d rest c (k : Cont A) x :
  s = d ++ rest ->
  d <> [] -> all_in p d -> no_head p rest ->
  k rest ((i, d) :: c) = Some x ->
  rmatch (Group i (Plus (Class p))) s c k = Some x.
Proof.
  intros -> Hne Hd Hr Hk. destruct d as [|a d]; [congruence|].
  unfold all_in in Hd. simpl in Hd. apply andb_true_iff in Hd as [Ha Hd].
  cbn [rmatch Plus]. cbn [app]. rewrite Ha.
  change (star_loop _ (List.length (d ++ rest)) (d ++ rest) c ?K)
    with (rmatch (Star (Class p)) (d ++ rest) c K).
  rewrite rmatch_star_class. apply greedy_first.
  rewrite drop_while_app by assumption.
  change (a :: d ++ rest) with ((a :: d) ++ rest).
  rewrite firstn_consumed. exact Hk.
Qed.

Lemma rmatch_star_skip p s c (k : Cont A) :
  no_head p s -> rmatch (Star (Class p)) s c k = k s c.
Proof.
  intros H. rewrite rmatch_star_class. destruct s as [|a s]; [reflexivity|].
  simpl in *. rewrite H. reflexivity.
Qed.

End Steps.

Lemma binop_not_digit a : is_binop a = true -> is_digit a = false.
Proof. destruct a as [[] [] [] [] [] [] [] []]; vm_compute; congruence. Qed.

Lemma binop_not_space a : is_binop a = true -> is_space a = false.
Proof. destruct a as [[] [] [] [] [] [] [] []]; vm_compute; congruence. Qed.

Lemma digit_not_space a : is_digit a = true -> is_space a = false.
Proof. destruct a as [[] [] [] [] [] [] [] []]; vm_compute; congruence. Qed.

Lemma expr_char_not_space a : is_expr_char a = true -> is_space a = false.
Proof. destruct a as [[] [] [] [] [] [] [] []]; vm_compute; congruence. Qed.

Lemma exec_binary_simple d1 op d2 :
  d1 <> [] -> all_in is_digit d1 -> is_binop op = true ->
  d2 <> [] -> all_in is_digit d2 ->
  exec re_binary (d1 ++ op :: d2)
  = Some (mkMatch 0 (d1 ++ op :: d2) [(3%nat, d2); (2%nat, [op]); (1%nat, d1)] []).
Proof.
  intros Hn1 Hd1 Hop Hn2 Hd2.
  rewrite (exec_here re_binary _ [] [(3%nat, d2); (2%nat, [op]); (1%nat, d1)]).
  { simpl List.length at 2. rewrite Nat.sub_0_r, List.firstn_all. reflexivity. }
  unfold re_binary. cbn [rmatch].
  change (rmatch (Plus (Class is_digit)) (d1 ++ op :: d2) [] ?K = _)
    with (rmatch (Group 1 (Plus (Class is_digit))) (d1 ++ op :: d2) []
            (fun s' c' => rmatch (Seq (Star (Class is_space))
               (Seq (Group 2 (Class is_binop))
                 (Seq (Star (Class is_space)) (Group 3 (Plus (Class is_digit))))))
               s' c' k0) = Some ([], [(3%nat, d2); (2%nat, [op]); (1%nat, d1)])).
  apply (rmatch_group_plus _ _ _ d1 (op :: d2)); [reflexivity|assumption..| |].
  { simpl. apply binop_not_digit. assumption. }
  cbn [rmatch].
  change (star_loop _ (List.length (op :: d2)) (op :: d2) ?c ?K)
    with (rmatch (Star (Class is_space)) (op :: d2) c K).
  rewrite rmatch_star_skip by (simpl; apply binop_not_space; assumption).
  rewrite Hop.
  change (star_loop _ (List.length d2) d2 ?c ?K)
    with (rmatch (Star (Class is_space)) d2 c K).
  rewrite rmatch_star_skip.
  2:{ destruct d2 as [|b d2]; [exact I|]. simpl.
      unfold all_in in Hd2. simpl in Hd2. apply andb_true_iff in Hd2 as [Hb _].
      apply digit_not_space. assumption. }
  replace (firstn (List.length (op :: d2) - List.length d2) (op :: d2)) with [op].
  2:{ simpl List.length. replace (S (List.length d2) - List.length d2)%nat with 1%nat by lia.
      reflexivity. }
  change (rmatch (Plus (Class is_digit)) d2 ?c ?K = _)
    with (rmatch (Group 3 (Plus (Class is_digit))) d2 c k0
          = Some ([], [(3%nat, d2); (2%nat, [op]); (1%nat, d1)])).
  apply (rmatch_group_plus _ _ _ d2 []);
    [symmetry; apply List.app_nil_r|assumption..|exact I|reflexivity].
Qed.

Lemma is_integer_literal_spec s :
  is_integer_literal s = true ->
  list_ascii_of_string s <> [] /\ all_in is_digit (list_ascii_of_string s).
Proof. destruct s; [discriminate|]. intros H. split; [discriminate|exact H]. Qed.

Lemma evaluateBigInt_binary a op b :
  is_integer_literal a = true -> is_binop op = true -> is_integer_literal b = true ->
  evaluateBigInt (a ++ String op b)%string = exact_result op (BigInt a) (BigInt b).
Proof.
  intros Ha Hop Hb.
  apply is_integer_literal_spec in Ha as [Hna Hda].
  apply is_integer_literal_spec in Hb as [Hnb Hdb].
  unfold evaluateBigInt. rewrite list_ascii_of_string_app. cbn [list_ascii_of_string].
  rewrite exec_binary_simple by assumption.
  cbn [m_groups group Nat.eqb]. rewrite !string_of_list_ascii_of_string.
  cbn [string_of_list_ascii]. unfold exact_result.
  destruct op as [[] [] [] [] [] [] [] []]; try discriminate Hop; reflexivity.
Qed.

(** ** The choice of the path *)

Lemma keep_all p s :
  forallb p (list_ascii_of_string s) = true -> keep p s = s.
Proof.
  intros H. unfold keep.
  rewrite <- (string_of_list_ascii_of_string s) at 2. f_equal.
  induction (list_ascii_of_string s) as [|a l IH]; simpl in *; [reflexivity|].
  apply andb_true_iff in H as [-> H]. f_equal. auto.
Qed.

Lemma keep_expression e : is_expression e = true -> keep not_space e = e.
Proof.
  intros H. apply keep_all. unfold is_expression in H.
  rewrite forallb_forall in *. intros a Ha. unfold not_space.
  rewrite (expr_char_not_space a); auto.
Qed.

Lemma filter_all p l : all_in p l -> List.filter p l = l.
Proof.
  unfold all_in. induction l as [|a l IH]; simpl; [reflexivity|].
  intros H. apply andb_true_iff in H as [-> H]. f_equal. auto.
Qed.

Lemma has_digit_run_keep n e : has_digit_run n e -> has_digit_run n (keep not_space e).
Proof.
  intros (pre & d & post & He & Hn & Hd).
  exists (List.filter not_space pre), d, (List.filter not_space post).
  unfold keep. rewrite list_ascii_of_string_of_list_ascii, He, !List.filter_app.
  split; [|auto]. do 2 f_equal. apply filter_all.
  unfold all_in in *. rewrite forallb_forall in *. intros a Ha.
  unfold not_space. rewrite digit_not_space; auto.
Qed.

Section Paths.
Variable engine : Engine.

Lemma executeMathExpression_unfold e :
  executeMathExpression engine e =
  if test re_large (keep not_space e) then evaluateBigInt (keep not_space e)
  else floating_result (Function_return engine (keep not_space e)).
Proof. unfold executeMathExpression. rewrite cleaned_spec. reflexivity. Qed.

Lemma executeMathExpression_exact e :
  has_digit_run 10 (keep not_space e) ->
  executeMathExpression engine e = evaluateBigInt (keep not_space e).
Proof.
  intros H. rewrite executeMathExpression_unfold.
  apply test_large_spec in H. rewrite H. reflexivity.
Qed.

Lemma executeMathExpression_floating e :
  ~ has_digit_run 10 (keep not_space e) ->
  executeMathExpression engine e
  = floating_result (Function_return engine (keep not_space e)).
Proof.
  intros H. rewrite executeMathExpression_unfold.
  destruct (test re_large (keep not_space e)) eqn:E; [|reflexivity].
  apply test_large_spec in E. contradiction.
Qed.

End Paths.

(** C3.  An expression (a string over [[0-9+\-*/().]]) with a run of ten
    or more digits is evaluated by the exact path, [evaluateBigInt]; any
    other expression by the floating-point path, the interpreter followed
    by [formatNumber].  "1234567890+1" gives the exact string "1234567891"
    and "2+2" gives 4. *)
Theorem evaluate_path_selection (engine : Engine) (e : string) :
  is_expression e = true ->
  (has_digit_run 10 e -> executeMathExpression engine e = evaluateBigInt e)
  /\ (~ has_digit_run 10 e ->
      executeMathExpression engine e = floating_result (Function_return engine e))
  /\ executeMathExpression engine "1234567890+1"
     = Ok (VString "1234567891") (VString "1234567891")
  /\ executeMathExpression engine "2+2" = Ok (VNumber 4) (VNumber 4).
Proof.
  intros He. pose proof (keep_expression e He) as Hk.
  split; [|split; [|split; reflexivity]].
  - intros H. rewrite executeMathExpression_exact; rewrite Hk; auto.
  - intros H. rewrite executeMathExpression_floating; rewrite Hk; auto.
Qed.

Lemma evaluate_path_selection_witness :
  is_expression "480*0.25" = true
  /\ forall engine,
       executeMathExpression engine "480*0.25"
       = floating_result (Function_return engine "480*0.25").
Proof.
  split; [reflexivity|]. intros engine.
  refine (proj1 (proj2 (evaluate_path_selection engine "480*0.25" _)) _); [reflexivity|].
  intros H. apply test_large_spec in H. discriminate H.
Defined.

(** C1.  The specification requires [Err "Complex expression not
    supported"] for a large-number expression with more than one operator.
    The pattern of the exact path is not anchored: on "1234567890+1+1" it
    matches the leading "1234567890+1" and the evaluator answers
    [Ok "1234567891"], dropping the last operand; the error is raised only
    for a text with no binary operation at all. *)
Theorem exact_path_accepts_second_operator (engine : Engine) :
  executeMathExpression engine "1234567890+1+1"
  = Ok (VString "1234567891") (VString "1234567891")
  /\ executeMathExpression engine "1234567890"
     = Err (Text "Complex expression not supported").
Proof. split; reflexivity. Qed.

Lemma length_list_ascii s : List.length (list_ascii_of_string s) = String.length s.
Proof. induction s; simpl; auto. Qed.

Lemma has_digit_run_operands (a b : string) (op : ascii) :
  is_integer_literal a = true -> is_integer_literal b = true ->
  (10 <= String.length a)%nat \/ (10 <= String.length b)%nat ->
  has_digit_run 10 (a ++ String op b)%string.
Proof.
  intros Ha Hb Hlen.
  apply is_integer_literal_spec in Ha as [_ Ha]. apply is_integer_literal_spec in Hb as [_ Hb].
  rewrite <- !length_list_ascii in Hlen.
  destruct Hlen as [Hlen|Hlen].
  - exists [], (list_ascii_of_string a), (list_ascii_of_string (String op b)).
    rewrite list_ascii_of_string_app. auto.
  - exists (list_ascii_of_string (a ++ String op "")%string), (list_ascii_of_string b), [].
    rewrite !list_ascii_of_string_app, List.app_nil_r, <- List.app_assoc. auto.
Qed.

(** The exact path on a single binary operation: for an expression that
    reads [a op b], white space apart, with integer literals [a] and [b],
    one of them of ten digits or more, the result is the exact decimal text
    of the sum, difference, product or truncated quotient, and the
    division error when [b] is zero. *)
Theorem exact_path_arithmetic (engine : Engine) (e a b : string) (op : ascii) :
  keep not_space e = (a ++ String op b)%string ->
  is_integer_literal a = true -> is_binop op = true -> is_integer_literal b = true ->
  (10 <= String.length a)%nat \/ (10 <= String.length b)%nat ->
  executeMathExpression engine e = exact_result op (BigInt a) (BigInt b).
Proof.
  intros He Ha Hop Hb Hlen.
  rewrite executeMathExpression_exact; rewrite He.
  - apply evaluateBigInt_binary; assumption.
  - apply has_digit_run_operands; assumption.
Qed.

Lemma exact_path_arithmetic_witness :
  keep not_space "42987429742 + 43434343" = "42987429742+43434343"
  /\ is_integer_literal "42987429742" = true
  /\ is_binop "+" = true
  /\ is_integer_literal "43434343" = true
  /\ forall engine,
       executeMathExpression engine "42987429742 + 43434343"
       = Ok (VString "43030864085") (VString "43030864085").
Proof.
  split; [reflexivity|]. split; [reflexivity|]. split; [reflexivity|].
  split; [reflexivity|]. intros engine.
  refine (exact_path_arithmetic engine "42987429742 + 43434343" "42987429742"
            "43434343" "+" eq_refl eq_refl eq_refl eq_refl _).
  left. simpl. lia.
Defined.

(** C10.  On the exact path an expression that reads [a/b], white space
    apart, with integer literals [a] and [b], a run of ten digits and a
    divisor of value zero, returns [Err] with the message of the engine's
    division error; nothing escapes the evaluator.  On the floating-point
    path "2/0" succeeds with the non-finite value [Infinity]. *)
Theorem exact_division_by_zero (engine : Engine) (e a b : string) :
  keep not_space e = (a ++ "/" ++ b)%string ->
  is_integer_literal a = true -> is_integer_literal b = true ->
  (10 <= String.length a)%nat \/ (10 <= String.length b)%nat ->
  BigInt b = 0 ->
  executeMathExpression engine e = Err (Native RangeError_division_by_zero)
  /\ executeMathExpression engine "2/0" = Ok (VNumber infinity) (VString "Infinity")
  /\ is_finite infinity = false.
Proof.
  intros He Ha Hb Hlen Hzero. split; [|split; reflexivity].
  rewrite executeMathExpression_exact; rewrite He.
  - change (a ++ "/" ++ b)%string with (a ++ String "/" b)%string.
    rewrite evaluateBigInt_binary by auto. unfold exact_result. simpl Ascii.eqb.
    cbv iota. rewrite Hzero. reflexivity.
  - apply has_digit_run_operands; assumption.
Qed.

Lemma exact_division_by_zero_witness :
  keep not_space "1234567890 / 000" = "1234567890/000"
  /\ is_integer_literal "1234567890" = true
  /\ is_integer_literal "000" = true
  /\ BigInt "000" = 0
  /\ forall engine,
       executeMathExpression engine "1234567890 / 000"
       = Err (Native RangeError_division_by_zero).
Proof.
  split; [reflexivity|]. split; [reflexivity|]. split; [reflexivity|].
  split; [reflexivity|]. intros engine.
  refine (proj1 (exact_division_by_zero engine "1234567890 / 000" "1234567890" "000"
                   _ _ _ _ _));
    [reflexivity|reflexivity|reflexivity|left; simpl; lia|reflexivity].
Defined.

(** ** The formatter *)

Lemma is_digit_digit_char d : is_digit (digit_char d) = true.
Proof.
  unfold digit_char. pose proof (Z.mod_pos_bound d 10 ltac:(lia)) as H.
  remember (d mod 10) as r eqn:Er. clear Er.
  assert (r = 0 \/ r = 1 \/ r = 2 \/ r = 3 \/ r = 4 \/ r = 5 \/ r = 6 \/ r = 7
          \/ r = 8 \/ r = 9) as Hr by lia.
  repeat (destruct Hr as [->|Hr]; [reflexivity|]). subst. reflexivity.
Qed.

Lemma fixed_digits_length k : forall v, List.length (fixed_digits k v) = k.
Proof.
  induction k as [|k IH]; intros v; simpl; [reflexivity|].
  rewrite List.length_app, IH. simpl. lia.
Qed.

Lemma fixed_digits_digits k : forall v, forallb is_digit (fixed_digits k v) = true.
Proof.
  induction k as [|k IH]; intros v; simpl; [reflexivity|].
  rewrite forallb_app, IH. simpl. rewrite is_digit_digit_char. reflexivity.
Qed.

Lemma uint_digits u :
  forallb is_digit (list_ascii_of_string (NilEmpty.string_of_uint u)) = true.
Proof. induction u; simpl; auto. Qed.

Lemma BigInt_toString_nonneg z :
  0 <= z ->
  exists a t, list_ascii_of_string (BigInt_toString z) = a :: t
              /\ forallb is_digit (a :: t) = true.
Proof.
  intros Hz. unfold BigInt_toString.
  destruct z as [|p|p]; [exists "0"%char, []; auto| |lia].
  simpl. pose proof (uint_digits (Pos.to_uint p)) as Hd.
  pose proof (Unsigned.to_uint_nonnil p) as Hn.
  destruct (Pos.to_uint p) eqn:E; try congruence;
    simpl in *; eexists _, _; split; try reflexivity; exact Hd.
Qed.

Lemma exponent_text_shape e :
  exists sign a t,
    list_ascii_of_string (exponent_text e) = sign :: a :: t
    /\ (Ascii.eqb sign "+" || Ascii.eqb sign "-") = true
    /\ forallb is_digit (a :: t) = true.
Proof.
  unfold exponent_text. destruct (Z.leb_spec 0 e) as [H|H].
  - destruct (BigInt_toString_nonneg e H) as (a & t & Ha & Hd).
    exists "+"%char, a, t. rewrite list_ascii_of_string_app, Ha. auto.
  - destruct (BigInt_toString_nonneg (- e) ltac:(lia)) as (a & t & Ha & Hd).
    exists "-"%char, a, t. rewrite list_ascii_of_string_app, Ha. auto.
Qed.

Lemma scientific_shape (negative : bool) f n e :
  is_scientific (S f)
    ((if negative then "-" else "") ++ mantissa_text (S f) n ++ "e" ++ exponent_text e)%string
  = true.
Proof.
  destruct (exponent_text_shape e) as (sign & a & t & He & Hs & Hd).
  unfold is_scientific, mantissa_text.
  rewrite !list_ascii_of_string_app, He, list_ascii_of_string_of_list_ascii.
  set (lead := digit_char (n / 10 ^ Z.of_nat (S f))).
  set (frac := fixed_digits (S f) n).
  assert (Hlead : is_digit lead = true) by apply is_digit_digit_char.
  assert (Hlen : List.length frac = S f) by apply fixed_digits_length.
  assert (Hfrac : forallb is_digit frac = true) by apply fixed_digits_digits.
  assert (Hminus : Ascii.eqb lead "-" = false).
  { destruct (Ascii.eqb_spec lead "-") as [E|]; [|reflexivity].
    rewrite E in Hlead. discriminate. }
  assert (Hbody :
    scientific_unsigned (S f) (lead :: "."%char :: frac ++ "e"%char :: sign :: a :: t)
    = true).
  { unfold scientific_unsigned. rewrite <- Hlen at 1 2 3 4.
    rewrite List.firstn_app, List.firstn_all, Nat.sub_diag. cbn [firstn].
    rewrite List.app_nil_r, Hlen, Nat.eqb_refl, Hfrac, Hlead.
    rewrite <- Hlen, List.skipn_app, List.skipn_all, Nat.sub_diag. cbn [skipn app].
    rewrite Hs, Hd. reflexivity. }
  destruct negative; cbn [list_ascii_of_string app].
  - exact Hbody.
  - rewrite Hminus. exact Hbody.
Qed.

Lemma toExponential_scientific x f :
  is_finite x = true -> is_scientific (S f) (toExponential x (S f)) = true.
Proof.
  unfold is_finite, toExponential. destruct (Prim2SF x) as [s|s| |s m e]; try discriminate.
  - intros _. apply (scientific_shape false f 0 0).
  - intros _.
    destruct (if 0 <=? e then _ else _) as [n e10].
    apply scientific_shape.
Qed.

Lemma scale_down_spec bound p : forall fuel q e,
  0 < q -> 0 < bound -> p < q * bound * 10 ^ Z.of_nat fuel ->
  exists k, 0 <= k
    /\ scale_down fuel bound p q e = (p, q * 10 ^ k, e + k)
    /\ p < q * 10 ^ k * bound
    /\ (p < q * bound -> k = 0)
    /\ (q * bound <= p -> q * 10 ^ k * bound <= 10 * p).
Proof.
  induction fuel as [|fuel IH]; intros q e Hq Hb Hp.
  - change (Z.of_nat 0) with 0 in Hp. rewrite Z.pow_0_r, Z.mul_1_r in Hp.
    exists 0. rewrite Z.pow_0_r, Z.mul_1_r, Z.add_0_r. cbn [scale_down].
    split; [lia|]. split; [reflexivity|]. split; [lia|]. split; [reflexivity|lia].
  - cbn [scale_down]. destruct (Z.leb_spec (q * bound) p) as [Hle|Hlt].
    + destruct (IH (10 * q) (e + 1)) as (k & Hk & Hs & Hlt & Hz & Hge); [lia|lia| |].
      { rewrite Nat2Z.inj_succ, Z.pow_succ_r in Hp by lia. lia. }
      exists (k + 1). rewrite Z.pow_add_r, Z.pow_1_r by lia.
      replace (q * (10 ^ k * 10)) with (10 * q * 10 ^ k) by lia.
      replace (e + (k + 1)) with (e + 1 + k) by lia.
      split; [lia|]. split; [exact Hs|]. split; [exact Hlt|]. split; [lia|].
      intros _. destruct (Z.le_gt_cases (10 * q * bound) p) as [H|H]; [auto|].
      rewrite (Hz H), Z.pow_0_r. lia.
    + exists 0. rewrite Z.pow_0_r, Z.mul_1_r, Z.add_0_r.
      split; [lia|]. split; [reflexivity|]. split; [lia|]. split; [reflexivity|lia].
Qed.

Lemma scale_up_spec bound q : forall fuel p e,
  0 < p -> 0 < bound -> q * bound <= p * 10 ^ Z.of_nat fuel ->
  exists k, 0 <= k
    /\ scale_up fuel bound p q e = (p * 10 ^ k, q, e - k)
    /\ q * bound <= p * 10 ^ k
    /\ (q * bound <= p -> k = 0)
    /\ (p < q * bound -> p * 10 ^ k < 10 * (q * bound)).
Proof.
  induction fuel as [|fuel IH]; intros p e Hp Hb Hq.
  - change (Z.of_nat 0) with 0 in Hq. rewrite Z.pow_0_r, Z.mul_1_r in Hq.
    exists 0. rewrite Z.pow_0_r, Z.mul_1_r, Z.sub_0_r. cbn [scale_up].
    split; [lia|]. split; [reflexivity|]. split; [lia|]. split; [reflexivity|lia].
  - cbn [scale_up]. destruct (Z.ltb_spec p (q * bound)) as [Hlt|Hle].
    + destruct (IH (10 * p) (e - 1)) as (k & Hk & Hs & Hge & Hz & Hlt'); [lia|lia| |].
      { rewrite Nat2Z.inj_succ, Z.pow_succ_r in Hq by lia. lia. }
      exists (k + 1). rewrite Z.pow_add_r, Z.pow_1_r by lia.
      replace (p * (10 ^ k * 10)) with (10 * p * 10 ^ k) by lia.
      replace (e - (k + 1)) with (e - 1 - k) by lia.
      split; [lia|]. split; [exact Hs|]. split; [exact Hge|]. split; [lia|].
      intros _. destruct (Z.le_gt_cases (q * bound) (10 * p)) as [H|H]; [|lia].
      rewrite (Hz H), Z.pow_0_r. lia.
    + exists 0. rewrite Z.pow_0_r, Z.mul_1_r, Z.sub_0_r.
      split; [lia|]. split; [reflexivity|]. split; [lia|]. split; [reflexivity|lia].
Qed.

Lemma pow10_above_log2 x : 0 < x -> x < 10 ^ Z.of_nat (S (Z.to_nat (Z.log2 x))).
Proof.
  intros Hx. pose proof (Z.log2_nonneg x) as Hl.
  rewrite Nat2Z.inj_succ, Z2Nat.id by assumption.
  pose proof (Z.log2_spec x Hx) as [_ Hup].
  eapply Z.lt_le_trans; [exact Hup|].
  apply Z.pow_le_mono_l. lia.
Qed.

Lemma round_half_up_bounds P Q :
  0 < Q -> let n := (2 * P + Q) / (2 * Q) in
  (2 * n - 1) * Q <= 2 * P < (2 * n + 1) * Q.
Proof.
  intros HQ n.
  pose proof (Z.div_mod (2 * P + Q) (2 * Q) ltac:(lia)) as Hdm.
  pose proof (Z.mod_pos_bound (2 * P + Q) (2 * Q) ltac:(lia)) as Hm.
  fold n in Hdm. nia.
Qed.

Lemma exponential_digits_spec f p q :
  0 < p -> 0 < q ->
  let '(n, e) := exponential_digits f p q in
  10 ^ Z.of_nat f <= n < 10 * 10 ^ Z.of_nat f
  /\ rounds_to p q n (e - Z.of_nat f).
Proof.
  intros Hp Hq. unfold exponential_digits.
  set (lo := 10 ^ Z.of_nat f). assert (Hlo : 0 < lo) by (apply Z.pow_pos_nonneg; lia).
  destruct (Z.leb_spec (q * (10 * lo)) p) as [Hbig|Hsmall].
  - destruct (scale_down_spec (10 * lo) p (S (Z.to_nat (Z.log2 p))) q (Z.of_nat f))
      as (k & Hk & -> & Hlt & _ & Hge); [lia|lia| |].
    { pose proof (pow10_above_log2 p Hp) as Hl.
      set (big := 10 ^ Z.of_nat (S (Z.to_nat (Z.log2 p)))) in *.
      assert (1 * big <= q * (10 * lo) * big)
        by (apply Z.mul_le_mono_nonneg_r; nia).
      lia. }
    specialize (Hge Hbig).
    assert (HQ : 0 < q * 10 ^ k) by (apply Z.mul_pos_pos; [lia|apply Z.pow_pos_nonneg; lia]).
    pose proof (round_half_up_bounds p (q * 10 ^ k) HQ) as Hn. cbv zeta in Hn.
    set (n := (2 * p + q * 10 ^ k) / (2 * (q * 10 ^ k))) in *.
    unfold rounds_to.
    destruct (Z.leb_spec (10 * lo) n) as [Hbump|Hin].
    + replace (Z.of_nat f + k + 1 - Z.of_nat f) with (k + 1) by lia.
      destruct (Z.leb_spec 0 (k + 1)); [|lia].
      rewrite Z.pow_add_r, Z.pow_1_r by lia. split; [lia|]. nia.
    + replace (Z.of_nat f + k - Z.of_nat f) with k by lia.
      destruct (Z.leb_spec 0 k); [|lia]. split; [|exact Hn]. split; [nia|lia].
  - destruct (scale_up_spec lo q (S (Z.to_nat (Z.log2 q)) + f) p (Z.of_nat f))
      as (k & Hk & -> & Hge & Hz & Hlt); [lia|lia| |].
    { pose proof (pow10_above_log2 q Hq) as Hl.
      rewrite Nat2Z.inj_add, Z.pow_add_r; [|apply Nat2Z.is_nonneg..]. fold lo.
      set (big := 10 ^ Z.of_nat (S (Z.to_nat (Z.log2 q)))) in *.
      assert (q * lo <= big * lo) by (apply Z.mul_le_mono_nonneg_r; lia).
      assert (1 * (big * lo) <= p * (big * lo)) by (apply Z.mul_le_mono_nonneg_r; nia).
      lia. }
    assert (Hpk : 0 < 10 ^ k) by (apply Z.pow_pos_nonneg; lia).
    assert (Hup : p * 10 ^ k < q * (10 * lo)).
    { destruct (Z.le_gt_cases (q * lo) p) as [H|H].
      - rewrite (Hz H), Z.pow_0_r. lia.
      - specialize (Hlt H). lia. }
    pose proof (round_half_up_bounds (p * 10 ^ k) q Hq) as Hn. cbv zeta in Hn.
    set (n := (2 * (p * 10 ^ k) + q) / (2 * q)) in *.
    unfold rounds_to.
    destruct (Z.leb_spec (10 * lo) n) as [Hbump|Hin].
    + replace (Z.of_nat f - k + 1 - Z.of_nat f) with (1 - k) by lia.
      split; [lia|].
      destruct (Z.leb_spec 0 (1 - k)) as [H|H].
      * assert (k = 0 \/ k = 1) as [->| ->] by lia.
        -- change (1 - 0) with 1. rewrite Z.pow_1_r. rewrite Z.pow_0_r in *. nia.
        -- change (1 - 1) with 0. rewrite Z.pow_0_r. rewrite Z.pow_1_r in *. nia.
      * replace (- (1 - k)) with (k - 1) by lia.
        replace k with ((k - 1) + 1) in Hn, Hup, Hge by lia.
        rewrite Z.pow_add_r, Z.pow_1_r in Hn, Hup, Hge by lia.
        assert (0 < 10 ^ (k - 1)) by (apply Z.pow_pos_nonneg; lia). nia.
    + replace (Z.of_nat f - k - Z.of_nat f) with (- k) by lia.
      split; [split; [nia|lia]|].
      destruct (Z.leb_spec 0 (- k)) as [H|H].
      * assert (k = 0) as -> by lia. change (- 0) with 0. rewrite Z.pow_0_r in *. lia.
      * rewrite Z.opp_involutive. exact Hn.
Qed.

(** The digits [toExponential] prints for a finite non-zero Number are the
    integer [n] of [f + 1] digits and the exponent [e10] that round its
    exact magnitude. *)
Lemma toExponential_finite x f s m e :
  Prim2SF x = S754_finite s m e ->
  exists n e10 : Z,
    toExponential x f
    = ((if s then "-" else "") ++ mantissa_text f n ++ "e" ++ exponent_text e10)%string
    /\ 10 ^ Z.of_nat f <= n < 10 * 10 ^ Z.of_nat f
    /\ (if 0 <=? e
        then rounds_to (Z.pos m * 2 ^ e) 1 n (e10 - Z.of_nat f)
        else rounds_to (Z.pos m) (2 ^ (- e)) n (e10 - Z.of_nat f)).
Proof.
  intros Hx. unfold toExponential. rewrite Hx.
  destruct (Z.leb_spec 0 e) as [He|He].
  - pose proof (exponential_digits_spec f (Z.pos m * 2 ^ e) 1) as H.
    destruct (exponential_digits f (Z.pos m * 2 ^ e) 1) as [n e10].
    exists n, e10. split; [reflexivity|]. apply H; [|lia].
    apply Z.mul_pos_pos; [lia|apply Z.pow_pos_nonneg; lia].
  - pose proof (exponential_digits_spec f (Z.pos m) (2 ^ (- e))) as H.
    destruct (exponential_digits f (Z.pos m) (2 ^ (- e))) as [n e10].
    exists n, e10. split; [reflexivity|]. apply H; [lia|].
    apply Z.pow_pos_nonneg; lia.
Qed.

(** The constants of the source are the Numbers their decimal literals
    denote. *)
Lemma constants_of_literals :
  let lit (i f : string) :=
    literal_value (list_ascii_of_string i) (list_ascii_of_string f) in
  c_0_0001 = lit "0" "0001" /\ c_1e10 = lit "10000000000" "" /\ c_1e6 = lit "1000000" ""
  /\ c_0_7 = lit "0" "7" /\ c_0_1 = lit "0" "1" /\ c_0_5 = lit "0" "5".
Proof. vm_compute. repeat split; reflexivity. Qed.

(** C5.  The specification requires zero to be rounded to 6 decimal
    places and rendered as a plain decimal.  The first test of
    [formatNumber], [Math.abs(num) < 0.0001], has no guard for zero: zero
    passes it and is rendered in scientific notation, "0.0000e+0", and so
    is the result of "5-5".  The other values of the specification are
    formatted as it says: 0.00005 and 1e11 in scientific notation with
    four fraction digits, 123.456789 as it is; the result of "2/3" is
    rounded to 0.666667. *)
Theorem formatNumber_zero_scientific (engine : Engine) :
  formatNumber (VNumber 0) = VString "0.0000e+0"
  /\ formatNumber (VNumber (-0)) = VString "0.0000e+0"
  /\ executeMathExpression engine "5-5" = Ok (VNumber 0) (VString "0.0000e+0")
  /\ (abs 0 <? c_0_0001)%float = true
  /\ is_scientific 4 "0.0000e+0" = true
  /\ formatNumber (VNumber 0x1.a36e2eb1c432dp-15%float) = VString "5.0000e-5"
  /\ formatNumber (VNumber 0x1.edd3c07ee0b0bp+6%float) = VNumber 0x1.edd3c07ee0b0bp+6%float
  /\ formatNumber (VNumber 0x1.74876e8p+36%float) = VString "1.0000e+11"
  /\ executeMathExpression engine "2/3"
     = Ok (VNumber (2 / 3)%float)
         (VNumber (literal_value (list_ascii_of_string "0")
                     (list_ascii_of_string "666667"))).
Proof. repeat split; reflexivity. Qed.

(** ** The results of the evaluator *)

Section Results.
Variable engine : Engine.

Lemma evaluateBigInt_ok expr v f :
  evaluateBigInt expr = Ok v f ->
  exists z : Z, v = VString (BigInt_toString z) /\ f = v.
Proof.
  unfold evaluateBigInt. destruct (exec re_binary _) as [m|]; [|discriminate].
  cbv zeta.
  repeat match goal with
         | |- (if ?b then _ else _) = _ -> _ => destruct b
         end; try discriminate; intros [= <- <-]; eauto.
Qed.

Lemma arithmetic_normal_number text v :
  arithmetic text = Some (Normal v) -> exists x : float, v = VNumber x.
Proof.
  unfold arithmetic. destruct (forallb _ _); [|discriminate].
  destruct (parse_source text) as [e| |]; try discriminate.
  destruct (eval e); intros [= <-]; eauto.
Qed.

(** C4, amended.  When [executeMathExpression] returns [Ok]: on the exact
    path the value is the decimal text of an integer and [formatted] is the
    same text; on the floating-point path the value is what the interpreter
    returned and [formatted] is [formatNumber] of it.  For an arithmetic
    text that value is a Number, finite or not, and [formatted] is a text
    only outside the range 1e-4 to 1e10, a Number inside it. *)
Theorem evaluate_ok_result (e : string) (v f : JSValue) :
  executeMathExpression engine e = Ok v f ->
  (has_digit_run 10 (keep not_space e)
   /\ exists z : Z, v = VString (BigInt_toString z) /\ f = v)
  \/ (~ has_digit_run 10 (keep not_space e)
      /\ Function_return engine (keep not_space e) = Normal v
      /\ f = formatNumber v
      /\ (is_Some (arithmetic (keep not_space e)) ->
          exists x : float,
            v = VNumber x
            /\ f = if out_of_plain_range x then VString (toExponential x 4)
                   else VNumber (Math_round (x * c_1e6) / c_1e6)%float)).
Proof.
  rewrite executeMathExpression_unfold.
  destruct (test re_large (keep not_space e)) eqn:E; intros H.
  - left. split; [apply test_large_spec; assumption|].
    eapply evaluateBigInt_ok; eassumption.
  - right. split.
    { intros Hrun. apply test_large_spec in Hrun. congruence. }
    unfold floating_result in H.
    destruct (Function_return engine _) as [r|m] eqn:Er; [|discriminate].
    injection H as <- <-. repeat split.
    intros [c Hc]. unfold Function_return in Er. rewrite Hc in Er. subst c.
    apply arithmetic_normal_number in Hc as [x ->]. exists x. split; reflexivity.
Qed.

End Results.

Lemma evaluate_ok_result_witness :
  (forall engine : Engine,
     executeMathExpression engine "2/0" = Ok (VNumber infinity) (VString "Infinity"))
  /\ (forall engine : Engine,
        ~ has_digit_run 10 (keep not_space "2/0")
        /\ Function_return engine (keep not_space "2/0") = Normal (VNumber infinity)).
Proof.
  split; [reflexivity|]. intros engine.
  destruct (evaluate_ok_result engine "2/0" (VNumber infinity) (VString "Infinity")
              eq_refl) as [[_ [z [Hz _]]]|[Hrun [Hret _]]].
  - discriminate Hz.
  - split; assumption.
Defined.

(** C4 as the specification states it fails: "2/0" succeeds with a value
    that is not finite, and "2+2" succeeds with a [formatted] field that
    is a Number. *)
Lemma evaluate_ok_not_finite_not_string :
  (forall engine : Engine,
     executeMathExpression engine "2/0" = Ok (VNumber infinity) (VString "Infinity"))
  /\ finite_or_integer_string (VNumber infinity) = false
  /\ (forall engine : Engine,
        executeMathExpression engine "2+2" = Ok (VNumber 4) (VNumber 4))
  /\ is_string_value (VNumber 4) = false.
Proof. repeat split; reflexivity. Qed.

(** C2.  The specification requires that the floating-point path runs
    nothing but arithmetic.  The code hands the text to the interpreter as
    it is: the call "(1)(2)" is parsed and run up to the point where 1 is
    found not to be callable, and a text with an identifier, an
    exponentiation or a regular-expression literal gets whatever the
    engine makes of it. *)
Theorem floating_path_is_unrestricted (engine : Engine) :
  executeMathExpression engine "(1)(2)" = Err (Native TypeError_not_callable)
  /\ executeMathExpression engine "alert(1)" = floating_result (engine "alert(1)")
  /\ executeMathExpression engine "2**3" = floating_result (engine "2**3")
  /\ executeMathExpression engine "/1/" = floating_result (engine "/1/").
Proof. repeat split; reflexivity. Qed.

(** ** The gateway *)

(** The object [requestBody] that [generate] builds, before it is handed
    to [JSON.stringify]: a model name that is not empty is its [model],
    and a temperature that is neither zero nor NaN is its
    [options.temperature], as the caller gives them, when the model
    options of the caller have no temperature of their own. *)
Theorem requestBody_supplied (prompt : Prompt) (m : string) (t : float)
    (mo : option (gmap string JSValue)) :
  m <> "" -> is_zero t = false -> is_nan t = false ->
  default ∅ mo !! "temperature" = None ->
  let body := requestBody prompt (Options.mk (Some m) (Some t) mo) in
  RequestBody.model body = m
  /\ RequestBody.options body !! "temperature" = Some (VNumber t).
Proof.
  intros Hm Hz Hn Hmo. unfold requestBody, or_number.
  cbn [Options.model Options.temperature Options.modelOptions
       RequestBody.model RequestBody.options].
  rewrite Hz, Hn. cbn [orb].
  split; [destruct m; [congruence|reflexivity]|].
  rewrite lookup_union_r by exact Hmo. apply lookup_singleton_eq.
Qed.

Lemma requestBody_supplied_witness :
  "mistral" <> "" /\ is_zero c_0_1 = false /\ is_nan c_0_1 = false
  /\ default (∅ : gmap string JSValue) (Some {[ "seed" := VNumber 1 ]}) !! "temperature"
     = None
  /\ forall prompt,
       let body :=
         requestBody prompt
           (Options.mk (Some "mistral") (Some c_0_1) (Some {[ "seed" := VNumber 1 ]})) in
       RequestBody.model body = "mistral"
       /\ RequestBody.options body !! "temperature" = Some (VNumber c_0_1).
Proof.
  split; [discriminate|]. split; [reflexivity|]. split; [reflexivity|].
  split; [reflexivity|]. intros prompt.
  exact (requestBody_supplied prompt "mistral" c_0_1 (Some {[ "seed" := VNumber 1 ]})
           ltac:(discriminate) eq_refl eq_refl eq_refl).
Defined.

(** C9.  Without options the request carries model "llama3" and
    temperature 0.7.  The specification also requires a supplied
    temperature of 0 to be sent as 0; the code writes the default with
    [||], so a supplied 0 is replaced by 0.7 (and a supplied empty model
    name by "llama3"). *)
Theorem requestBody_zero_temperature (prompt : Prompt) :
  (let body := requestBody prompt Options.empty in
   RequestBody.model body = "llama3"
   /\ RequestBody.options body !! "temperature" = Some (VNumber c_0_7))
  /\ (let body := requestBody prompt (Options.mk None (Some 0%float) None) in
      RequestBody.options body !! "temperature" = Some (VNumber c_0_7))
  /\ (let body := requestBody prompt (Options.mk (Some "") None None) in
      RequestBody.model body = "llama3").
Proof. repeat split; reflexivity. Qed.

(** ** The orchestrator *)

Section Orchestrator.
Variable engine : Engine.
Variable backend : Backend.

Lemma solveWithPipeline_after_extraction userQuery st status raw :
  backend (sent st) (extract_request userQuery) = Response status raw ->
  ok status = true ->
  solveWithPipeline engine backend userQuery st =
  let cleanedExpression := keep is_expr_char raw in
  let st1 := mkState (sent st ++ [extract_request userQuery])
               [extraction_stage raw;
                Stage.mk 2 "PAL: Execute Math" Running
                  (Some (ExpressionInput cleanedExpression)) None None] in
  match executeMathExpression engine cleanedExpression with
  | Err error =>
      (update 1 (Stage.set_status Failed);;
       update 1 (Stage.set_error error);;
       stages ← read_stages;
       mret (mkRun stages false None)) st1
  | Ok _ formatted =>
      (update 1 (Stage.set_status Complete);;
       update 1 (Stage.set_output formatted);;
       push (Stage.mk 3 "LLM: Format Response" Running
               (Some (FormatInput userQuery cleanedExpression formatted)) None None);;
       finalResponse ← generate backend
                         (FormatPrompt userQuery cleanedExpression formatted)
                         (Options.mk None (Some c_0_5) None);
       update 2 (Stage.set_status Complete);;
       update 2 (Stage.set_output (VString (trim finalResponse)));;
       stages ← read_stages;
       mret (mkRun stages true (Some (trim finalResponse)))) st1
  end.
Proof.
  intros Hb Hok. unfold solveWithPipeline.
  unfold mbind at 1 2 3. unfold Async_bind at 1 2 3.
  cbn [new_stages push sent stages app].
  unfold generate at 1. cbn [sent stages].
  change (mkRequest _ "POST" (requestBody (ExtractPrompt userQuery) _))
    with (extract_request userQuery).
  rewrite Hb, Hok. rewrite sanitized_spec.
  unfold mbind at 1 2 3. unfold Async_bind at 1 2 3.
  cbn [update push sent stages app alter list_alter Stage.set_status Stage.set_output
       Stage.stage Stage.name Stage.status Stage.input Stage.output Stage.error].
  destruct (executeMathExpression engine (keep is_expr_char raw)); reflexivity.
Qed.

(** C6.  When the model answers the extraction request with [raw] and the
    evaluation of the sanitized text returns [Err error], the run has
    exactly two stages, stage 1 complete and stage 2 failed with [error]
    recorded, its success flag is false, it has no final answer, and the
    only request sent is the extraction request: stage 3 is never built. *)
Theorem pipeline_short_circuit userQuery st status raw error :
  backend (sent st) (extract_request userQuery) = Response status raw ->
  ok status = true ->
  executeMathExpression engine (keep is_expr_char raw) = Err error ->
  solveWithPipeline engine backend userQuery st =
  (Normal (mkRun [extraction_stage raw; failed_evaluation_stage raw error] false None),
   mkState (sent st ++ [extract_request userQuery])
     [extraction_stage raw; failed_evaluation_stage raw error]).
Proof.
  intros Hb Hok He. rewrite (solveWithPipeline_after_extraction _ _ _ _ Hb Hok).
  cbv zeta. rewrite He. reflexivity.
Qed.

(** C7.  Whatever text [raw] the model answers in stage 1, stage 1 is
    recorded as complete with output [raw] stripped of every character
    outside [[0-9+\-*/().]], in the state the call ends in and in the run
    it returns, whether or not that text is empty or malformed; the raw
    text "The answer is 12+5!" gives "12+5". *)
Theorem extraction_output_sanitized userQuery st status raw :
  backend (sent st) (extract_request userQuery) = Response status raw ->
  ok status = true ->
  stages (solveWithPipeline engine backend userQuery st).2 !! 0%nat
  = Some (extraction_stage raw)
  /\ (forall run,
        (solveWithPipeline engine backend userQuery st).1 = Normal run ->
        run_stages run !! 0%nat = Some (extraction_stage raw))
  /\ keep is_expr_char "The answer is 12+5!" = "12+5".
Proof.
  intros Hb Hok. rewrite (solveWithPipeline_after_extraction _ _ _ _ Hb Hok).
  clear Hb Hok. cbv zeta. split; [|split; [|reflexivity]].
  - destruct (executeMathExpression engine _) as [v f|error]; [|reflexivity].
    unfold mbind at 1 2 3 4. unfold Async_bind at 1 2 3 4.
    cbn [update push sent stages app alter list_alter].
    unfold generate. cbn [sent stages].
    destruct (backend _ _) as [m|status' response]; [reflexivity|].
    destruct (ok status'); reflexivity.
  - intros run.
    destruct (executeMathExpression engine _) as [v f|error];
      [|intros [= <-]; reflexivity].
    unfold mbind at 1 2 3 4. unfold Async_bind at 1 2 3 4.
    cbn [update push sent stages app alter list_alter].
    unfold generate. cbn [sent stages].
    destruct (backend _ _) as [m|status' response]; [discriminate|].
    destruct (ok status'); [|discriminate].
    intros [= <-]. reflexivity.
Qed.

(** When both requests are answered and the evaluation succeeds, the run
    has three stages, all complete, its success flag is true and its final
    answer is the trimmed answer of the model to the formatting request. *)
Theorem pipeline_success userQuery st status raw result formatted status' final :
  backend (sent st) (extract_request userQuery) = Response status raw ->
  ok status = true ->
  executeMathExpression engine (keep is_expr_char raw) = Ok result formatted ->
  backend (sent st ++ [extract_request userQuery])
    (format_request userQuery raw formatted) = Response status' final ->
  ok status' = true ->
  solveWithPipeline engine backend userQuery st =
  (Normal (mkRun [extraction_stage raw; evaluation_stage raw formatted;
                  formatting_stage userQuery raw formatted final]
             true (Some (trim final))),
   mkState (sent st ++ [extract_request userQuery]
              ++ [format_request userQuery raw formatted])
     [extraction_stage raw; evaluation_stage raw formatted;
      formatting_stage userQuery raw formatted final]).
Proof.
  intros Hb Hok He Hb' Hok'. rewrite (solveWithPipeline_after_extraction _ _ _ _ Hb Hok).
  cbv zeta. rewrite He.
  unfold mbind at 1 2 3 4. unfold Async_bind at 1 2 3 4.
  cbn [update push sent stages app alter list_alter].
  unfold generate. cbn [sent stages].
  change (mkRequest _ "POST" (requestBody (FormatPrompt userQuery _ formatted) _))
    with (format_request userQuery raw formatted).
  rewrite Hb', Hok', <- List.app_assoc. reflexivity.
Qed.

(** A failure of the extraction request, a rejection or a status outside
    200..299, is not caught: the call throws, no run is returned, and
    stage 1 is left running. *)
Theorem pipeline_transport_failure userQuery st :
  (forall m,
     backend (sent st) (extract_request userQuery) = Rejected m ->
     (solveWithPipeline engine backend userQuery st).1 = Throw m)
  /\ (forall status response,
        backend (sent st) (extract_request userQuery) = Response status response ->
        ok status = false ->
        (solveWithPipeline engine backend userQuery st).1
        = Throw (Text ("HTTP error! status: " ++ BigInt_toString (Z.of_N status))%string))
  /\ (forall answer,
        backend (sent st) (extract_request userQuery) = answer ->
        match answer with
        | Rejected _ => True
        | Response status _ => ok status = false
        end ->
        stages (solveWithPipeline engine backend userQuery st).2
        = [running_extraction_stage]).
Proof.
  assert (Hrun : solveWithPipeline engine backend userQuery st =
    match backend (sent st) (extract_request userQuery) with
    | Rejected m =>
        (Throw m,
         mkState (sent st ++ [extract_request userQuery])
           [running_extraction_stage])
    | Response status response =>
        if ok status then solveWithPipeline engine backend userQuery st
        else (Throw (Text ("HTTP error! status: "
                           ++ BigInt_toString (Z.of_N status))%string),
              mkState (sent st ++ [extract_request userQuery])
                [running_extraction_stage])
    end).
  { destruct (backend (sent st) (extract_request userQuery)) as [m|status response] eqn:Hb.
    - unfold solveWithPipeline. unfold mbind at 1 2 3. unfold Async_bind at 1 2 3.
      cbn [new_stages push sent stages app]. unfold generate at 1. cbn [sent stages].
      change (mkRequest _ "POST" (requestBody (ExtractPrompt userQuery) _))
        with (extract_request userQuery).
      rewrite Hb. reflexivity.
    - destruct (ok status) eqn:Hok; [reflexivity|].
      unfold solveWithPipeline. unfold mbind at 1 2 3. unfold Async_bind at 1 2 3.
      cbn [new_stages push sent stages app]. unfold generate at 1. cbn [sent stages].
      change (mkRequest _ "POST" (requestBody (ExtractPrompt userQuery) _))
        with (extract_request userQuery).
      rewrite Hb, Hok. reflexivity. }
  split; [|split].
  - intros m Hb. rewrite Hrun, Hb. reflexivity.
  - intros status response Hb Hok. rewrite Hrun, Hb, Hok. reflexivity.
  - intros answer Hb Hans. rewrite Hrun, Hb.
    destruct answer as [m|status response]; [reflexivity|]. rewrite Hans. reflexivity.
Qed.

End Orchestrator.

Lemma pipeline_short_circuit_witness :
  backend_scripted [Response 200 "The answer is 12+!"] [] (extract_request "what is 12 plus")
  = Response 200 "The answer is 12+!"
  /\ ok 200 = true
  /\ (forall engine,
        executeMathExpression engine (keep is_expr_char "The answer is 12+!")
        = Err (Native SyntaxError_invalid_source))
  /\ (forall engine,
        solveWithPipeline engine (backend_scripted [Response 200 "The answer is 12+!"])
          "what is 12 plus" (mkState [] [])
        = (Normal (mkRun [extraction_stage "The answer is 12+!";
                          failed_evaluation_stage "The answer is 12+!"
                            (Native SyntaxError_invalid_source)] false None),
           mkState [extract_request "what is 12 plus"]
             [extraction_stage "The answer is 12+!";
              failed_evaluation_stage "The answer is 12+!"
                (Native SyntaxError_invalid_source)])).
Proof.
  split; [reflexivity|]. split; [reflexivity|]. split; [reflexivity|].
  intros engine.
  exact (pipeline_short_circuit engine (backend_scripted [Response 200 "The answer is 12+!"])
           "what is 12 plus" (mkState [] [])
           200%N "The answer is 12+!" (Native SyntaxError_invalid_source)
           eq_refl eq_refl eq_refl).
Defined.

Lemma extraction_output_sanitized_witness :
  backend_scripted [Response 200 "The answer is 12+5!"] [] (extract_request "what is 12 plus 5")
  = Response 200 "The answer is 12+5!"
  /\ ok 200 = true
  /\ (forall engine,
        stages (solveWithPipeline engine (backend_scripted [Response 200 "The answer is 12+5!"])
                  "what is 12 plus 5" (mkState [] [])).2 !! 0%nat
        = Some (Stage.mk 1 "LLM: Extract Math Expression" Complete None
                  (Some (VString "12+5")) None)).
Proof.
  split; [reflexivity|]. split; [reflexivity|]. intros engine.
  exact (proj1 (extraction_output_sanitized engine
                  (backend_scripted [Response 200 "The answer is 12+5!"])
                  "what is 12 plus 5" (mkState [] []) 200%N "The answer is 12+5!"
                  eq_refl eq_refl)).
Defined.

(** The end-to-end example of the specification: "calculate 100 minus 37",
    extracted as "100-37", evaluates to 63. *)
Lemma pipeline_success_witness :
  ok 200 = true
  /\ (forall engine,
        executeMathExpression engine (keep is_expr_char "100-37")
        = Ok (VNumber 63) (VNumber 63))
  /\ (forall engine,
        solveWithPipeline engine
          (backend_scripted [Response 200 "100-37"; Response 200 " The answer is 63. "])
          "calculate 100 minus 37" (mkState [] [])
        = (Normal (mkRun [extraction_stage "100-37";
                          evaluation_stage "100-37" (VNumber 63);
                          formatting_stage "calculate 100 minus 37" "100-37"
                            (VNumber 63) " The answer is 63. "]
                     true (Some "The answer is 63.")),
           mkState [extract_request "calculate 100 minus 37";
                    format_request "calculate 100 minus 37" "100-37" (VNumber 63)]
             [extraction_stage "100-37";
              evaluation_stage "100-37" (VNumber 63);
              formatting_stage "calculate 100 minus 37" "100-37"
                (VNumber 63) " The answer is 63. "])).
Proof.
  split; [reflexivity|]. split; [reflexivity|]. intros engine.
  exact (pipeline_success engine
           (backend_scripted [Response 200 "100-37"; Response 200 " The answer is 63. "])
           "calculate 100 minus 37" (mkState [] []) 200%N "100-37"
           (VNumber 63) (VNumber 63) 200%N " The answer is 63. "
           eq_refl eq_refl eq_refl eq_refl eq_refl).
Defined.

Lemma pipeline_transport_failure_witness :
  backend_scripted [Response 503 ""] [] (extract_request "what is 1+1") = Response 503 ""
  /\ ok 503 = false
  /\ (forall engine,
        (solveWithPipeline engine (backend_scripted [Response 503 ""]) "what is 1+1"
           (mkState [] [])).1
        = Throw (Text "HTTP error! status: 503")).
Proof.
  split; [reflexivity|]. split; [reflexivity|]. intros engine.
  exact (proj1 (proj2 (pipeline_transport_failure engine
                         (backend_scripted [Response 503 ""]) "what is 1+1"
                         (mkState [] [])))
           503%N "" eq_refl eq_refl).
Defined.

Lemma toExponential_finite_witness :
  Prim2SF c_1e6 = S754_finite false 8589934592000000 (-33)
  /\ exists n e10 : Z,
       toExponential c_1e6 4
       = ("" ++ mantissa_text 4 n ++ "e" ++ exponent_text e10)%string
       /\ 10 ^ Z.of_nat 4 <= n < 10 * 10 ^ Z.of_nat 4
       /\ rounds_to 8589934592000000 (2 ^ 33) n (e10 - Z.of_nat 4).
Proof.
  split; [reflexivity|].
  exact (toExponential_finite c_1e6 4 false 8589934592000000 (-33) eq_refl).
Defined.

(** ** Every result of the exact path *)

Lemma rmatch_seq {A : Type} r1 r2 s c (k : Cont A) :
  rmatch (Seq r1 r2) s c k = rmatch r1 s c (fun s' c' => rmatch r2 s' c' k).
Proof. reflexivity. Qed.

Lemma rmatch_group {A : Type} i r s c (k : Cont A) :
  rmatch (Group i r) s c k
  = rmatch r s c (fun s' c' => k s' ((i, firstn (List.length s - List.length s') s) :: c')).
Proof. reflexivity. Qed.

Lemma greedy_inv {A : Type} p s c (k : Cont A) x :
  greedy p s c k = Some x ->
  exists w s' : list ascii, s = w ++ s' /\ all_in p w /\ k s' c = Some x.
Proof.
  induction s as [|a s IH]; simpl; intros H.
  - exists [], []. repeat split. assumption.
  - destruct (p a) eqn:Ea; [|exists [], (a :: s); repeat split; assumption].
    destruct (greedy p s c k) as [y|] eqn:E; [|exists [], (a :: s); repeat split; assumption].
    injection H as ->. destruct (IH eq_refl) as (w & s' & -> & Hw & Hk).
    exists (a :: w), s'. split; [reflexivity|]. split; [|assumption].
    unfold all_in in *. simpl. rewrite Ea. exact Hw.
Qed.

Lemma rmatch_star_class_inv {A : Type} p s c (k : Cont A) x :
  rmatch (Star (Class p)) s c k = Some x ->
  exists w s' : list ascii, s = w ++ s' /\ all_in p w /\ k s' c = Some x.
Proof. rewrite rmatch_star_class. apply greedy_inv. Qed.

Lemma rmatch_class_inv {A : Type} p s c (k : Cont A) x :
  rmatch (Class p) s c k = Some x ->
  exists a s', s = a :: s' /\ p a = true /\ k s' c = Some x.
Proof.
  destruct s as [|a s]; simpl; [discriminate|].
  destruct (p a) eqn:Ea; [|discriminate]. eauto.
Qed.

Lemma rmatch_plus_class_inv {A : Type} p s c (k : Cont A) x :
  rmatch (Plus (Class p)) s c k = Some x ->
  exists w s' : list ascii, s = w ++ s' /\ w <> [] /\ all_in p w /\ k s' c = Some x.
Proof.
  unfold Plus. rewrite rmatch_seq. intros H.
  apply rmatch_class_inv in H as (a & s1 & -> & Ha & H).
  apply rmatch_star_class_inv in H as (w & s' & -> & Hw & H).
  exists (a :: w), s'. split; [reflexivity|]. split; [discriminate|]. split; [|assumption].
  unfold all_in in *. simpl. rewrite Ha. exact Hw.
Qed.

(** A match of [re_binary] reads two digit runs around an operator and
    captures the three of them. *)
Lemma rmatch_binary_inv s s' c :
  rmatch re_binary s [] k0 = Some (s', c) ->
  exists (d1 w1 : list ascii) (op : ascii) (w2 d2 : list ascii),
    operation_at (s ++ []) [] d1 w1 op w2 d2 s'
    /\ c = [(3%nat, d2); (2%nat, [op]); (1%nat, d1)].
Proof.
  unfold re_binary. rewrite rmatch_seq, rmatch_group. intros H.
  apply rmatch_plus_class_inv in H as (d1 & s1 & -> & Hn1 & Hd1 & H).
  rewrite firstn_consumed in H.
  rewrite rmatch_seq in H.
  apply rmatch_star_class_inv in H as (w1 & s2 & -> & Hw1 & H).
  rewrite rmatch_seq, rmatch_group in H.
  apply rmatch_class_inv in H as (op & s3 & -> & Hop & H).
  replace (firstn (List.length (op :: s3) - List.length s3) (op :: s3)) with [op] in H.
  2:{ change (op :: s3) with ([op] ++ s3). rewrite firstn_consumed. reflexivity. }
  rewrite rmatch_seq in H.
  apply rmatch_star_class_inv in H as (w2 & s4 & -> & Hw2 & H).
  rewrite rmatch_group in H.
  apply rmatch_plus_class_inv in H as (d2 & s5 & -> & Hn2 & Hd2 & H).
  rewrite firstn_consumed in H. unfold k0 in H. injection H as <- <-.
  exists d1, w1, op, w2, d2. split; [|reflexivity].
  unfold operation_at. rewrite List.app_nil_r.
  repeat (progress (simpl; rewrite <- ?List.app_assoc)). repeat split; auto.
Qed.

(** A match found by [exec] is a match of the pattern at some position. *)
Lemma exec_inv r : forall s m,
  exec r s = Some m ->
  exists pre s0 : list ascii,
    s = pre ++ s0 /\ rmatch r s0 [] k0 = Some (m_rest m, m_groups m).
Proof.
  induction s as [|a s IH]; intros m H; simpl in H.
  - destruct (rmatch r [] [] _) as [[s' c]|] eqn:E; [|discriminate].
    injection H as <-. exists [], []. auto.
  - destruct (rmatch r (a :: s) [] _) as [[s' c]|] eqn:E.
    + injection H as <-. exists [], (a :: s). auto.
    + destruct (exec r s) as [m0|]; [|discriminate].
      injection H as <-. destruct (IH m0 eq_refl) as (pre & s0 & -> & H).
      exists (a :: pre), s0. auto.
Qed.

Lemma lang_binary w :
  lang re_binary w <->
  exists (d1 w1 : list ascii) (op : ascii) (w2 d2 : list ascii),
    operation_at (w ++ []) [] d1 w1 op w2 d2 [].
Proof.
  unfold re_binary, operation_at. rewrite List.app_nil_r. split.
  - intros (d1 & r1 & -> & Hd1 & w1 & r2 & -> & Hw1 & o & r3 & -> & (op & -> & Hop)
            & w2 & d2 & -> & Hw2 & Hd2).
    cbn [lang] in Hd1, Hd2.
    apply lang_plus_class in Hd1 as [? ?]. apply lang_plus_class in Hd2 as [? ?].
    apply lang_star_class in Hw1. apply lang_star_class in Hw2.
    exists d1, w1, op, w2, d2. simpl. rewrite List.app_nil_r. tauto.
  - intros (d1 & w1 & op & w2 & d2 & Hw & Hn1 & Hd1 & Hw1 & Hop & Hw2 & Hn2 & Hd2).
    simpl in Hw. rewrite List.app_nil_r in Hw. subst w.
    exists d1, (w1 ++ [op] ++ w2 ++ d2). split; [reflexivity|].
    split; [cbn [lang]; apply lang_plus_class; auto|].
    exists w1, ([op] ++ w2 ++ d2). split; [reflexivity|].
    split; [apply lang_star_class; auto|].
    exists [op], (w2 ++ d2). split; [reflexivity|].
    split; [exists op; auto|].
    exists w2, d2. split; [reflexivity|].
    split; [apply lang_star_class; auto|cbn [lang]; apply lang_plus_class; auto].
Qed.

(** The answer of [evaluateBigInt] read off the captures of the match. *)
Lemma evaluateBigInt_groups expr m d1 op d2 :
  exec re_binary (list_ascii_of_string expr) = Some m ->
  m_groups m = [(3%nat, d2); (2%nat, [op]); (1%nat, d1)] ->
  is_binop op = true ->
  evaluateBigInt expr = exact_result op (digits_value d1) (digits_value d2).
Proof.
  intros Hm Hg Hop. unfold evaluateBigInt. rewrite Hm, Hg.
  cbn [group Nat.eqb]. unfold BigInt. rewrite !list_ascii_of_string_of_list_ascii.
  cbn [string_of_list_ascii]. unfold exact_result.
  destruct op as [[] [] [] [] [] [] [] []]; try discriminate Hop; reflexivity.
Qed.

(** Whatever the text, [evaluateBigInt] answers in one of two ways.  When
    no binary operation on two digit runs occurs in the text, the answer is
    the error "Complex expression not supported".  Otherwise the answer is
    that of one operation [d1 op d2] of the text: the exact sum, difference,
    product or truncated quotient of the two digit runs, or the division
    error.  The branch "Unsupported operator" is never taken. *)
Theorem evaluateBigInt_results (expr : string) :
  (~ has_operation expr
   /\ evaluateBigInt expr = Err (Text "Complex expression not supported"))
  \/ (exists (pre d1 w1 : list ascii) (op : ascii) (w2 d2 post : list ascii),
        operation_at (list_ascii_of_string expr) pre d1 w1 op w2 d2 post
        /\ evaluateBigInt expr = exact_result op (digits_value d1) (digits_value d2)).
Proof.
  destruct (exec re_binary (list_ascii_of_string expr)) as [m|] eqn:E.
  - right. destruct (exec_inv _ _ _ E) as (pre & s0 & Hs & Hm).
    apply rmatch_binary_inv in Hm as (d1 & w1 & op & w2 & d2 & Hop & Hg).
    exists pre, d1, w1, op, w2, d2, (m_rest m).
    destruct Hop as (Hs0 & H). rewrite List.app_nil_r in Hs0. simpl in Hs0.
    split.
    + split; [rewrite Hs, Hs0; reflexivity|exact H].
    + eapply evaluateBigInt_groups; eauto. tauto.
  - left. split.
    + intros (pre & d1 & w1 & op & w2 & d2 & post & Hs & H).
      assert (Hex : is_Some (exec re_binary (list_ascii_of_string expr))).
      { apply exec_spec. exists pre, (d1 ++ w1 ++ [op] ++ w2 ++ d2), post.
        split; [exact Hs|]. apply lang_binary. exists d1, w1, op, w2, d2.
        split; [reflexivity|exact H]. }
      rewrite E in Hex. destruct Hex; discriminate.
    + unfold evaluateBigInt. rewrite E. reflexivity.
Qed.

(** ** The operation the exact path evaluates *)

Lemma rmatch_binary_here d1 op d2 rest :
  d1 <> [] -> all_in is_digit d1 -> is_binop op = true ->
  d2 <> [] -> all_in is_digit d2 -> no_head is_digit rest ->
  rmatch re_binary (d1 ++ op :: d2 ++ rest) [] k0
  = Some (rest, [(3%nat, d2); (2%nat, [op]); (1%nat, d1)]).
Proof.
  intros Hn1 Hd1 Hop Hn2 Hd2 Hrest.
  unfold re_binary. rewrite rmatch_seq.
  apply (rmatch_group_plus _ _ _ d1 (op :: d2 ++ rest)); [reflexivity|assumption..| |].
  { simpl. apply binop_not_digit. assumption. }
  rewrite rmatch_seq, rmatch_star_skip by (simpl; apply binop_not_space; assumption).
  rewrite rmatch_seq, rmatch_group. cbn [rmatch]. rewrite Hop.
  change (star_loop _ (List.length (d2 ++ rest)) (d2 ++ rest) ?c ?K)
    with (rmatch (Star (Class is_space)) (d2 ++ rest) c K).
  rewrite rmatch_star_skip.
  2:{ destruct d2 as [|b d2]; [congruence|]. simpl.
      unfold all_in in Hd2. simpl in Hd2. apply andb_true_iff in Hd2 as [Hb _].
      apply digit_not_space. assumption. }
  replace (firstn (List.length (op :: d2 ++ rest) - List.length (d2 ++ rest))
             (op :: d2 ++ rest)) with [op].
  2:{ change (op :: d2 ++ rest) with ([op] ++ d2 ++ rest). rewrite firstn_consumed.
      reflexivity. }
  change (rmatch (Plus (Class is_digit)) (d2 ++ rest) ?c ?K = _)
    with (rmatch (Group 3 (Plus (Class is_digit))) (d2 ++ rest) c k0
          = Some (rest, [(3%nat, d2); (2%nat, [op]); (1%nat, d1)])).
  apply (rmatch_group_plus _ _ _ d2 rest); [reflexivity|assumption..|reflexivity].
Qed.

Lemma rmatch_binary_not_digit a t :
  is_digit a = false -> rmatch re_binary (a :: t) [] k0 = None.
Proof. intros H. unfold re_binary. cbn [rmatch Plus]. rewrite H. reflexivity. Qed.

(** The captures are those of the match after a prefix on which no match
    can start. *)
Lemma exec_groups_skip r pre s :
  (forall a t, In a pre -> rmatch r (a :: t) [] k0 = None) ->
  option_map m_groups (exec r (pre ++ s)) = option_map m_groups (exec r s).
Proof.
  induction pre as [|a pre IH]; intros H; [reflexivity|].
  cbn [app]. rewrite exec_later by (apply H; left; reflexivity).
  rewrite <- IH by (intros b t Hb; apply H; right; assumption).
  destruct (exec r (pre ++ s)); reflexivity.
Qed.

Lemma existsb_false_in (p : ascii -> bool) l a :
  existsb p l = false -> In a l -> p a = false.
Proof.
  intros H Ha. destruct (p a) eqn:E; [|reflexivity].
  rewrite <- H. symmetry. apply existsb_exists. eauto.
Qed.

(** The exact path evaluates the first binary operation of the text and
    nothing else: when the text, white space apart, reads [pre a op b rest]
    with no digit in [pre], integer literals [a] and [b] and a [rest] that
    does not go on with a digit, the answer is that of [a op b] alone.  A
    sign or a parenthesis before [a] and any operators after [b] have no
    effect on the answer. *)
Theorem exact_path_first_operation (engine : Engine) (e pre a b rest : string)
    (op : ascii) :
  keep not_space e = (pre ++ a ++ String op b ++ rest)%string ->
  existsb is_digit (list_ascii_of_string pre) = false ->
  is_integer_literal a = true -> is_binop op = true -> is_integer_literal b = true ->
  no_head is_digit (list_ascii_of_string rest) ->
  has_digit_run 10 (keep not_space e) ->
  executeMathExpression engine e = exact_result op (BigInt a) (BigInt b).
Proof.
  intros He Hpre Ha Hop Hb Hrest Hrun.
  rewrite executeMathExpression_exact by assumption. rewrite He.
  apply is_integer_literal_spec in Ha as [Hna Hda].
  apply is_integer_literal_spec in Hb as [Hnb Hdb].
  pose proof (exec_groups_skip re_binary (list_ascii_of_string pre)
                (list_ascii_of_string a ++ op :: list_ascii_of_string b
                 ++ list_ascii_of_string rest)) as Hskip.
  rewrite (exec_here re_binary _ _ _
             (rmatch_binary_here _ op _ _ Hna Hda Hop Hnb Hdb Hrest)) in Hskip.
  destruct (exec re_binary (list_ascii_of_string pre ++ _)) as [m|] eqn:E.
  - eapply evaluateBigInt_groups; [| |exact Hop].
    + rewrite !list_ascii_of_string_app. exact E.
    + cbn [option_map m_groups] in Hskip.
      assert (Some (m_groups m)
              = Some [(3%nat, list_ascii_of_string b); (2%nat, [op]);
                      (1%nat, list_ascii_of_string a)]) as [= ->]; [|reflexivity].
      apply Hskip. intros c t Hc. apply rmatch_binary_not_digit.
      eapply existsb_false_in; eassumption.
  - exfalso. cbn [option_map] in Hskip.
    assert (None = Some [(3%nat, list_ascii_of_string b); (2%nat, [op]);
                         (1%nat, list_ascii_of_string a)]) as [=].
    apply Hskip. intros c t Hc. apply rmatch_binary_not_digit.
    eapply existsb_false_in; eassumption.
Qed.

Lemma exact_path_first_operation_witness :
  keep not_space "-12345678901 + 1 - 5" = "-12345678901+1-5"
  /\ existsb is_digit (list_ascii_of_string "-") = false
  /\ is_integer_literal "12345678901" = true
  /\ is_binop "+" = true
  /\ is_integer_literal "1" = true
  /\ no_head is_digit (list_ascii_of_string "-5")
  /\ test re_large (keep not_space "-12345678901 + 1 - 5") = true
  /\ forall engine,
       executeMathExpression engine "-12345678901 + 1 - 5"
       = Ok (VString "12345678902") (VString "12345678902").
Proof.
  repeat (split; [reflexivity|]). intros engine.
  refine (exact_path_first_operation engine "-12345678901 + 1 - 5" "-" "12345678901"
            "1" "-5" "+" eq_refl eq_refl eq_refl eq_refl eq_refl eq_refl _).
  apply test_large_spec. reflexivity.
Defined.

(** ** White space and blank expressions *)

(** White space has no meaning anywhere in an expression: two expressions
    with the same characters other than white space get the same answer,
    so that "1 2 + 3" is evaluated as "12+3". *)
Theorem evaluate_ignores_white_space (engine : Engine) (e e' : string) :
  keep not_space e = keep not_space e' ->
  executeMathExpression engine e = executeMathExpression engine e'.
Proof.
  intros H. rewrite !executeMathExpression_unfold, H. reflexivity.
Qed.

Lemma evaluate_ignores_white_space_witness :
  keep not_space "1 2 + 3" = keep not_space "12+3"
  /\ forall engine,
       executeMathExpression engine "1 2 + 3" = executeMathExpression engine "12+3".
Proof.
  split; [reflexivity|]. intros engine.
  exact (evaluate_ignores_white_space engine "1 2 + 3" "12+3" eq_refl).
Defined.

Lemma keep_none p s :
  forallb (fun a => negb (p a)) (list_ascii_of_string s) = true -> keep p s = "".
Proof.
  intros H. unfold keep.
  induction (list_ascii_of_string s) as [|a l IH]; simpl in *; [reflexivity|].
  apply andb_true_iff in H as [Ha H]. apply negb_true_iff in Ha. rewrite Ha. auto.
Qed.

(** An empty expression, or one made of white space only, is answered with
    the syntax error of the interpreter, never with a value. *)
Theorem evaluate_blank (engine : Engine) (e : string) :
  forallb is_space (list_ascii_of_string e) = true ->
  executeMathExpression engine e = Err (Native SyntaxError_invalid_source).
Proof.
  intros H. rewrite executeMathExpression_unfold, keep_none; [reflexivity|].
  rewrite forallb_forall in *. intros a Ha. unfold not_space.
  rewrite negb_involutive. auto.
Qed.

Lemma evaluate_blank_witness :
  forallb is_space (list_ascii_of_string "   ") = true
  /\ forall engine,
       executeMathExpression engine "   " = Err (Native SyntaxError_invalid_source).
Proof.
  split; [reflexivity|]. intros engine. exact (evaluate_blank engine "   " eq_refl).
Defined.

(** ** The digits of the scientific notation *)

(** Outside the range 1e-4 to 1e10 a finite Number other than zero, of
    magnitude [m * 2^e], is formatted with its sign, one digit, a point,
    four digits and the exponent, and these five digits are those of the
    magnitude rounded to five significant digits, halves upwards: the
    text denotes a number within half a unit of its last digit of the
    Number. *)
Theorem formatNumber_five_digits (x : float) (s : bool) (m : positive) (e : Z) :
  Prim2SF x = S754_finite s m e ->
  out_of_plain_range x = true ->
  exists n e10 : Z,
    formatNumber (VNumber x)
    = VString ((if s then "-" else "") ++ mantissa_text 4 n ++ "e"
               ++ exponent_text e10)%string
    /\ 10000 <= n < 100000
    /\ (if 0 <=? e
        then rounds_to (Z.pos m * 2 ^ e) 1 n (e10 - 4)
        else rounds_to (Z.pos m) (2 ^ (- e)) n (e10 - 4)).
Proof.
  intros Hx Hout.
  destruct (toExponential_finite x 4 s m e Hx) as (n & e10 & Htext & Hn & Hround).
  exists n, e10. unfold formatNumber. unfold out_of_plain_range in Hout.
  rewrite Hout, Htext. split; [reflexivity|]. split; [exact Hn|exact Hround].
Qed.

Lemma formatNumber_five_digits_witness :
  Prim2SF 0x1.74876e8p+36%float = S754_finite false 6553600000000000 (-16)
  /\ out_of_plain_range 0x1.74876e8p+36%float = true
  /\ exists n e10 : Z,
       formatNumber (VNumber 0x1.74876e8p+36%float)
       = VString ("" ++ mantissa_text 4 n ++ "e" ++ exponent_text e10)%string
       /\ 10000 <= n < 100000
       /\ rounds_to 6553600000000000 (2 ^ 16) n (e10 - 4).
Proof.
  split; [reflexivity|]. split; [reflexivity|].
  exact (formatNumber_five_digits 0x1.74876e8p+36%float false 6553600000000000 (-16)
           eq_refl eq_refl).
Defined.

(** ** The classifier under embedding and letter case *)

Lemma toLowerCase_app (a b : string) :
  toLowerCase (a ++ b)%string = (toLowerCase a ++ toLowerCase b)%string.
Proof.
  unfold toLowerCase.
  rewrite list_ascii_of_string_app, List.map_app, string_of_list_ascii_app. reflexivity.
Qed.

Lemma string_app_assoc (a b c : string) : (a ++ (b ++ c) = (a ++ b) ++ c)%string.
Proof.
  induction a as [|x a IH]; [reflexivity|].
  change (String x (a ++ (b ++ c)) = String x ((a ++ b) ++ c))%string.
  f_equal. exact IH.
Qed.

Lemma occurs_in_embedded k pre s post :
  occurs_in k s -> occurs_in k (pre ++ s ++ post)%string.
Proof.
  intros (pre' & post' & ->). exists (pre ++ pre')%string, (post' ++ post)%string.
  rewrite <- !string_app_assoc. reflexivity.
Qed.

Lemma has_arithmetic_embedded pre s post :
  has_arithmetic s -> has_arithmetic (pre ++ s ++ post)%string.
Proof.
  intros (pre' & d1 & w1 & op & w2 & d2 & post' & Hs & H).
  exists (list_ascii_of_string pre ++ pre'), d1, w1, op, w2, d2,
    (post' ++ list_ascii_of_string post).
  split; [|exact H].
  rewrite !list_ascii_of_string_app, Hs, <- !List.app_assoc. reflexivity.
Qed.

(** A text that contains a math query is a math query: the classifier
    looks for a keyword or an operation anywhere in the text, so that
    nothing written before or after can turn the answer to false. *)
Theorem isMathQuery_embedded (pre query post : string) :
  isMathQuery query = true -> isMathQuery (pre ++ query ++ post)%string = true.
Proof.
  unfold isMathQuery. rewrite !orb_true_iff, !existsb_exists, !test_arith_spec.
  intros [(k & Hk & H)|H].
  - left. exists k. split; [assumption|].
    apply includes_spec. apply includes_spec in H.
    rewrite !toLowerCase_app. apply occurs_in_embedded. assumption.
  - right. apply has_arithmetic_embedded. assumption.
Qed.

Lemma isMathQuery_embedded_witness :
  isMathQuery "add" = true /\ isMathQuery "my address is 12 Main St" = true.
Proof.
  split; [reflexivity|].
  exact (isMathQuery_embedded "my " "add" "ress is 12 Main St" eq_refl).
Defined.

Lemma lower_char_class c :
  is_digit (lower_char c) = is_digit c
  /\ is_space (lower_char c) = is_space c
  /\ is_query_op (lower_char c) = is_query_op c.
Proof. destruct c as [[] [] [] [] [] [] [] []]; vm_compute; auto. Qed.

Lemma all_in_map (p : ascii -> bool) (f : ascii -> ascii) l :
  (forall c, p (f c) = p c) -> all_in p (map f l) <-> all_in p l.
Proof.
  intros H. unfold all_in. induction l as [|a l IH]; simpl; [tauto|].
  rewrite H, !andb_true_iff, IH. tauto.
Qed.

Lemma map_not_nil {A B : Type} (f : A -> B) l : map f l <> [] <-> l <> [].
Proof. destruct l; simpl; split; congruence. Qed.

(** The operations of [re_arith] are found in a text exactly when they are
    found in its lowercased form. *)
Lemma has_arithmetic_lower q : has_arithmetic (toLowerCase q) <-> has_arithmetic q.
Proof.
  unfold has_arithmetic, toLowerCase. rewrite list_ascii_of_string_of_list_ascii.
  pose proof (fun c => proj1 (lower_char_class c)) as Hdigit.
  pose proof (fun c => proj1 (proj2 (lower_char_class c))) as Hspace.
  pose proof (fun c => proj2 (proj2 (lower_char_class c))) as Hop.
  split.
  - intros (pre & d1 & w1 & op & w2 & d2 & post & Hs & Hn1 & Hd1 & Hw1 & Ho & Hw2 & Hn2 & Hd2).
    apply List.map_eq_app in Hs as (pre' & r1 & -> & <- & Hs).
    apply List.map_eq_app in Hs as (mid & post' & -> & Hs & <-).
    apply List.map_eq_app in Hs as (d1' & r2 & -> & <- & Hs).
    apply List.map_eq_app in Hs as (w1' & r3 & -> & <- & Hs).
    apply List.map_eq_cons in Hs as (op' & r4 & -> & <- & Hs).
    apply List.map_eq_app in Hs as (w2' & d2' & -> & <- & <-).
    exists pre', d1', w1', op', w2', d2', post'.
    split; [reflexivity|].
    rewrite map_not_nil in Hn1, Hn2.
    rewrite all_in_map in Hd1, Hw1, Hw2, Hd2 by assumption.
    rewrite Hop in Ho. tauto.
  - intros (pre & d1 & w1 & op & w2 & d2 & post & Hs & Hn1 & Hd1 & Hw1 & Ho & Hw2 & Hn2 & Hd2).
    exists (map lower_char pre), (map lower_char d1), (map lower_char w1), (lower_char op),
      (map lower_char w2), (map lower_char d2), (map lower_char post).
    split; [rewrite Hs, !List.map_app; reflexivity|].
    rewrite !map_not_nil, !all_in_map, Hop by assumption. tauto.
Qed.

(** The classifier does not look at letter case: two texts with the same
    lowercased form get the same answer. *)
Theorem isMathQuery_ignores_case (q q' : string) :
  toLowerCase q = toLowerCase q' -> isMathQuery q = isMathQuery q'.
Proof.
  intros H. unfold isMathQuery. rewrite H. f_equal.
  assert (Harith : forall s, test re_arith s = test re_arith (toLowerCase s)).
  { intros s. apply eq_true_iff_eq.
    rewrite !test_arith_spec, has_arithmetic_lower. tauto. }
  rewrite (Harith q), (Harith q'), H. reflexivity.
Qed.

Lemma isMathQuery_ignores_case_witness :
  toLowerCase "HOW MUCH do I owe?" = toLowerCase "how much do i owe?"
  /\ isMathQuery "HOW MUCH do I owe?" = isMathQuery "how much do i owe?".
Proof.
  split; [reflexivity|].
  exact (isMathQuery_ignores_case "HOW MUCH do I owe?" "how much do i owe?" eq_refl).
Defined.

(** ** The options of a request *)

(** The object [requestBody] that [generate] builds, before it is handed
    to [JSON.stringify]: its [options] hold every entry of
    [options.modelOptions] as it is, a [temperature] among them in the
    place of the temperature of the call, be it [options.temperature] or
    the default 0.7, since the spread is written last in the object
    literal; they hold no other key. *)
Theorem requestBody_model_options (prompt : Prompt) (m : option string)
    (t : option float) (mo : gmap string JSValue) (key : string) :
  RequestBody.options (requestBody prompt (Options.mk m t (Some mo))) !! key
  = match mo !! key with
    | Some v => Some v
    | None =>
        if String.eqb key "temperature" then Some (VNumber (or_number t c_0_7))
        else None
    end.
Proof.
  unfold requestBody.
  cbn [Options.model Options.temperature Options.modelOptions RequestBody.options default].
  destruct (mo !! key) as [v|] eqn:E.
  - apply lookup_union_Some_l. exact E.
  - rewrite lookup_union_r by exact E.
    destruct (String.eqb_spec key "temperature") as [->|Hne].
    + apply lookup_singleton_eq.
    + apply lookup_singleton_ne. congruence.
Qed.

(** ** Every run of the orchestrator *)

Section Runs.
Variable engine : Engine.
Variable backend : Backend.

Lemma generate_outcome prompt options st :
  generate backend prompt options st
  = (outcome (backend (sent st)
                (mkRequest "http://localhost:11434/api/generate" "POST"
                   (requestBody prompt options))),
     mkState (sent st ++ [mkRequest "http://localhost:11434/api/generate" "POST"
                            (requestBody prompt options)]) (stages st)).
Proof.
  unfold generate, outcome.
  change (baseUrl ++ "/api/generate")%string with "http://localhost:11434/api/generate".
  destruct (backend _ _) as [m|status response]; [reflexivity|].
  destruct (ok status); reflexivity.
Qed.

(** The call, outcome by outcome. *)
Lemma solveWithPipeline_cases userQuery st :
  solveWithPipeline engine backend userQuery st =
  match outcome (backend (sent st) (extract_request userQuery)) with
  | Throw m =>
      (Throw m, mkState (sent st ++ [extract_request userQuery]) [running_extraction_stage])
  | Normal raw =>
      match executeMathExpression engine (keep is_expr_char raw) with
      | Err error =>
          (Normal (mkRun [extraction_stage raw; failed_evaluation_stage raw error]
                     false None),
           mkState (sent st ++ [extract_request userQuery])
             [extraction_stage raw; failed_evaluation_stage raw error])
      | Ok _ formatted =>
          match outcome (backend (sent st ++ [extract_request userQuery])
                           (format_request userQuery raw formatted)) with
          | Throw m =>
              (Throw m,
               mkState (sent st ++ [extract_request userQuery;
                                    format_request userQuery raw formatted])
                 [extraction_stage raw; evaluation_stage raw formatted;
                  running_formatting_stage userQuery raw formatted])
          | Normal final =>
              (Normal (mkRun [extraction_stage raw; evaluation_stage raw formatted;
                              formatting_stage userQuery raw formatted final]
                         true (Some (trim final))),
               mkState (sent st ++ [extract_request userQuery;
                                    format_request userQuery raw formatted])
                 [extraction_stage raw; evaluation_stage raw formatted;
                  formatting_stage userQuery raw formatted final])
          end
      end
  end.
Proof.
  unfold solveWithPipeline.
  unfold mbind at 1 2 3. unfold Async_bind at 1 2 3.
  cbn [new_stages push sent stages app].
  rewrite generate_outcome. cbn [sent stages].
  change (mkRequest _ "POST" (requestBody (ExtractPrompt userQuery) _))
    with (extract_request userQuery).
  destruct (outcome (backend (sent st) (extract_request userQuery))) as [raw|m];
    [|reflexivity].
  rewrite sanitized_spec.
  unfold mbind at 1 2 3. unfold Async_bind at 1 2 3.
  cbn [update push sent stages app alter list_alter Stage.set_status Stage.set_output
       Stage.stage Stage.name Stage.status Stage.input Stage.output Stage.error].
  destruct (executeMathExpression engine (keep is_expr_char raw)) as [v formatted|error];
    [|reflexivity].
  unfold mbind at 1 2 3 4. unfold Async_bind at 1 2 3 4.
  cbn [update push sent stages app alter list_alter Stage.set_status Stage.set_output
       Stage.stage Stage.name Stage.status Stage.input Stage.output Stage.error].
  rewrite generate_outcome. cbn [sent stages].
  change (mkRequest _ "POST" (requestBody (FormatPrompt userQuery _ formatted) _))
    with (format_request userQuery raw formatted).
  rewrite <- List.app_assoc. cbn [app].
  destruct (outcome _) as [final|m]; reflexivity.
Qed.

(** A failure of the formatting request, a rejection or a status outside
    200..299, is thrown to the caller although the evaluation succeeded: no
    run is returned, the computed result stays in stage 2 of the state and
    stage 3 is left running. *)
Theorem pipeline_formatting_failure userQuery st raw result formatted m :
  outcome (backend (sent st) (extract_request userQuery)) = Normal raw ->
  executeMathExpression engine (keep is_expr_char raw) = Ok result formatted ->
  outcome (backend (sent st ++ [extract_request userQuery])
             (format_request userQuery raw formatted)) = Throw m ->
  solveWithPipeline engine backend userQuery st
  = (Throw m,
     mkState (sent st ++ [extract_request userQuery;
                          format_request userQuery raw formatted])
       [extraction_stage raw; evaluation_stage raw formatted;
        running_formatting_stage userQuery raw formatted]).
Proof.
  intros H1 He H2. rewrite solveWithPipeline_cases, H1, He, H2. reflexivity.
Qed.

(** Whatever the backend and the engine do, a run that is returned has one
    of two shapes.  A successful run has stages 1, 2 and 3, all complete
    and without error, and its final answer is the output of stage 3.  A
    failed run has stages 1 and 2 only, stage 1 complete and stage 2 in
    error with a message and no output, and it has no final answer.  The
    stages of the run are those of the state. *)
Theorem pipeline_run_shape userQuery st run st' :
  solveWithPipeline engine backend userQuery st = (Normal run, st') ->
  run_stages run = stages st'
  /\ if run_success run
     then map Stage.stage (run_stages run) = [1; 2; 3]%nat
          /\ map Stage.status (run_stages run) = [Complete; Complete; Complete]
          /\ map Stage.error (run_stages run) = [None; None; None]
          /\ exists final : string,
               finalAnswer run = Some final
               /\ map Stage.output (skipn 2 (run_stages run)) = [Some (VString final)]
     else map Stage.stage (run_stages run) = [1; 2]%nat
          /\ map Stage.status (run_stages run) = [Complete; Failed]
          /\ map Stage.output (skipn 1 (run_stages run)) = [None]
          /\ finalAnswer run = None
          /\ exists error : Message,
               map Stage.error (skipn 1 (run_stages run)) = [Some error].
Proof.
  rewrite solveWithPipeline_cases.
  destruct (outcome (backend (sent st) _)) as [raw|m]; [|discriminate].
  destruct (executeMathExpression engine _) as [v formatted|error].
  - destruct (outcome _) as [final|m]; [|discriminate].
    intros [= <- <-]. cbn. repeat split. exists (trim final). split; reflexivity.
  - intros [= <- <-]. cbn. repeat split. exists error. reflexivity.
Qed.

(** Whatever the backend and the engine do, a call sends the extraction
    request first and then at most one more request, the formatting
    request, which it sends exactly when the extraction was answered and
    the evaluation succeeded; the requests made before the call stay in
    place.  The extraction request asks the default model at temperature
    0.1, the formatting request at temperature 0.5, both without
    streaming. *)
Theorem pipeline_requests userQuery st :
  (sent (solveWithPipeline engine backend userQuery st).2
   = sent st ++ [extract_request userQuery]
   /\ (forall raw,
         outcome (backend (sent st) (extract_request userQuery)) = Normal raw ->
         success (executeMathExpression engine (keep is_expr_char raw)) = false)
   \/ exists (raw : string) (result formatted : JSValue),
        outcome (backend (sent st) (extract_request userQuery)) = Normal raw
        /\ executeMathExpression engine (keep is_expr_char raw) = Ok result formatted
        /\ sent (solveWithPipeline engine backend userQuery st).2
           = sent st ++ [extract_request userQuery;
                         format_request userQuery raw formatted])
  /\ (forall (raw : string) (formatted : JSValue),
        let first := body (extract_request userQuery) in
        let second := body (format_request userQuery raw formatted) in
        RequestBody.model first = "llama3"
        /\ RequestBody.stream first = false
        /\ RequestBody.options first !! "temperature" = Some (VNumber c_0_1)
        /\ RequestBody.model second = "llama3"
        /\ RequestBody.stream second = false
        /\ RequestBody.options second !! "temperature" = Some (VNumber c_0_5)).
Proof.
  split; [|intros raw formatted; repeat split; reflexivity].
  rewrite solveWithPipeline_cases.
  destruct (outcome (backend (sent st) _)) as [raw|m].
  - destruct (executeMathExpression engine _) as [v formatted|error] eqn:E.
    + right. exists raw, v, formatted. split; [reflexivity|]. split; [exact E|].
      destruct (outcome _); reflexivity.
    + left. split; [reflexivity|]. intros raw' [= <-]. rewrite E. reflexivity.
  - left. split; [reflexivity|]. intros raw' [=].
Qed.

End Runs.

Lemma pipeline_formatting_failure_witness :
  outcome (backend_scripted [Response 200 "100-37"; Response 500 ""] []
             (extract_request "calculate 100 minus 37")) = Normal "100-37"
  /\ (forall engine,
        executeMathExpression engine (keep is_expr_char "100-37")
        = Ok (VNumber 63) (VNumber 63))
  /\ (forall engine,
        solveWithPipeline engine
          (backend_scripted [Response 200 "100-37"; Response 500 ""])
          "calculate 100 minus 37" (mkState [] [])
        = (Throw (Text "HTTP error! status: 500"),
           mkState [extract_request "calculate 100 minus 37";
                    format_request "calculate 100 minus 37" "100-37" (VNumber 63)]
             [extraction_stage "100-37"; evaluation_stage "100-37" (VNumber 63);
              running_formatting_stage "calculate 100 minus 37" "100-37" (VNumber 63)])).
Proof.
  split; [reflexivity|]. split; [reflexivity|]. intros engine.
  exact (pipeline_formatting_failure engine
           (backend_scripted [Response 200 "100-37"; Response 500 ""])
           "calculate 100 minus 37" (mkState [] []) "100-37" (VNumber 63) (VNumber 63)
           (Text "HTTP error! status: 500") eq_refl eq_refl eq_refl).
Defined.

Lemma pipeline_run_shape_witness :
  (forall engine,
     solveWithPipeline engine (backend_scripted [Response 200 "7/"])
       "what is 7 divided by" (mkState [] [])
     = (Normal (mkRun [extraction_stage "7/";
                       failed_evaluation_stage "7/" (Native SyntaxError_invalid_source)]
                  false None),
        mkState [extract_request "what is 7 divided by"]
          [extraction_stage "7/";
           failed_evaluation_stage "7/" (Native SyntaxError_invalid_source)]))
  /\ map Stage.status
       [extraction_stage "7/";
        failed_evaluation_stage "7/" (Native SyntaxError_invalid_source)]
     = [Complete; Failed].
Proof.
  split; [reflexivity|].
  exact (proj1 (proj2 (proj2 (pipeline_run_shape (fun _ => Normal VUndefined)
                         (backend_scripted [Response 200 "7/"])
                         "what is 7 divided by" (mkState [] []) _ _ eq_refl)))).
Defined.

(** ** What the pipeline asks of the interpreter *)

Lemma is_expression_keep raw : is_expression (keep is_expr_char raw) = true.
Proof.
  unfold is_expression, keep. rewrite list_ascii_of_string_of_list_ascii.
  apply forallb_forall. intros a Ha. apply filter_In in Ha. tauto.
Qed.

Lemma executeMathExpression_engines (engine1 engine2 : Engine) e :
  (forall text, is_expression text = true -> engine1 text = engine2 text) ->
  is_expression e = true ->
  executeMathExpression engine1 e = executeMathExpression engine2 e.
Proof.
  intros Hagree He. rewrite !executeMathExpression_unfold, (keep_expression e He).
  destruct (test re_large e); [reflexivity|].
  unfold Function_return. destruct (arithmetic e); [reflexivity|].
  rewrite (Hagree e He). reflexivity.
Qed.

(** The pipeline hands to the interpreter only texts written with the
    characters [[0-9+\-*/().]]: two engines that agree on these texts give
    the same run, the same stages and the same requests, whatever they do
    with any other text, such as one with a letter in it. *)
Theorem pipeline_engine_independent (engine1 engine2 : Engine) (backend : Backend)
    (userQuery : string) (st : State) :
  (forall text, is_expression text = true -> engine1 text = engine2 text) ->
  solveWithPipeline engine1 backend userQuery st
  = solveWithPipeline engine2 backend userQuery st.
Proof.
  intros Hagree. rewrite !solveWithPipeline_cases.
  destruct (outcome (backend (sent st) _)) as [raw|m]; [|reflexivity].
  rewrite (executeMathExpression_engines engine1 engine2 _ Hagree (is_expression_keep raw)).
  reflexivity.
Qed.

Lemma pipeline_engine_independent_witness :
  (forall text, is_expression text = true ->
     (fun t => if is_expression t then Normal VUndefined else Normal (VString "run")) text
     = (fun _ : string => Normal VUndefined) text)
  /\ (if is_expression "alert(1)" then Normal VUndefined else Normal (VString "run"))
     = Normal (VString "run")
  /\ forall backend userQuery st,
       solveWithPipeline
         (fun t => if is_expression t then Normal VUndefined else Normal (VString "run"))
         backend userQuery st
       = solveWithPipeline (fun _ => Normal VUndefined) backend userQuery st.
Proof.
  assert (H : forall text, is_expression text = true ->
     (fun t => if is_expression t then Normal VUndefined else Normal (VString "run")) text
     = (fun _ : string => Normal VUndefined) text).
  { intros text Ht. cbv beta. rewrite Ht. reflexivity. }
  split; [exact H|]. split; [reflexivity|]. intros backend userQuery st.
  exact (pipeline_engine_independent _ _ backend userQuery st H).
Defined.

Section Chain.
Variable engine : Engine.
Variable backend : Backend.

(** In every run that is returned the stages are chained: the output of
    stage 1 is an expression over [[0-9+\-*/().]], the input of stage 2 is
    that same expression, and stage 2 holds what the evaluator answers for
    it, the formatted result as output or the message as error.  When the
    evaluation succeeds there is one more stage, whose input is made of the
    query, that expression and that formatted result. *)
Theorem pipeline_stages_chained userQuery st run st' :
  solveWithPipeline engine backend userQuery st = (Normal run, st') ->
  exists (expression : string) (s1 s2 : Stage.t) (later : list Stage.t),
    run_stages run = s1 :: s2 :: later
    /\ is_expression expression = true
    /\ Stage.output s1 = Some (VString expression)
    /\ Stage.input s2 = Some (ExpressionInput expression)
    /\ match executeMathExpression engine expression with
       | Ok _ formatted =>
           Stage.output s2 = Some formatted
           /\ exists s3 : Stage.t,
                later = [s3]
                /\ Stage.input s3 = Some (FormatInput userQuery expression formatted)
       | Err error => Stage.error s2 = Some error /\ later = []
       end.
Proof.
  rewrite solveWithPipeline_cases.
  destruct (outcome (backend (sent st) _)) as [raw|m]; [|discriminate].
  destruct (executeMathExpression engine (keep is_expr_char raw))
    as [v formatted|error] eqn:E.
  - destruct (outcome _) as [final|m]; [|discriminate].
    intros [= <- <-]. eexists (keep is_expr_char raw), _, _, _.
    split; [reflexivity|]. split; [apply is_expression_keep|].
    split; [reflexivity|]. split; [reflexivity|]. rewrite E.
    split; [reflexivity|]. eexists. split; reflexivity.
  - intros [= <- <-]. eexists (keep is_expr_char raw), _, _, _.
    split; [reflexivity|]. split; [apply is_expression_keep|].
    split; [reflexivity|]. split; [reflexivity|]. rewrite E. split; reflexivity.
Qed.

End Chain.

Lemma pipeline_stages_chained_witness :
  (forall engine,
     solveWithPipeline engine (backend_scripted [Response 200 "7/"])
       "what is 7 divided by" (mkState [] [])
     = (Normal (mkRun [extraction_stage "7/";
                       failed_evaluation_stage "7/" (Native SyntaxError_invalid_source)]
                  false None),
        mkState [extract_request "what is 7 divided by"]
          [extraction_stage "7/";
           failed_evaluation_stage "7/" (Native SyntaxError_invalid_source)]))
  /\ exists (expression : string) (s1 s2 : Stage.t) (later : list Stage.t),
       [extraction_stage "7/";
        failed_evaluation_stage "7/" (Native SyntaxError_invalid_source)]
       = s1 :: s2 :: later
       /\ is_expression expression = true
       /\ Stage.output s1 = Some (VString expression)
       /\ Stage.input s2 = Some (ExpressionInput expression).
Proof.
  split; [reflexivity|].
  destruct (pipeline_stages_chained (fun _ => Normal VUndefined)
              (backend_scripted [Response 200 "7/"])
              "what is 7 divided by" (mkState [] []) _ _ eq_refl)
    as (expression & s1 & s2 & later & H1 & H2 & H3 & H4 & _).
  exists expression, s1, s2, later. auto.
Defined.

(** ** The chat component *)

Ltac run_handler :=
  cbv [mbind UI_bind Date_now setMessages setInputMessage setIsLoading
       setOllamaAvailable setIsConnecting set_chat read_chat
       finally catch await throw mret UI_ret];
  cbn [chat service clock_reads messages inputMessage isLoading ollamaAvailable
       isConnecting showPipeline].

Section Conversation.
Variable engine : Engine.
Variable backend : Backend.
Variable fetch_probe : Probe -> FetchResult.
Variable clock : nat -> Z.

Lemma can_send_guard c :
  String.eqb (trim (inputMessage c)) "" || isLoading c || negb (ollamaAvailable c)
  = negb (can_send c).
Proof.
  unfold can_send.
  destruct (String.eqb _ _), (isLoading c), (ollamaAvailable c); reflexivity.
Qed.

(** A call that passes the guard, in one equation. *)
Lemma sendMessage_run w :
  can_send (chat w) = true ->
  sendMessage engine backend clock w =
  let c := chat w in
  let n := clock_reads w in
  let a := attempt engine backend (showPipeline c) (trim (inputMessage c)) (service w) in
  (Normal tt,
   mkWorld
     (mkChat (messages c ++ [user_message clock n (inputMessage c); reply clock (2 + n) a.1])
        "" false (ollamaAvailable c) (isConnecting c) (showPipeline c))
     a.2 (4 + n)).
Proof.
  intros Hsend. unfold sendMessage.
  unfold mbind at 1. unfold UI_bind at 1. cbn [read_chat].
  rewrite can_send_guard, Hsend. cbn [negb].
  destruct w as [c st n]. cbn [chat service clock_reads].
  unfold attempt.
  destruct (isMathQuery (trim (inputMessage c))).
  - destruct (solveWithPipeline engine backend (trim (inputMessage c)) st)
      as [[run|m] st'] eqn:E.
    + destruct (run_success run) eqn:Es.
      * run_handler.
        rewrite E, Es. cbn. rewrite <- List.app_assoc. reflexivity.
      * run_handler.
        rewrite E, Es. cbn. rewrite <- List.app_assoc. reflexivity.
    + run_handler.
      rewrite E. cbn. rewrite <- List.app_assoc. reflexivity.
  - destruct (generate backend (PlainPrompt (trim (inputMessage c))) Options.empty st)
      as [[response|m] st'] eqn:E;
      run_handler;
      rewrite E; cbn; rewrite <- List.app_assoc; reflexivity.
Qed.

Lemma attempt_requests show input st :
  exists more : list Request,
    sent (attempt engine backend show input st).2 = sent st ++ more
    /\ (1 <= List.length more <= 2)%nat.
Proof.
  unfold attempt. destruct (isMathQuery input).
  - rewrite solveWithPipeline_cases.
    destruct (outcome (backend (sent st) _)) as [raw|m].
    + destruct (executeMathExpression engine _) as [v formatted|error].
      * destruct (outcome _) as [final|m];
          (eexists; split; [reflexivity|simpl; lia]).
      * eexists; split; [reflexivity|simpl; lia].
    + eexists; split; [reflexivity|simpl; lia].
  - rewrite generate_outcome.
    destruct (outcome _); (eexists; split; [reflexivity|simpl; lia]).
Qed.

Lemma reply_fields n a :
  ChatMessage.role (reply clock n a) = Assistant
  /\ ChatMessage.id (reply clock n a) = clock n + 1
  /\ ChatMessage.timestamp (reply clock n a) = clock (S n).
Proof. destruct a as [[content pipeline]|m]; repeat split. Qed.

(** A call that does not pass the guard. *)
Lemma sendMessage_skip w :
  can_send (chat w) = false -> sendMessage engine backend clock w = (Normal tt, w).
Proof.
  intros H. unfold sendMessage.
  unfold mbind at 1. unfold UI_bind at 1. cbn [read_chat].
  rewrite can_send_guard, H. reflexivity.
Qed.

(** [sendMessage] does nothing at all when the text is empty or blank,
    while an answer is pending, or when the server was not found
    available: no message, no request, no clock reading, no change of a
    state variable, no exception. *)
Theorem sendMessage_inert w :
  trim (inputMessage (chat w)) = ""
  \/ isLoading (chat w) = true
  \/ ollamaAvailable (chat w) = false ->
  sendMessage engine backend clock w = (Normal tt, w).
Proof.
  intros H. apply sendMessage_skip. unfold can_send.
  destruct H as [->|[->| ->]]; [reflexivity|apply andb_false_iff; left; apply andb_false_r|
                                apply andb_false_r].
Qed.

(** A call that passes the guard never ends with an exception.  It
    appends exactly two messages to the conversation, the trimmed text of
    the user and then one message of the assistant made at the third and
    fourth clock readings, clears the input field, leaves [isLoading]
    false and the other state variables as they were, and sends one or two
    requests after those already sent. *)
Theorem sendMessage_exchange w :
  can_send (chat w) = true ->
  exists (answer : ChatMessage.t) (st' : State) (more : list Request),
    sendMessage engine backend clock w
    = (Normal tt,
       mkWorld
         (mkChat (messages (chat w)
                  ++ [user_message clock (clock_reads w) (inputMessage (chat w)); answer])
            "" false (ollamaAvailable (chat w)) (isConnecting (chat w))
            (showPipeline (chat w)))
         st' (4 + clock_reads w))
    /\ ChatMessage.role answer = Assistant
    /\ ChatMessage.id answer = clock (2 + clock_reads w) + 1
    /\ ChatMessage.timestamp answer = clock (3 + clock_reads w)
    /\ sent st' = sent (service w) ++ more
    /\ (1 <= List.length more <= 2)%nat.
Proof.
  intros Hsend. rewrite (sendMessage_run w Hsend). cbv zeta.
  destruct (attempt_requests (showPipeline (chat w)) (trim (inputMessage (chat w)))
              (service w)) as (more & Hmore & Hlen).
  eexists _, _, more. split; [reflexivity|].
  destruct (reply_fields (2 + clock_reads w)
              (attempt engine backend (showPipeline (chat w))
                 (trim (inputMessage (chat w))) (service w)).1) as (Hr & Hi & Ht).
  repeat split; try assumption; lia.
Qed.

(** When the evaluation of the extracted expression fails, the user is
    shown the fixed text "Pipeline execution failed": the message of the
    evaluator, recorded in stage 2 of the run, does not reach the
    conversation, and only the extraction request has been sent. *)
Theorem sendMessage_evaluation_error w raw error :
  can_send (chat w) = true ->
  isMathQuery (trim (inputMessage (chat w))) = true ->
  outcome (backend (sent (service w))
             (extract_request (trim (inputMessage (chat w))))) = Normal raw ->
  executeMathExpression engine (keep is_expr_char raw) = Err error ->
  messages (chat (sendMessage engine backend clock w).2)
  = messages (chat w)
    ++ [user_message clock (clock_reads w) (inputMessage (chat w));
        ChatMessage.mk (clock (2 + clock_reads w) + 1) Assistant
          [Mark CrossMark; Chars " **Error:** "; Said (Text "Pipeline execution failed")]
          (clock (3 + clock_reads w)) true false]
  /\ sent (service (sendMessage engine backend clock w).2)
     = sent (service w) ++ [extract_request (trim (inputMessage (chat w)))].
Proof.
  intros Hsend Hmath Hraw Herr. rewrite (sendMessage_run w Hsend). cbv zeta.
  unfold attempt. rewrite Hmath, solveWithPipeline_cases, Hraw, Herr. split; reflexivity.
Qed.

(** A text that is not a math query is sent to the model as it is,
    trimmed, in one request with the default model and temperature 0.7.
    The answer of the assistant is the text of the response, or, when the
    request fails, an error message with the cause. *)
Theorem sendMessage_plain_chat w :
  can_send (chat w) = true ->
  isMathQuery (trim (inputMessage (chat w))) = false ->
  sent (service (sendMessage engine backend clock w).2)
  = sent (service w) ++ [chat_request (trim (inputMessage (chat w)))]
  /\ messages (chat (sendMessage engine backend clock w).2)
     = messages (chat w)
       ++ [user_message clock (clock_reads w) (inputMessage (chat w));
           match outcome (backend (sent (service w))
                            (chat_request (trim (inputMessage (chat w))))) with
           | Normal response =>
               ChatMessage.mk (clock (2 + clock_reads w) + 1) Assistant
                 [Chars response] (clock (3 + clock_reads w)) false false
           | Throw m =>
               ChatMessage.mk (clock (2 + clock_reads w) + 1) Assistant
                 [Mark CrossMark; Chars " **Error:** "; Said m]
                 (clock (3 + clock_reads w)) true false
           end]
  /\ RequestBody.prompt (body (chat_request (trim (inputMessage (chat w)))))
     = PlainPrompt (trim (inputMessage (chat w)))
  /\ RequestBody.model (body (chat_request (trim (inputMessage (chat w))))) = "llama3"
  /\ RequestBody.options (body (chat_request (trim (inputMessage (chat w)))))
       !! "temperature" = Some (VNumber c_0_7).
Proof.
  intros Hsend Hmath. rewrite (sendMessage_run w Hsend). cbv zeta.
  unfold attempt. rewrite Hmath, generate_outcome.
  fold (chat_request (trim (inputMessage (chat w)))).
  destruct (outcome _) as [response|m]; repeat split.
Qed.

(** [initializeChatbot] replaces the conversation by one message, the
    greeting when the probe of the server is answered with a status
    200..299 and a notice of failure otherwise, and records the result of
    the probe.  After a probe that failed, [sendMessage] does nothing,
    whatever the text in the input field: no request is sent to a server
    that was not found. *)
Theorem initializeChatbot_then_send w :
  initializeChatbot fetch_probe clock w
  = (Normal tt,
     mkWorld
       (mkChat
          [if isAvailable fetch_probe
           then ChatMessage.mk (clock (clock_reads w)) Assistant
                  [Chars "Hello! I am your AI assistant."]
                  (clock (S (clock_reads w))) false false
           else ChatMessage.mk (clock (clock_reads w)) Assistant
                  [Mark CrossMark;
                   Chars (" **Ollama Connection Failed**" ++ LF ++ LF
                          ++ "Please start Ollama: `ollama serve`")%string]
                  (clock (S (clock_reads w))) true false]
          (inputMessage (chat w)) (isLoading (chat w)) (isAvailable fetch_probe)
          false (showPipeline (chat w)))
       (service w) (2 + clock_reads w))
  /\ (isAvailable fetch_probe = false ->
      sendMessage engine backend clock (initializeChatbot fetch_probe clock w).2
      = (Normal tt, (initializeChatbot fetch_probe clock w).2)).
Proof.
  assert (Hinit : initializeChatbot fetch_probe clock w
    = (Normal tt,
     mkWorld
       (mkChat
          [if isAvailable fetch_probe
           then ChatMessage.mk (clock (clock_reads w)) Assistant
                  [Chars "Hello! I am your AI assistant."]
                  (clock (S (clock_reads w))) false false
           else ChatMessage.mk (clock (clock_reads w)) Assistant
                  [Mark CrossMark;
                   Chars (" **Ollama Connection Failed**" ++ LF ++ LF
                          ++ "Please start Ollama: `ollama serve`")%string]
                  (clock (S (clock_reads w))) true false]
          (inputMessage (chat w)) (isLoading (chat w)) (isAvailable fetch_probe)
          false (showPipeline (chat w)))
       (service w) (2 + clock_reads w))).
  { unfold initializeChatbot. destruct (isAvailable fetch_probe); reflexivity. }
  split; [exact Hinit|].
  intros Hno. apply sendMessage_skip. rewrite Hinit, Hno. unfold can_send.
  cbn [snd chat inputMessage isLoading ollamaAvailable]. apply andb_false_r.
Qed.

(** The answer to a math query that the pipeline solved, piece by piece.
    With the stages hidden it is the final answer alone.  With the stages
    shown it is the header, the report of the three stages and the final
    answer.  In the report every stage has a heading with the check mark;
    stage 1 shows the expression as its output, stage 2 the expression as
    its input and the formatted result as its output, stage 3 its input
    and the trimmed answer as its output; an output line is left out when
    its value is falsy, the Number NaN or the empty text.  No stage has
    the cross mark, the hourglass or an Error line.  The message is
    flagged as a pipeline answer, not as an error. *)
Theorem sendMessage_report w raw result formatted final :
  can_send (chat w) = true ->
  isMathQuery (trim (inputMessage (chat w))) = true ->
  outcome (backend (sent (service w))
             (extract_request (trim (inputMessage (chat w))))) = Normal raw ->
  executeMathExpression engine (keep is_expr_char raw) = Ok result formatted ->
  outcome (backend (sent (service w) ++ [extract_request (trim (inputMessage (chat w)))])
             (format_request (trim (inputMessage (chat w))) raw formatted))
  = Normal final ->
  messages (chat (sendMessage engine backend clock w).2)
  = messages (chat w)
    ++ [user_message clock (clock_reads w) (inputMessage (chat w));
        ChatMessage.mk (clock (2 + clock_reads w) + 1) Assistant
          (if showPipeline (chat w) then
             [Chars ("**AI Response**" ++ LF ++ LF)%string]
             ++ complete_heading "1" "LLM: Extract Math Expression"
             ++ output_line (VString (keep is_expr_char raw))
             ++ [Chars LF]
             ++ complete_heading "2" "PAL: Execute Math"
             ++ [Chars "Input: `"; Chars (keep is_expr_char raw); Chars ("`" ++ LF)%string]
             ++ (if truthy formatted then output_line formatted else [])
             ++ [Chars LF]
             ++ complete_heading "3" "LLM: Format Response"
             ++ [Chars "Input: `";
                 Json (FormatInput (trim (inputMessage (chat w))) (keep is_expr_char raw)
                         formatted);
                 Chars ("`" ++ LF)%string]
             ++ (if String.eqb (trim final) "" then []
                 else output_line (VString (trim final)))
             ++ [Chars LF]
             ++ [Chars ("---" ++ LF ++ LF ++ "**Final Answer:**" ++ LF)%string;
                 Chars (trim final)]
           else [Chars (trim final)])
          (clock (3 + clock_reads w)) false true].
Proof.
  intros Hsend Hmath Hraw He Hfinal.
  assert (Hne : String.eqb (keep is_expr_char raw) "" = false).
  { destruct (String.eqb_spec (keep is_expr_char raw) "") as [Heq|]; [|reflexivity].
    rewrite Heq in He.
    change (executeMathExpression engine "")
      with (Err (Native SyntaxError_invalid_source)) in He.
    discriminate He. }
  rewrite (sendMessage_run w Hsend). cbv zeta.
  unfold attempt. rewrite Hmath, solveWithPipeline_cases, Hraw, He, Hfinal.
  cbn [fst snd chat messages run_success reply]. do 3 f_equal.
  unfold responseContent. destruct (showPipeline (chat w)); [|reflexivity].
  cbn [run_stages flat_map answer_piece finalAnswer]. unfold stage_report.
  cbn [extraction_stage evaluation_stage formatting_stage
       Stage.stage Stage.name Stage.status Stage.input Stage.output Stage.error
       statusEmoji truthy truthy_input].
  rewrite Hne. cbn [negb].
  change (BigInt_toString (Z.of_nat 1)) with "1".
  change (BigInt_toString (Z.of_nat 2)) with "2".
  change (BigInt_toString (Z.of_nat 3)) with "3".
  unfold complete_heading, output_line.
  destruct (truthy formatted), (String.eqb (trim final) ""); reflexivity.
Qed.

End Conversation.

Lemma sendMessage_inert_witness :
  trim (inputMessage (mkChat [] "   " false true false true)) = ""
  /\ forall engine backend clock,
       sendMessage engine backend clock
         (mkWorld (mkChat [] "   " false true false true) (mkState [] []) 0)
       = (Normal tt, mkWorld (mkChat [] "   " false true false true) (mkState [] []) 0).
Proof.
  split; [reflexivity|]. intros engine backend clock.
  exact (sendMessage_inert engine backend clock
           (mkWorld (mkChat [] "   " false true false true) (mkState [] []) 0)
           (or_introl eq_refl)).
Defined.

Lemma sendMessage_exchange_witness :
  can_send (mkChat [] " hello there " false true false true) = true
  /\ forall engine backend clock,
       (sendMessage engine backend clock
          (mkWorld (mkChat [] " hello there " false true false true) (mkState [] []) 0)).1
       = Normal tt.
Proof.
  split; [reflexivity|]. intros engine backend clock.
  destruct (sendMessage_exchange engine backend clock
              (mkWorld (mkChat [] " hello there " false true false true) (mkState [] []) 0)
              eq_refl) as (answer & st' & more & H & _).
  rewrite H. reflexivity.
Defined.

Lemma sendMessage_evaluation_error_witness :
  can_send (mkChat [] "what is 12 plus" false true false true) = true
  /\ isMathQuery (trim "what is 12 plus") = true
  /\ outcome (backend_scripted [Response 200 "The answer is 12+!"] []
                (extract_request (trim "what is 12 plus")))
     = Normal "The answer is 12+!"
  /\ (forall engine,
        executeMathExpression engine (keep is_expr_char "The answer is 12+!")
        = Err (Native SyntaxError_invalid_source))
  /\ forall engine clock,
       messages (chat (sendMessage engine
                         (backend_scripted [Response 200 "The answer is 12+!"]) clock
                         (mkWorld (mkChat [] "what is 12 plus" false true false true)
                            (mkState [] []) 0)).2)
       = [ChatMessage.mk (clock 0%nat) User [Chars "what is 12 plus"] (clock 1%nat)
            false false;
          ChatMessage.mk (clock 2%nat + 1) Assistant
            [Mark CrossMark; Chars " **Error:** "; Said (Text "Pipeline execution failed")]
            (clock 3%nat) true false].
Proof.
  split; [reflexivity|]. split; [reflexivity|]. split; [reflexivity|].
  split; [reflexivity|]. intros engine clock.
  exact (proj1 (sendMessage_evaluation_error engine
                  (backend_scripted [Response 200 "The answer is 12+!"]) clock
                  (mkWorld (mkChat [] "what is 12 plus" false true false true)
                     (mkState [] []) 0)
                  "The answer is 12+!" (Native SyntaxError_invalid_source)
                  eq_refl eq_refl eq_refl eq_refl)).
Defined.

Lemma sendMessage_plain_chat_witness :
  can_send (mkChat [] " hello there " false true false true) = true
  /\ isMathQuery (trim " hello there ") = false
  /\ forall engine clock,
       sent (service (sendMessage engine (backend_scripted [Response 200 "Hi!"]) clock
                        (mkWorld (mkChat [] " hello there " false true false true)
                           (mkState [] []) 0)).2)
       = [chat_request "hello there"].
Proof.
  split; [reflexivity|]. split; [reflexivity|]. intros engine clock.
  exact (proj1 (sendMessage_plain_chat engine (backend_scripted [Response 200 "Hi!"]) clock
                  (mkWorld (mkChat [] " hello there " false true false true)
                     (mkState [] []) 0)
                  eq_refl eq_refl)).
Defined.

Lemma initializeChatbot_then_send_witness :
  isAvailable probe_refused = false
  /\ forall engine backend clock,
       sendMessage engine backend clock
         (initializeChatbot probe_refused clock
            (mkWorld (mkChat [] "what is 2+2" false true true true) (mkState [] []) 0)).2
       = (Normal tt,
          (initializeChatbot probe_refused clock
             (mkWorld (mkChat [] "what is 2+2" false true true true) (mkState [] []) 0)).2).
Proof.
  split; [reflexivity|]. intros engine backend clock.
  exact (proj2 (initializeChatbot_then_send engine backend probe_refused clock
                  (mkWorld (mkChat [] "what is 2+2" false true true true) (mkState [] []) 0))
           eq_refl).
Defined.

Lemma sendMessage_report_witness :
  can_send (mkChat [] "calculate 100 minus 37" false true false true) = true
  /\ isMathQuery (trim "calculate 100 minus 37") = true
  /\ (forall engine,
        executeMathExpression engine (keep is_expr_char "100-37")
        = Ok (VNumber 63) (VNumber 63))
  /\ forall engine clock,
       messages (chat (sendMessage engine
                         (backend_scripted
                            [Response 200 "100-37"; Response 200 " The answer is 63. "])
                         clock
                         (mkWorld (mkChat [] "calculate 100 minus 37" false true false true)
                            (mkState [] []) 0)).2)
       = [ChatMessage.mk (clock 0%nat) User [Chars "calculate 100 minus 37"] (clock 1%nat)
            false false;
          ChatMessage.mk (clock 2%nat + 1) Assistant
            ([Chars ("**AI Response**" ++ LF ++ LF)%string;
              Chars "**"; Mark CheckMark; Chars " Stage "; Chars "1"; Chars ": ";
              Chars "LLM: Extract Math Expression"; Chars ("**" ++ LF)%string;
              Chars "Output: `"; Shown (VString "100-37"); Chars ("`" ++ LF)%string;
              Chars LF;
              Chars "**"; Mark CheckMark; Chars " Stage "; Chars "2"; Chars ": ";
              Chars "PAL: Execute Math"; Chars ("**" ++ LF)%string;
              Chars "Input: `"; Chars "100-37"; Chars ("`" ++ LF)%string;
              Chars "Output: `"; Shown (VNumber 63); Chars ("`" ++ LF)%string;
              Chars LF;
              Chars "**"; Mark CheckMark; Chars " Stage "; Chars "3"; Chars ": ";
              Chars "LLM: Format Response"; Chars ("**" ++ LF)%string;
              Chars "Input: `";
              Json (FormatInput "calculate 100 minus 37" "100-37" (VNumber 63));
              Chars ("`" ++ LF)%string;
              Chars "Output: `"; Shown (VString "The answer is 63.");
              Chars ("`" ++ LF)%string;
              Chars LF;
              Chars ("---" ++ LF ++ LF ++ "**Final Answer:**" ++ LF)%string;
              Chars "The answer is 63."])
            (clock 3%nat) false true].
Proof.
  split; [reflexivity|]. split; [reflexivity|]. split; [reflexivity|].
  intros engine clock.
  exact (sendMessage_report engine
           (backend_scripted [Response 200 "100-37"; Response 200 " The answer is 63. "])
           clock
           (mkWorld (mkChat [] "calculate 100 minus 37" false true false true)
              (mkState [] []) 0)
           "100-37" (VNumber 63) (VNumber 63) " The answer is 63. "
           eq_refl eq_refl eq_refl eq_refl eq_refl).
Defined.

(** ** The markup of a message *)

Lemma exec_none r s :
  rmatch r [] [] k0 = None ->
  (forall a t, In a s -> rmatch r (a :: t) [] k0 = None) ->
  exec r s = None.
Proof.
  intros Hnil. induction s as [|a s IH]; intros H.
  - simpl. unfold k0 in Hnil. rewrite Hnil. reflexivity.
  - rewrite exec_later by (apply H; left; reflexivity).
    rewrite IH; [reflexivity|]. intros b t Hb. apply H. right. assumption.
Qed.

Lemma pexec_none p s :
  pmatch p [] [] k0 = None ->
  (forall a t, In a s -> pmatch p (a :: t) [] k0 = None) ->
  pexec p s = None.
Proof.
  intros Hnil. induction s as [|a s IH]; intros H.
  - simpl. unfold k0 in Hnil. rewrite Hnil. reflexivity.
  - cbn [pexec]. fold (@k0). rewrite (H a s (or_introl eq_refl)).
    rewrite IH; [reflexivity|]. intros b t Hb. apply H. right. assumption.
Qed.

Lemma replace_all_none r repl s :
  exec r (list_ascii_of_string s) = None -> replace_all r repl s = s.
Proof.
  intros H. unfold replace_all. cbn [replace_loop]. rewrite H.
  apply string_of_list_ascii_of_string.
Qed.

Lemma substitute_all_none p repl s :
  pexec p (list_ascii_of_string s) = None -> substitute_all p repl s = s.
Proof.
  intros H. unfold substitute_all. cbn [substitute_loop]. rewrite H.
  apply string_of_list_ascii_of_string.
Qed.

Lemma not_markup_char a :
  is_markup_char a = false ->
  Ascii.eqb "*" a = false /\ Ascii.eqb "`" a = false
  /\ Ascii.eqb "-" a = false /\ Ascii.eqb "010" a = false.
Proof. destruct a as [[] [] [] [] [] [] [] []]; vm_compute; intros H; auto; discriminate. Qed.

Lemma first_char_bold a t c (k : Cont (list ascii * Captures)) :
  Ascii.eqb "*" a = false -> pmatch re_bold (a :: t) c k = None.
Proof.
  intros H. unfold re_bold, re_code, re_rule, re_newline, literal.
  cbn [list_ascii_of_string fold_right pmatch rmatch]. rewrite H. reflexivity.
Qed.

Lemma first_char_code a t c (k : Cont (list ascii * Captures)) :
  Ascii.eqb "`" a = false -> pmatch re_code (a :: t) c k = None.
Proof.
  intros H. unfold re_bold, re_code, re_rule, re_newline, literal.
  cbn [list_ascii_of_string fold_right pmatch rmatch]. rewrite H. reflexivity.
Qed.

Lemma first_char_rule a t c (k : Cont (list ascii * Captures)) :
  Ascii.eqb "-" a = false -> rmatch re_rule (a :: t) c k = None.
Proof.
  intros H. unfold re_bold, re_code, re_rule, re_newline, literal.
  cbn [list_ascii_of_string fold_right pmatch rmatch]. rewrite H. reflexivity.
Qed.

Lemma first_char_newline a t c (k : Cont (list ascii * Captures)) :
  Ascii.eqb "010" a = false -> rmatch re_newline (a :: t) c k = None.
Proof.
  intros H. unfold re_bold, re_code, re_rule, re_newline, literal.
  cbn [list_ascii_of_string fold_right pmatch rmatch]. rewrite H. reflexivity.
Qed.

(** A text without an asterisk, a backquote, a hyphen or a line feed is
    inserted into the page as it is: the characters of markup, such as the
    angle brackets, the ampersand and the quotes, are not escaped, so that
    the markup in an answer of the model becomes markup of the page. *)
Theorem markup_plain (content : string) :
  existsb is_markup_char (list_ascii_of_string content) = false ->
  markup content = content.
Proof.
  intros H. unfold markup.
  assert (Hc : forall a, In a (list_ascii_of_string content) -> is_markup_char a = false).
  { intros a Ha. eapply existsb_false_in; eassumption. }
  rewrite (substitute_all_none re_bold).
  2:{ apply pexec_none; [reflexivity|]. intros a t Ha. apply first_char_bold.
      apply not_markup_char. auto. }
  rewrite (substitute_all_none re_code).
  2:{ apply pexec_none; [reflexivity|]. intros a t Ha. apply first_char_code.
      apply not_markup_char. auto. }
  rewrite (replace_all_none re_rule).
  2:{ apply exec_none; [reflexivity|]. intros a t Ha. apply first_char_rule.
      apply not_markup_char. auto. }
  apply replace_all_none.
  apply exec_none; [reflexivity|]. intros a t Ha. apply first_char_newline.
  apply not_markup_char. auto.
Qed.

Lemma markup_plain_witness :
  existsb is_markup_char (list_ascii_of_string "<img src=x onerror=alert(1)>") = false
  /\ markup "<img src=x onerror=alert(1)>" = "<img src=x onerror=alert(1)>".
Proof.
  split; [reflexivity|].
  exact (markup_plain "<img src=x onerror=alert(1)>" eq_refl).
Defined.



(** The lazy star of a class stops at the first place where the
    continuation succeeds. *)
Lemma lazy_loop_until {A : Type} p (k : Cont A) x rest c : forall t fuel,
  (List.length (t ++ rest) <= fuel)%nat ->
  all_in p t ->
  (forall a s' c', In a t -> k (a :: s') c' = None) ->
  k rest c = Some x ->
  lazy_loop (fun s0 c0 k0 => rmatch (Class p) s0 c0 k0) fuel (t ++ rest) c k = Some x.
Proof.
  induction t as [|a t IH]; intros fuel Hfuel Hp Hk Hrest.
  - destruct fuel; simpl; rewrite Hrest; reflexivity.
  - destruct fuel as [|fuel]; [simpl in Hfuel; lia|].
    unfold all_in in Hp. simpl in Hp. apply andb_true_iff in Hp as [Ha Hp].
    cbn [lazy_loop app]. rewrite (Hk a (t ++ rest) c (or_introl eq_refl)).
    cbn [rmatch]. rewrite Ha.
    destruct (Nat.ltb_spec (List.length (t ++ rest)) (List.length (a :: t ++ rest)))
      as [_|Hge]; [|simpl in Hge; lia].
    apply IH; [simpl in Hfuel; lia|exact Hp| |exact Hrest].
    intros b s' c' Hb. apply Hk. right. assumption.
Qed.

Lemma bold_span t :
  all_in any_char t -> existsb (Ascii.eqb "*") t = false ->
  pexec re_bold ("*" :: "*" :: t ++ ["*"; "*"])%char
  = Some (mkMatch 0 ("*" :: "*" :: t ++ ["*"; "*"])%char [(1%nat, t)] []).
Proof.
  intros Hany Hstar.
  assert (H : pmatch re_bold ("*" :: "*" :: t ++ ["*"; "*"])%char [] k0
              = Some ([], [(1%nat, t)])).
  { unfold re_bold, literal.
    cbn [list_ascii_of_string fold_right pmatch rmatch]. rewrite !Ascii.eqb_refl.
    apply lazy_loop_until; [lia|exact Hany| |].
    - intros a s' c' Ha. cbv beta iota.
      rewrite (existsb_false_in _ _ _ Hstar Ha). reflexivity.
    - cbv beta iota. rewrite !Ascii.eqb_refl. unfold k0.
      rewrite firstn_consumed. reflexivity. }
  cbn [pexec]. unfold k0 in H. rewrite H.
  cbn [List.length]. rewrite Nat.sub_0_r.
  change (S (S (List.length (t ++ ["*"%char; "*"%char]))))
    with (List.length ("*" :: "*" :: t ++ ["*"; "*"])%char).
  rewrite List.firstn_all. reflexivity.
Qed.

Lemma bold_step t :
  all_in any_char (list_ascii_of_string t) ->
  existsb (Ascii.eqb "*") (list_ascii_of_string t) = false ->
  substitute_all re_bold [Literal strong_open; Reference 1; Literal "</strong>"]
    ("**" ++ t ++ "**")
  = (strong_open ++ t ++ "</strong>")%string.
Proof.
  intros Hany Hstar. unfold substitute_all.
  rewrite !list_ascii_of_string_app. cbn [list_ascii_of_string app].
  cbn [substitute_loop]. rewrite (bold_span _ Hany Hstar).
  cbn [m_index m_text m_rest m_groups firstn app List.length substitute_loop pexec].
  change (pmatch re_bold [] [] _) with (@None (list ascii * Captures)). cbv iota.
  unfold expand. cbn [flat_map group Nat.eqb].
  rewrite !List.app_nil_r, !string_of_list_ascii_app, !string_of_list_ascii_of_string.
  reflexivity.
Qed.

Lemma in_tagged (q : ascii -> bool) (l1 t l2 : list ascii) :
  forallb q l1 = true -> (forall a, In a t -> q a = true) -> forallb q l2 = true ->
  forall a, In a (l1 ++ t ++ l2) -> q a = true.
Proof.
  intros H1 Ht H2 a Ha. rewrite forallb_forall in H1, H2.
  rewrite !in_app_iff in Ha. destruct Ha as [Ha|[Ha|Ha]]; auto.
Qed.

(** A text between two pairs of asterisks, itself without an asterisk, a
    backquote, a hyphen or a line terminator, becomes the content of one
    [strong] element, unchanged. *)
Theorem markup_bold (t : string) :
  existsb is_markup_char (list_ascii_of_string t) = false ->
  existsb is_line_terminator (list_ascii_of_string t) = false ->
  markup ("**" ++ t ++ "**") = (strong_open ++ t ++ "</strong>")%string.
Proof.
  intros Hm Hl. unfold markup.
  assert (Hc : forall a, In a (list_ascii_of_string t) -> is_markup_char a = false).
  { intros a Ha. eapply existsb_false_in; eassumption. }
  rewrite bold_step.
  2:{ unfold all_in. apply forallb_forall. intros a Ha. unfold any_char.
      rewrite (existsb_false_in _ _ _ Hl Ha). reflexivity. }
  2:{ destruct (existsb (Ascii.eqb "*") (list_ascii_of_string t)) eqn:E; [|reflexivity].
      apply existsb_exists in E as (a & Ha & E).
      rewrite (proj1 (not_markup_char a (Hc a Ha))) in E. discriminate. }
  rewrite (substitute_all_none re_code).
  2:{ apply pexec_none; [reflexivity|]. intros a s' Ha. apply first_char_code.
      rewrite !list_ascii_of_string_app in Ha.
      apply negb_true_iff.
      refine (in_tagged (fun a => negb (Ascii.eqb "`" a)) _ _ _ _ _ _ a Ha);
        [reflexivity| |reflexivity].
      intros b Hb. apply negb_true_iff. apply not_markup_char. auto. }
  rewrite (replace_all_none re_rule).
  2:{ rewrite !list_ascii_of_string_app.
      let l := eval vm_compute in (list_ascii_of_string strong_open) in
      change (list_ascii_of_string strong_open) with l.
      cbn [app]. repeat (rewrite exec_later by reflexivity).
      rewrite exec_none; [reflexivity|reflexivity|].
      intros a s' Ha. apply first_char_rule. apply in_app_iff in Ha as [Ha|Ha].
      - apply not_markup_char. auto.
      - apply negb_true_iff.
        revert a Ha. apply forallb_forall. reflexivity. }
  apply replace_all_none.
  apply exec_none; [reflexivity|]. intros a s' Ha. apply first_char_newline.
  rewrite !list_ascii_of_string_app in Ha.
  apply negb_true_iff.
  refine (in_tagged (fun a => negb (Ascii.eqb "010" a)) _ _ _ _ _ _ a Ha);
    [reflexivity| |reflexivity].
  intros b Hb. apply negb_true_iff. apply not_markup_char. auto.
Qed.

Lemma markup_bold_witness :
  existsb is_markup_char (list_ascii_of_string "Final Answer:") = false
  /\ existsb is_line_terminator (list_ascii_of_string "Final Answer:") = false
  /\ markup "**Final Answer:**" = (strong_open ++ "Final Answer:</strong>")%string.
Proof.
  split; [reflexivity|]. split; [reflexivity|].
  exact (markup_bold "Final Answer:" eq_refl eq_refl).
Defined.

(** ** Code spans *)

Lemma rmatch_class_cons {A : Type} p a s c (k : Cont A) :
  rmatch (Class p) (a :: s) c k = if p a then k s c else None.
Proof. reflexivity. Qed.

Lemma code_span t :
  t <> [] -> existsb (Ascii.eqb "`") t = false ->
  pexec re_code ("`" :: t ++ ["`"])%char
  = Some (mkMatch 0 ("`" :: t ++ ["`"])%char [(1%nat, t)] []).
Proof.
  intros Hne Hq.
  assert (H : pmatch re_code ("`" :: t ++ ["`"])%char [] k0 = Some ([], [(1%nat, t)])).
  { unfold re_code. cbn [pmatch].
    rewrite rmatch_seq, rmatch_class_cons, Ascii.eqb_refl, rmatch_seq.
    apply (rmatch_group_plus _ _ _ t ["`"%char]); [reflexivity|exact Hne| |reflexivity|].
    - unfold all_in. apply forallb_forall. intros a Ha.
      rewrite (existsb_false_in _ _ _ Hq Ha). reflexivity.
    - rewrite rmatch_class_cons, Ascii.eqb_refl. reflexivity. }
  cbn [pexec]. unfold k0 in H. rewrite H.
  cbn [List.length]. rewrite Nat.sub_0_r.
  change (S (List.length (t ++ ["`"%char])))
    with (List.length ("`" :: t ++ ["`"])%char).
  rewrite List.firstn_all. reflexivity.
Qed.

Lemma code_step t :
  t <> "" ->
  existsb (Ascii.eqb "`") (list_ascii_of_string t) = false ->
  substitute_all re_code [Literal code_open; Reference 1; Literal "</code>"]
    ("`" ++ t ++ "`")
  = (code_open ++ t ++ "</code>")%string.
Proof.
  intros Hne Hq. unfold substitute_all.
  assert (Hl : list_ascii_of_string t <> []) by (destruct t; [congruence|discriminate]).
  rewrite !list_ascii_of_string_app. cbn [list_ascii_of_string app].
  cbn [substitute_loop]. rewrite (code_span _ Hl Hq).
  cbn [m_index m_text m_rest m_groups firstn app List.length substitute_loop pexec].
  change (pmatch re_code [] [] _) with (@None (list ascii * Captures)). cbv iota.
  unfold expand. cbn [flat_map group Nat.eqb].
  rewrite !List.app_nil_r, !string_of_list_ascii_app, !string_of_list_ascii_of_string.
  reflexivity.
Qed.

(** A text between two backquotes, not empty and itself without an
    asterisk, a backquote, a hyphen or a line feed, becomes the content of
    one [code] element, unchanged. *)
Theorem markup_code (t : string) :
  t <> "" ->
  existsb is_markup_char (list_ascii_of_string t) = false ->
  markup ("`" ++ t ++ "`") = (code_open ++ t ++ "</code>")%string.
Proof.
  intros Hne Hm. unfold markup.
  assert (Hc : forall a, In a (list_ascii_of_string t) -> is_markup_char a = false).
  { intros a Ha. eapply existsb_false_in; eassumption. }
  rewrite (substitute_all_none re_bold).
  2:{ apply pexec_none; [reflexivity|]. intros a s' Ha. apply first_char_bold.
      rewrite !list_ascii_of_string_app in Ha.
      apply negb_true_iff.
      refine (in_tagged (fun a => negb (Ascii.eqb "*" a)) _ _ _ _ _ _ a Ha);
        [reflexivity| |reflexivity].
      intros b Hb. apply negb_true_iff. apply not_markup_char. auto. }
  rewrite code_step; [|exact Hne|].
  2:{ destruct (existsb (Ascii.eqb "`") (list_ascii_of_string t)) eqn:E; [|reflexivity].
      apply existsb_exists in E as (a & Ha & E).
      rewrite (proj1 (proj2 (not_markup_char a (Hc a Ha)))) in E. discriminate. }
  rewrite (replace_all_none re_rule).
  2:{ rewrite !list_ascii_of_string_app.
      let l := eval vm_compute in (list_ascii_of_string code_open) in
      change (list_ascii_of_string code_open) with l.
      cbn [app]. repeat (rewrite exec_later by reflexivity).
      rewrite exec_none; [reflexivity|reflexivity|].
      intros a s' Ha. apply first_char_rule. apply in_app_iff in Ha as [Ha|Ha].
      - apply not_markup_char. auto.
      - apply negb_true_iff.
        revert a Ha. apply forallb_forall. reflexivity. }
  apply replace_all_none.
  apply exec_none; [reflexivity|]. intros a s' Ha. apply first_char_newline.
  rewrite !list_ascii_of_string_app in Ha.
  apply negb_true_iff.
  refine (in_tagged (fun a => negb (Ascii.eqb "010" a)) _ _ _ _ _ _ a Ha);
    [reflexivity| |reflexivity].
  intros b Hb. apply negb_true_iff. apply not_markup_char. auto.
Qed.

Lemma markup_code_witness :
  "12+5" <> ""
  /\ existsb is_markup_char (list_ascii_of_string "12+5") = false
  /\ markup "`12+5`" = (code_open ++ "12+5</code>")%string.
Proof.
  split; [discriminate|]. split; [reflexivity|].
  exact (markup_code "12+5" ltac:(discriminate) eq_refl).
Defined.
